(** * BarSed_Lib: the [Run] class of [lib/data_classes/Run.py]

    A shallow embedding of the wave-flume [Run] aggregate: the conversion of
    MATLAB day codes into calendar timestamps, the construction of the wave
    maker and of the wave gauges from the arrays of a [.mat] container, the two
    [add_*] operations with their [isinstance] guards, and the three derived
    matrices.

    Python objects are mutable and every method works on [self]; the embedding
    threads a [world] (the [Run] object and the lines printed so far) through a
    small state-and-exception monad, so that what a method has already stored
    when it raises stays visible afterwards, as it does in Python.

    Numbers are binary64 floats ([numpy.float64] and Python's [float]), taken
    from the kernel's primitive floats. *)

From Stdlib Require Import String Ascii.
From Stdlib Require Import ZArith List Bool Lia PeanoNat.
From Stdlib Require Import Floats.
From Stdlib Require Uint63 DecimalString.
Import ListNotations.
Open Scope list_scope.

Set Implicit Arguments.

(* ================================================================== *)
(** ** Python: exceptions and results *)

Module Py.

(** The built-in exception classes that the code of [Run.py], or a library
    call it makes, can raise. *)
Inductive exn_class : Type :=
| TypeError
| IndexError
| AttributeError
| ValueError
| KeyError
| OverflowError
| OSError.

Record exn : Type := mk_exn { exn_cls : exn_class; exn_msg : string }.

(** What evaluating an expression gives: a value, or a raised exception. *)
Inductive outcome (A : Type) : Type :=
| Return (a : A)
| Raise (e : exn).

Arguments Return {A} a.
Arguments Raise {A} e.

Definition obind {A B} (c : outcome A) (k : A -> outcome B) : outcome B :=
  match c with
  | Return a => k a
  | Raise e => Raise e
  end.

(** [str(n)] for an [int]. *)
Definition str_of_nat (n : nat) : string :=
  DecimalString.NilEmpty.string_of_uint (Nat.to_uint n).

Definition str_of_Z (z : Z) : string :=
  DecimalString.NilZero.string_of_int (Z.to_int z).

(** [xs[i]] on a Python list, for an index that is not negative. *)
Definition getitem {A} (xs : list A) (i : nat) : outcome A :=
  match nth_error xs i with
  | Some a => Return a
  | None => Raise (mk_exn IndexError "list index out of range")
  end.

(** [enumerate(xs)], counting from [start]. *)
Fixpoint enumerate_from {A} (start : nat) (xs : list A) : list (nat * A) :=
  match xs with
  | [] => []
  | x :: rest => (start, x) :: enumerate_from (S start) rest
  end.

Definition enumerate {A} (xs : list A) : list (nat * A) := enumerate_from 0 xs.

(** [zip(xs, ys)] stops at the end of the shorter argument. *)
Definition zip {A B} (xs : list A) (ys : list B) : list (A * B) := combine xs ys.

(** A [for] loop whose body may raise: the loop variables are threaded as
    [acc], and the first exception ends the loop. *)
Fixpoint for_each {S A} (xs : list A) (body : S -> A -> outcome S) (acc : S)
  : outcome S :=
  match xs with
  | [] => Return acc
  | x :: rest =>
      match body acc x with
      | Return acc' => for_each rest body acc'
      | Raise e => Raise e
      end
  end.

(** The spec's error taxonomy (its section 7). [Run.py] defines no exception
    class of its own; of the six kinds only the type mismatch has a
    counterpart that the code raises on purpose, the [TypeError] of the two
    [add_*] operations. *)
Inductive spec_error : Type :=
| FileAccessError
| MissingVariableError
| ShapeMismatchError
| TypeMismatchError
| PreconditionError
| EmptySequenceError.

Definition spec_error_of (c : exn_class) : option spec_error :=
  match c with
  | TypeError => Some TypeMismatchError
  | OSError => Some FileAccessError
  | _ => None
  end.

End Py.
Import Py.

Notation "x <-- c ;; k" := (Py.obind c (fun x => k))
  (at level 61, c at next level, right associativity).

(* ================================================================== *)
(** ** Binary64: the exact value of a float *)

Module F64.

(** A finite float is [m * 2^e] for a signed integer [m]. *)
Inductive reading : Type :=
| NaN
| Inf (negative : bool)
| Dyadic (m e : Z).

Definition read (f : float) : reading :=
  match Prim2SF f with
  | S754_nan => NaN
  | S754_infinity s => Inf s
  | S754_zero _ => Dyadic 0 0
  | S754_finite s m e => Dyadic (if s then Z.neg m else Z.pos m) e
  end.

(** The integer nearest to zero of [m * 2^e] (C's [modf], integer part). *)
Definition trunc (m e : Z) : Z :=
  if (0 <=? e)%Z then (m * 2 ^ e)%Z else Z.quot m (2 ^ (- e)).

(** [m * 2^e] rounded to the nearest integer, ties to the even one. *)
Definition round_half_even (m e : Z) : Z :=
  if (0 <=? e)%Z then (m * 2 ^ e)%Z
  else
    let d := (2 ^ (- e))%Z in
    let q := (m / d)%Z in
    let r := (m mod d)%Z in
    match (2 * r ?= d)%Z with
    | Lt => q
    | Gt => (q + 1)%Z
    | Eq => if Z.even q then q else (q + 1)%Z
    end.

(** The float of an integer below [2^53] in magnitude (exact). *)
Definition of_Z (z : Z) : float :=
  if (z <? 0)%Z
  then PrimFloat.opp (PrimFloat.of_uint63 (Uint63.of_Z (- z)))
  else PrimFloat.of_uint63 (Uint63.of_Z z).

(** The fractional part of [f], whose integer part is [ip]: the subtraction
    is exact; a float of magnitude [2^53] or more is an integer. *)
Definition frac (f : float) (ip : Z) : float :=
  if (Z.abs ip <? 2 ^ 53)%Z then PrimFloat.sub f (of_Z ip) else 0%float.

End F64.

(* ================================================================== *)
(** ** Python's [datetime] module, as far as [Run.py] uses it *)

Module PyDatetime.

(** A [timedelta] has microsecond resolution; it is held as its total
    number of microseconds. *)
Record timedelta : Type := mk_timedelta { total_us : Z }.

(** A naive [datetime], held as the microseconds since
    [datetime(1, 1, 1)], and a [date], held as the days since
    [date(1, 1, 1)]. *)
Record datetime : Type := mk_datetime { since_epoch_us : Z }.
Record date : Type := mk_date { since_epoch_days : Z }.

Definition us_per_day : Z := 86400000000.
Definition max_delta_days : Z := 999999999.

(** [date.max] is 9999-12-31, of ordinal 3652059. *)
Definition max_ordinal : Z := 3652059.

(** The proleptic Gregorian ordinal of a day, 1 for 0001-01-01, as the
    module computes it. *)
Definition is_leap (year : Z) : bool :=
  ((year mod 4 =? 0) && (negb (year mod 100 =? 0) || (year mod 400 =? 0)))%Z.

Definition days_before_year (year : Z) : Z :=
  let y := (year - 1)%Z in
  (y * 365 + y / 4 - y / 100 + y / 400)%Z.

Definition days_before_month (year month : Z) : Z :=
  (nth (Z.to_nat month) [0; 0; 31; 59; 90; 120; 151; 181; 212; 243; 273; 304; 334] 0
   + (if (2 <? month) && is_leap year then 1 else 0))%Z.

Definition ymd2ord (year month day : Z) : Z :=
  (days_before_year year + days_before_month year month + day)%Z.

(** [datetime(year, month, day)] for a valid day: midnight of that day. *)
Definition datetime_ymd (year month day : Z) : datetime :=
  mk_datetime ((ymd2ord year month day - 1) * us_per_day).

(** [date(year, month, day)] for a valid day. *)
Definition date_ymd (year month day : Z) : date :=
  mk_date (ymd2ord year month day - 1).

(** The microseconds of [timedelta(days = d)] before the range check, as
    CPython's constructor computes them: the whole days are converted
    exactly, the fractional day is multiplied by the microseconds of a day
    in floating point and that product is rounded to the nearest
    microsecond, ties to even. *)
Definition days_to_us (d : float) : outcome Z :=
  match F64.read d with
  | F64.NaN =>
      Raise (mk_exn ValueError "cannot convert float NaN to integer")
  | F64.Inf _ =>
      Raise (mk_exn OverflowError "cannot convert float infinity to integer")
  | F64.Dyadic m e =>
      let intpart := F64.trunc m e in
      let fracpart := F64.frac d intpart in
      let whole := (intpart * us_per_day)%Z in
      match F64.read (PrimFloat.mul 86400000000%float fracpart) with
      | F64.Dyadic m' e' => Return (whole + F64.round_half_even m' e')%Z
      | _ => Return whole
      end
  end.

(** [timedelta(days = d)] for a float [d]. *)
Definition timedelta_days (d : float) : outcome timedelta :=
  us <-- days_to_us d ;;
  let days := (us / us_per_day)%Z in
  if (Z.abs days <=? max_delta_days)%Z
  then Return (mk_timedelta us)
  else if (Z.abs days <? 2 ^ 31)%Z
  then Raise (mk_exn OverflowError
                ("days=" ++ str_of_Z days
                   ++ "; must have magnitude <= 999999999")%string)
  else Raise (mk_exn OverflowError "Python int too large to convert to C int").

(** [dt + delta]: the result has to be a day of the years 1 to 9999. *)
Definition datetime_add (dt : datetime) (delta : timedelta) : outcome datetime :=
  let us := (since_epoch_us dt + total_us delta)%Z in
  if ((0 <=? us) && (us <? max_ordinal * us_per_day))%Z
  then Return (mk_datetime us)
  else Raise (mk_exn OverflowError "date value out of range").

(** [dt.date()]. *)
Definition date_of (dt : datetime) : date :=
  mk_date (since_epoch_us dt / us_per_day).

End PyDatetime.

(* ================================================================== *)
(** ** numpy: one- and two-axis float arrays *)

Module Numpy.

(** A two-axis array: its rows, and the length of its second axis (which
    the rows alone do not tell when there is none). *)
Record ndarray2 : Type := mk_ndarray2 { ncols : nat; rows : list (list float) }.

Definition nrows (a : ndarray2) : nat := length (rows a).

(** [a.shape == (n, m)], every row being of length [m]. *)
Definition has_shape (a : ndarray2) (n m : nat) : Prop :=
  nrows a = n /\ ncols a = m /\ Forall (fun r => length r = m) (rows a).

(** [np.zeros((n, m))]. *)
Definition zeros (n m : nat) : ndarray2 :=
  mk_ndarray2 m (repeat (repeat 0%float m) n).

(** [a[:, j]] for [j] within the second axis. *)
Definition column (j : nat) (a : ndarray2) : list float :=
  map (fun r => nth j r 0%float) (rows a).

(** Shapes as numpy prints them in its messages. *)
Definition shape1 (n : nat) : string :=
  ("(" ++ str_of_nat n ++ ",)")%string.

Definition shape2 (n m : nat) : string :=
  ("(" ++ str_of_nat n ++ "," ++ str_of_nat m ++ ")")%string.

Definition broadcast_error (src dst : string) : exn :=
  mk_exn ValueError
    ("could not broadcast input array from shape " ++ src
       ++ " into shape " ++ dst)%string.

Definition index_error (i axis size : nat) : exn :=
  mk_exn IndexError
    ("index " ++ str_of_nat i ++ " is out of bounds for axis "
       ++ str_of_nat axis ++ " with size " ++ str_of_nat size)%string.

(** [a[i]] along the first axis, for an index that is not negative. *)
Definition item {A} (a : list A) (i : nat) : outcome A :=
  match nth_error a i with
  | Some x => Return x
  | None => Raise (index_error i 0 (length a))
  end.

(** Broadcasting a one-axis array to length [n]: it has that length
    already, or it has one element, which is repeated; [err] is raised
    otherwise. *)
Definition broadcast_to {A} (err : exn) (src : list A) (n : nat)
  : outcome (list A) :=
  if length src =? n then Return src
  else match src with
       | [v] => Return (repeat v n)
       | _ => Raise err
       end.

Fixpoint set_nth {A} (j : nat) (v : A) (xs : list A) : list A :=
  match xs, j with
  | [], _ => []
  | _ :: rest, O => v :: rest
  | x :: rest, S j' => x :: set_nth j' v rest
  end.

(** [a[:, j] = src] for a one-axis [src]. *)
Definition set_column (a : ndarray2) (j : nat) (src : list float)
  : outcome ndarray2 :=
  if j <? ncols a then
    col <-- broadcast_to
              (broadcast_error (shape1 (length src)) (shape1 (nrows a)))
              src (nrows a) ;;
    Return (mk_ndarray2 (ncols a)
              (map (fun rv => set_nth j (snd rv) (fst rv)) (combine (rows a) col)))
  else Raise (index_error j 1 (ncols a)).

(** [a[i, j] = v]. *)
Definition set_item (a : ndarray2) (i j : nat) (v : float) : outcome ndarray2 :=
  if i <? nrows a then
    if j <? ncols a then
      Return (mk_ndarray2 (ncols a)
                (map (fun ir => if fst ir =? i then set_nth j v (snd ir) else snd ir)
                     (enumerate (rows a))))
    else Raise (index_error j 1 (ncols a))
  else Raise (index_error i 0 (nrows a)).

(** [a[:, 1:] = src] for a one-axis [src]: every row of the slice receives
    [src], broadcast to the width of the slice. *)
Definition set_columns_from_1 (a : ndarray2) (src : list float)
  : outcome ndarray2 :=
  tail <-- broadcast_to
             (broadcast_error (shape1 (length src))
                (shape2 (nrows a) (ncols a - 1)))
             src (ncols a - 1) ;;
  Return (mk_ndarray2 (ncols a) (map (fun r => firstn 1 r ++ tail) (rows a))).

(** [a[:, 1:] = src] for a two-axis [src]: each axis of [src] matches the
    slice or has length one. *)
Definition set_columns_from_2 (a : ndarray2) (src : ndarray2)
  : outcome ndarray2 :=
  let w := ncols a - 1 in
  let err :=
    broadcast_error (shape2 (nrows src) (ncols src)) (shape2 (nrows a) w) in
  if (ncols src =? w) || (ncols src =? 1) then
    tails <-- broadcast_to err (rows src) (nrows a) ;;
    Return (mk_ndarray2 (ncols a)
              (map (fun rt =>
                      firstn 1 (fst rt) ++
                      (if ncols src =? w then snd rt
                       else repeat (hd 0%float (snd rt)) w))
                   (combine (rows a) tails)))
  else Raise err.

End Numpy.

(* ================================================================== *)
(** ** The two leaf classes *)

Module WaveGauge.

(** Modelled from the spec: the class [WaveGauge] of
    [lib/data_classes/WaveGauge.py], which is not among the sources. The
    spec's GaugeRecord holds an identifier, an (x, y) location, an elevation
    series and the shared time axis; [Run.py] builds one with
    [WaveGauge(id, location, eta, datetime)] and reads its attributes [id],
    [location] and [eta]: the constructor keeps its four arguments. *)
Record t : Type := new {
  id : Z;
  location : float * float;
  eta : list float;
  datetime : option (list PyDatetime.datetime)
}.

End WaveGauge.

Module WaveMaker.

(** Modelled from the spec: the class [WaveMaker] of
    [lib/data_classes/WaveMaker.py], which is not among the sources. The
    spec's ActuatorRecord holds an elevation series, a position series and
    the shared time axis; [Run.py] builds one with
    [WaveMaker(eta_wm, x_wm, datetime)] and reads its attributes [eta_wm]
    and [position]. *)
Record t : Type := new {
  eta_wm : list float;
  position : list float;
  datetime : option (list PyDatetime.datetime)
}.

End WaveMaker.

(** ** Python objects that a caller can pass to the [add_*] operations *)

Set Warnings "-register-all".

Inductive pyobj : Type :=
| PyNone
| PyBool (b : bool)
| PyInt (z : Z)
| PyFloat (f : float)
| PyStr (s : string)
| PyTuple (items : list pyobj)
| PyList (items : list pyobj)
| PyNdarray (a : list float)
| PyWaveGauge (g : WaveGauge.t)
| PyWaveMaker (m : WaveMaker.t).

(** The name in [type(obj)], as [f"{type(obj)}"] prints it between
    [<class '] and ['>]. *)
Definition type_name (obj : pyobj) : string :=
  match obj with
  | PyNone => "NoneType"
  | PyBool _ => "bool"
  | PyInt _ => "int"
  | PyFloat _ => "float"
  | PyStr _ => "str"
  | PyTuple _ => "tuple"
  | PyList _ => "list"
  | PyNdarray _ => "numpy.ndarray"
  | PyWaveGauge _ => "lib.data_classes.WaveGauge.WaveGauge"
  | PyWaveMaker _ => "lib.data_classes.WaveMaker.WaveMaker"
  end.

Definition type_repr (obj : pyobj) : string :=
  ("<class '" ++ type_name obj ++ "'>")%string.

(** The class name that an [AttributeError] message quotes. *)
Definition class_name (obj : pyobj) : string :=
  match obj with
  | PyWaveGauge _ => "WaveGauge"
  | PyWaveMaker _ => "WaveMaker"
  | _ => type_name obj
  end.

(** [isinstance(obj, WaveMaker)], [isinstance(obj, WaveGauge)] and
    [isinstance(obj, list)]. *)
Definition is_WaveMaker (obj : pyobj) : bool :=
  match obj with PyWaveMaker _ => true | _ => false end.

Definition is_WaveGauge (obj : pyobj) : bool :=
  match obj with PyWaveGauge _ => true | _ => false end.

Definition is_list (obj : pyobj) : bool :=
  match obj with PyList _ => true | _ => false end.

(* ================================================================== *)
(** ** pandas: the labelled table of gauge locations *)

(** [pd.DataFrame(values, columns = columns)]. *)
Record DataFrame : Type := mk_DataFrame {
  df_values : Numpy.ndarray2;
  df_columns : list string
}.

Fixpoint index_of (label : string) (labels : list string) : option nat :=
  match labels with
  | [] => None
  | l :: rest =>
      if String.eqb l label then Some 0
      else option_map S (index_of label rest)
  end.

(** [df[label]]: the column of that label, as a one-axis series. *)
Definition df_getitem (df : DataFrame) (label : string) : outcome (list float) :=
  match index_of label (df_columns df) with
  | Some j => Return (Numpy.column j (df_values df))
  | None => Raise (mk_exn KeyError ("'" ++ label ++ "'")%string)
  end.

(* ================================================================== *)
(** ** The [Run] object and its world *)

(** The attributes of a [Run]. Those that [__init__] sets to [None] hold
    [None] until a method stores a value. The last four are not created by
    [__init__]: there [None] stands for an attribute that does not exist yet,
    and reading it raises [AttributeError]. *)
Record Run : Type := mk_Run {
  id : string;
  wave_file_path : string;
  datetime : option (list PyDatetime.datetime);
  start_date : option PyDatetime.date;
  num_times : option nat;
  wave_gauges : list pyobj;
  num_wave_gauges : option nat;
  wave_maker : option WaveMaker.t;
  wave_gauge_wse : option Numpy.ndarray2;
  wg_locations : option DataFrame;
  flume_wse : option Numpy.ndarray2;
  flume_wse_locs : option Numpy.ndarray2
}.

(** [Run(id, wave_file_path)]. *)
Definition __init__ (id wave_file_path : string) : Run :=
  mk_Run id wave_file_path None None None [] None None None None None None.

(** Attribute assignment, one function per attribute that a method assigns. *)
Definition with_datetime v (r : Run) : Run :=
  mk_Run (id r) (wave_file_path r) v (start_date r) (num_times r)
    (wave_gauges r) (num_wave_gauges r) (wave_maker r) (wave_gauge_wse r)
    (wg_locations r) (flume_wse r) (flume_wse_locs r).

Definition with_start_date v (r : Run) : Run :=
  mk_Run (id r) (wave_file_path r) (datetime r) v (num_times r)
    (wave_gauges r) (num_wave_gauges r) (wave_maker r) (wave_gauge_wse r)
    (wg_locations r) (flume_wse r) (flume_wse_locs r).

Definition with_num_times v (r : Run) : Run :=
  mk_Run (id r) (wave_file_path r) (datetime r) (start_date r) v
    (wave_gauges r) (num_wave_gauges r) (wave_maker r) (wave_gauge_wse r)
    (wg_locations r) (flume_wse r) (flume_wse_locs r).

Definition with_wave_gauges v (r : Run) : Run :=
  mk_Run (id r) (wave_file_path r) (datetime r) (start_date r) (num_times r)
    v (num_wave_gauges r) (wave_maker r) (wave_gauge_wse r)
    (wg_locations r) (flume_wse r) (flume_wse_locs r).

Definition with_num_wave_gauges v (r : Run) : Run :=
  mk_Run (id r) (wave_file_path r) (datetime r) (start_date r) (num_times r)
    (wave_gauges r) v (wave_maker r) (wave_gauge_wse r)
    (wg_locations r) (flume_wse r) (flume_wse_locs r).

Definition with_wave_maker v (r : Run) : Run :=
  mk_Run (id r) (wave_file_path r) (datetime r) (start_date r) (num_times r)
    (wave_gauges r) (num_wave_gauges r) v (wave_gauge_wse r)
    (wg_locations r) (flume_wse r) (flume_wse_locs r).

Definition with_wave_gauge_wse v (r : Run) : Run :=
  mk_Run (id r) (wave_file_path r) (datetime r) (start_date r) (num_times r)
    (wave_gauges r) (num_wave_gauges r) (wave_maker r) v
    (wg_locations r) (flume_wse r) (flume_wse_locs r).

Definition with_wg_locations v (r : Run) : Run :=
  mk_Run (id r) (wave_file_path r) (datetime r) (start_date r) (num_times r)
    (wave_gauges r) (num_wave_gauges r) (wave_maker r) (wave_gauge_wse r)
    v (flume_wse r) (flume_wse_locs r).

Definition with_flume_wse v (r : Run) : Run :=
  mk_Run (id r) (wave_file_path r) (datetime r) (start_date r) (num_times r)
    (wave_gauges r) (num_wave_gauges r) (wave_maker r) (wave_gauge_wse r)
    (wg_locations r) v (flume_wse_locs r).

Definition with_flume_wse_locs v (r : Run) : Run :=
  mk_Run (id r) (wave_file_path r) (datetime r) (start_date r) (num_times r)
    (wave_gauges r) (num_wave_gauges r) (wave_maker r) (wave_gauge_wse r)
    (wg_locations r) (flume_wse r) v.

(** What a method call can change: the object, and the lines that [print]
    has written. *)
Record world : Type := mk_world { self : Run; stdout : list string }.

(** A method body: it reads and updates the world, and returns or raises.
    The world that comes with a raised exception is the one the exception
    left behind. *)
Definition M (A : Type) : Type := world -> outcome A * world.

Definition ret {A} (a : A) : M A := fun w => (Return a, w).

Definition bind {A B} (c : M A) (k : A -> M B) : M B :=
  fun w =>
    match c w with
    | (Return a, w') => k a w'
    | (Raise e, w') => (Raise e, w')
    end.

Definition raise {A} (cls : exn_class) (msg : string) : M A :=
  fun w => (Raise (mk_exn cls msg), w).

Definition lift {A} (c : outcome A) : M A := fun w => (c, w).

Definition get : M Run := fun w => (Return (self w), w).

Definition assign (upd : Run -> Run) : M unit :=
  fun w => (Return tt, mk_world (upd (self w)) (stdout w)).

Definition print (line : string) : M unit :=
  fun w => (Return tt, mk_world (self w) (stdout w ++ [line])).

Notation "x <- c ;; k" := (bind c (fun x => k))
  (at level 61, c at next level, right associativity).
Notation "c ;; k" := (bind c (fun _ => k))
  (at level 61, right associativity).

(* ================================================================== *)
(** ** Reading attributes that may hold [None] or may not exist *)

Definition none_not_subscriptable : exn :=
  mk_exn TypeError "'NoneType' object is not subscriptable".

(** [seq[i]] where [seq] is a list or [None]. *)
Definition subscript {A} (seq : option (list A)) (i : nat) : outcome A :=
  match seq with
  | Some xs => getitem xs i
  | None => Raise none_not_subscriptable
  end.

(** [len(seq)] where [seq] is a list or [None]. *)
Definition len {A} (seq : option (list A)) : outcome nat :=
  match seq with
  | Some xs => Return (length xs)
  | None => Raise (mk_exn TypeError "object of type 'NoneType' has no len()")
  end.

(** [n + 1] where [n] is an [int] or [None]. *)
Definition plus_one (n : option nat) : outcome nat :=
  match n with
  | Some k => Return (k + 1)
  | None =>
      Raise (mk_exn TypeError
               "unsupported operand type(s) for +: 'NoneType' and 'int'")
  end.

(** [np.zeros((n, m))] where [n] and [m] are each an [int] or [None]. *)
Definition np_zeros (n m : option nat) : outcome Numpy.ndarray2 :=
  match n, m with
  | Some k, Some l => Return (Numpy.zeros k l)
  | _, _ =>
      Raise (mk_exn TypeError
               "'NoneType' object cannot be interpreted as an integer")
  end.

(** [self.<name>] for an attribute that [__init__] does not create. *)
Definition getattr {A} (name : string) (v : option A) : outcome A :=
  match v with
  | Some a => Return a
  | None =>
      Raise (mk_exn AttributeError
               ("'Run' object has no attribute '" ++ name ++ "'")%string)
  end.

(** [self.wave_maker.<name>]: [None] has no attribute. *)
Definition wave_maker_attr {A} (name : string) (proj : WaveMaker.t -> A)
    (wm : option WaveMaker.t) : outcome A :=
  match wm with
  | Some m => Return (proj m)
  | None =>
      Raise (mk_exn AttributeError
               ("'NoneType' object has no attribute '" ++ name ++ "'")%string)
  end.

(** [wave_gauge.<name>] for an element of [self.wave_gauges]: only a
    [WaveGauge] has the attributes [eta] and [location]. *)
Definition wave_gauge_attr {A} (name : string) (proj : WaveGauge.t -> A)
    (obj : pyobj) : outcome A :=
  match obj with
  | PyWaveGauge g => Return (proj g)
  | _ =>
      Raise (mk_exn AttributeError
               ("'" ++ class_name obj ++ "' object has no attribute '"
                    ++ name ++ "'")%string)
  end.

Definition newline : string := String (ascii_of_nat 10) EmptyString.

(* ================================================================== *)
(** ** The methods of [Run] *)

(** [add_wave_maker(self, wave_maker)]. *)
Definition add_wave_maker (wave_maker : pyobj) : M unit :=
  match wave_maker with
  | PyWaveMaker m =>
      (* isinstance(wave_maker, WaveMaker) *)
      assign (with_wave_maker (Some m))
  | _ =>
      raise TypeError
        ("Type must be WaveMaker." ++ " Input type is " ++ type_repr wave_maker)%string
  end.

(** [add_wave_gauge(self, wave_gauge)]. A list is concatenated as it comes:
    its elements are not looked at. *)
Definition add_wave_gauge (wave_gauge : pyobj) : M unit :=
  match wave_gauge with
  | PyList items =>
      (* isinstance(wave_gauge, list) *)
      self <- get ;;
      assign (with_wave_gauges (wave_gauges self ++ items))
  | PyWaveGauge _ =>
      (* isinstance(wave_gauge, WaveGauge) *)
      self <- get ;;
      assign (with_wave_gauges (wave_gauges self ++ [wave_gauge]))
  | _ =>
      raise TypeError
        ("The type must be a list or a WaveGauge object" ++ newline
           ++ "Input type is: " ++ type_repr wave_gauge)%string
  end ;;
  self <- get ;;
  let n := length (wave_gauges self) in
  assign (with_num_wave_gauges (Some n)) ;;
  print ("New Number of " ++ str_of_nat n ++ " wave gauges")%string.

(** [_convert_mat_time_and_store(self, time_offset, mat_time)]. *)
Definition _convert_mat_time_and_store (time_offset : float)
    (mat_time : list float) : M unit :=
  let mat_time := map (fun t => (t + time_offset)%float) mat_time in
  let start_date := PyDatetime.datetime_ymd 1 1 1 in
  experiment_datetime <-
    lift (for_each (enumerate mat_time)
            (fun experiment_datetime i_time =>
               delta_datetime <-- PyDatetime.timedelta_days (snd i_time) ;;
               stamp <-- PyDatetime.datetime_add start_date delta_datetime ;;
               Return (experiment_datetime ++ [stamp]))
            []) ;;
  assign (with_datetime (Some experiment_datetime)) ;;
  self <- get ;;
  first <- lift (subscript (datetime self) 0) ;;
  assign (with_start_date (Some (PyDatetime.date_of first))) ;;
  self <- get ;;
  n <- lift (len (datetime self)) ;;
  assign (with_num_times (Some n)).

(** [_construct_wave_maker(self, eta_wm, x_wm)]. *)
Definition _construct_wave_maker (eta_wm x_wm : list float) : M unit :=
  self <- get ;;
  assign (with_wave_maker (Some (WaveMaker.new eta_wm x_wm (datetime self)))).

(** [_construct_wave_gauges(self, x_loc, y_loc, eta)]: [eta[id]] indexes the
    first axis of [eta]. *)
Definition _construct_wave_gauges (x_loc y_loc : list float)
    (eta : list (list float)) : M unit :=
  self <- get ;;
  wave_gauge_list <-
    lift (for_each (enumerate (zip x_loc y_loc))
            (fun wave_gauge_list id_location =>
               let id := fst id_location in
               let location := snd id_location in
               eta_id <-- Numpy.item eta id ;;
               let wave_gauge :=
                 WaveGauge.new (Z.of_nat id + 1) location eta_id (datetime self) in
               Return (wave_gauge_list ++ [PyWaveGauge wave_gauge]))
            []) ;;
  add_wave_gauge (PyList wave_gauge_list).

(** The arrays that [load_wave_data] takes out of the dictionary that
    [scipy.io.loadmat] returns, each already unwrapped and flattened as the
    method does it ([eta] keeps its two axes). *)
Record mat_arrays : Type := mk_mat_arrays {
  mat_date : list float;
  mat_eta : list (list float);
  mat_x : list float;
  mat_y : list float;
  mat_eta_wm : list float;
  mat_x_wm : list float
}.

(** [load_wave_data(self)]; [loadmat] stands for reading and unpacking the
    file at a path, which fails when the file cannot be read. *)
Definition load_wave_data (loadmat : string -> outcome mat_arrays) : M unit :=
  self <- get ;;
  mat_dict <- lift (loadmat (wave_file_path self)) ;;
  let time_offset := (-1.0 * (365 + 2))%float in
  let mat_time := mat_date mat_dict in
  let eta := mat_eta mat_dict in
  let x_loc := mat_x mat_dict in
  let y_loc := mat_y mat_dict in
  let eta_wm := mat_eta_wm mat_dict in
  let x_wm := mat_x_wm mat_dict in
  _convert_mat_time_and_store time_offset mat_time ;;
  _construct_wave_maker eta_wm x_wm ;;
  _construct_wave_gauges x_loc y_loc eta.

(** [construct_wave_gauge_wse(self)]. *)
Definition construct_wave_gauge_wse : M unit :=
  self <- get ;;
  surface_elevations <-
    lift (np_zeros (num_times self) (num_wave_gauges self)) ;;
  surface_elevations <-
    lift (for_each (enumerate (wave_gauges self))
            (fun surface_elevations i_wave_gauge =>
               let i := fst i_wave_gauge in
               let wave_gauge := snd i_wave_gauge in
               eta <-- wave_gauge_attr "eta" WaveGauge.eta wave_gauge ;;
               Numpy.set_column surface_elevations i eta)
            surface_elevations) ;;
  assign (with_wave_gauge_wse (Some surface_elevations)).

(** [get_wave_gauge_locations(self)]. *)
Definition get_wave_gauge_locations : M unit :=
  self <- get ;;
  let num_dim := 2 in
  location <- lift (np_zeros (num_wave_gauges self) (Some num_dim)) ;;
  let x_col := 0 in
  let y_col := 1 in
  location <-
    lift (for_each (enumerate (wave_gauges self))
            (fun location i_wave_gauge =>
               let i := fst i_wave_gauge in
               let wave_gauge := snd i_wave_gauge in
               xy <-- wave_gauge_attr "location" WaveGauge.location wave_gauge ;;
               location <-- Numpy.set_item location i x_col (fst xy) ;;
               xy <-- wave_gauge_attr "location" WaveGauge.location wave_gauge ;;
               Numpy.set_item location i y_col (snd xy))
            location) ;;
  assign (with_wg_locations (Some (mk_DataFrame location ["x_loc"; "y_loc"]%string))).

(** [construct_flume_wse(self)]. *)
Definition construct_flume_wse : M unit :=
  self <- get ;;
  width <- lift (plus_one (num_wave_gauges self)) ;;
  x_location <- lift (np_zeros (num_times self) (Some width)) ;;
  width <- lift (plus_one (num_wave_gauges self)) ;;
  water_surface_elevation <- lift (np_zeros (num_times self) (Some width)) ;;
  (* x_location[:, 0] = self.wave_maker.position *)
  position <- lift (wave_maker_attr "position" WaveMaker.position (wave_maker self)) ;;
  x_location <- lift (Numpy.set_column x_location 0 position) ;;
  (* x_location[:, 1:] = self.wg_locations["x_loc"] *)
  locations <- lift (getattr "wg_locations" (wg_locations self)) ;;
  x_loc <- lift (df_getitem locations "x_loc") ;;
  x_location <- lift (Numpy.set_columns_from_1 x_location x_loc) ;;
  (* water_surface_elevation[:, 0] = self.wave_maker.eta_wm *)
  eta_wm <- lift (wave_maker_attr "eta_wm" WaveMaker.eta_wm (wave_maker self)) ;;
  water_surface_elevation <- lift (Numpy.set_column water_surface_elevation 0 eta_wm) ;;
  (* water_surface_elevation[:, 1:] = self.wave_gauge_wse *)
  wave_gauge_wse <- lift (getattr "wave_gauge_wse" (wave_gauge_wse self)) ;;
  water_surface_elevation <-
    lift (Numpy.set_columns_from_2 water_surface_elevation wave_gauge_wse) ;;
  assign (with_flume_wse (Some water_surface_elevation)) ;;
  assign (with_flume_wse_locs (Some x_location)).

(* ================================================================== *)
(** ** Notions used to state the properties *)

(** The instant [t] days after [datetime(1, 1, 1)]: the expression
    [start_date + timedelta(days = t)] of the conversion loop. *)
Definition epoch_plus_days (t : float) : outcome PyDatetime.datetime :=
  delta <-- PyDatetime.timedelta_days t ;;
  PyDatetime.datetime_add (PyDatetime.datetime_ymd 1 1 1) delta.

(** The offset that [load_wave_data] passes to the conversion. *)
Definition load_time_offset : float := (-367)%float.

(** The gauge count a [Run] stands for: the stored count, an unset count
    standing for no gauge. *)
Definition stored_count (r : Run) : nat :=
  match num_wave_gauges r with
  | Some n => n
  | None => 0
  end.

(** The stored count is unset on a [Run] that holds no gauge, or it is the
    length of the gauge list: what [__init__] sets up and every
    [add_wave_gauge] restores. *)
Definition count_consistent (r : Run) : Prop :=
  (num_wave_gauges r = None /\ wave_gauges r = []) \/
  num_wave_gauges r = Some (length (wave_gauges r)).

(** The line that [add_wave_gauge] prints for a count of [n]. *)
Definition count_line (n : nat) : string :=
  ("New Number of " ++ str_of_nat n ++ " wave gauges")%string.

(** The world a successful [add_wave_gauge] leaves when it has added
    [items] at the end of the gauge list. *)
Definition gauges_added (items : list pyobj) (w : world) : world :=
  let gauges := wave_gauges (self w) ++ items in
  mk_world
    (with_num_wave_gauges (Some (length gauges))
       (with_wave_gauges gauges (self w)))
    (stdout w ++ [count_line (length gauges)]).

(** The gauges that the construction loop builds from the location pairs
    [locs] and the first-axis entries [eta_rows] of [eta], numbering them
    from [k + 1]. *)
Fixpoint gauges_from (k : nat) (locs : list (float * float))
    (eta_rows : list (list float))
    (time : option (list PyDatetime.datetime)) : list pyobj :=
  match locs, eta_rows with
  | loc :: locs', row :: rows' =>
      PyWaveGauge (WaveGauge.new (Z.of_nat k + 1) loc row time)
        :: gauges_from (S k) locs' rows' time
  | _, _ => []
  end.

(** The world after a successful conversion that produced [stamps]. *)
Definition time_stored (stamps : list PyDatetime.datetime)
    (first : PyDatetime.datetime) (w : world) : world :=
  mk_world
    (with_num_times (Some (length stamps))
       (with_start_date (Some (PyDatetime.date_of first))
          (with_datetime (Some stamps) (self w))))
    (stdout w).

(** The world after [_construct_wave_maker]. *)
Definition wave_maker_stored (eta_wm x_wm : list float) (w : world) : world :=
  mk_world
    (with_wave_maker
       (Some (WaveMaker.new eta_wm x_wm (datetime (self w)))) (self w))
    (stdout w).

(** The pure part of [construct_flume_wse]: the two matrices it computes from
    the attributes of [r], before it stores them. *)
Definition flume_matrices (r : Run)
  : outcome (Numpy.ndarray2 * Numpy.ndarray2) :=
  width <-- plus_one (num_wave_gauges r) ;;
  x_location <-- np_zeros (num_times r) (Some width) ;;
  width <-- plus_one (num_wave_gauges r) ;;
  water_surface_elevation <-- np_zeros (num_times r) (Some width) ;;
  position <-- wave_maker_attr "position" WaveMaker.position (wave_maker r) ;;
  x_location <-- Numpy.set_column x_location 0 position ;;
  locations <-- getattr "wg_locations" (wg_locations r) ;;
  x_loc <-- df_getitem locations "x_loc" ;;
  x_location <-- Numpy.set_columns_from_1 x_location x_loc ;;
  eta_wm <-- wave_maker_attr "eta_wm" WaveMaker.eta_wm (wave_maker r) ;;
  water_surface_elevation <-- Numpy.set_column water_surface_elevation 0 eta_wm ;;
  wave_gauge_wse <-- getattr "wave_gauge_wse" (wave_gauge_wse r) ;;
  water_surface_elevation <--
    Numpy.set_columns_from_2 water_surface_elevation wave_gauge_wse ;;
  Return (water_surface_elevation, x_location).

(** A shifted code [t] denotes an instant when [start_date + timedelta(days
    = t)] evaluates without raising. *)
Definition representable (t : float) : bool :=
  match epoch_plus_days t with
  | Return _ => true
  | Raise _ => false
  end.

(** The shape that the spec requires of [eta]: one first-axis entry per time
    code, each with one value per gauge position. *)
Definition eta_is_time_by_gauge (m : mat_arrays) : Prop :=
  length (mat_eta m) = length (mat_date m) /\
  Forall (fun row => length row = length (mat_x m)) (mat_eta m).

(** The second-axis section [eta[:, j]] of a two-axis [eta]. *)
Definition eta_column (j : nat) (eta : list (list float)) : list float :=
  map (fun row => nth j row 0%float) eta.

(** A method keeps a property of the [Run] when the property holds after
    every call made in a world where it held, whether the call returned or
    raised. *)
Definition preserves (P : Run -> Prop) {A} (m : M A) : Prop :=
  forall w, P (self w) -> P (self (snd (m w))).

(** The initial world of the examples: a fresh [Run], nothing printed. *)
Definition fresh : world := mk_world (__init__ "RUN001" "RUN001.mat") [].

(** ** Example data: three time codes, two gauges *)

(** MATLAB day codes of 2016-01-01, at midnight, at noon and at the next
    midnight, and the instants they stand for. *)
Definition codes : list float := [736330; 736330.5; 736331]%float.

Definition stamps : list PyDatetime.datetime :=
  [PyDatetime.mk_datetime 63587203200000000;
   PyDatetime.mk_datetime 63587246400000000;
   PyDatetime.mk_datetime 63587289600000000].

(** [eta] with one row per time code (3 x 2), as the spec lays it out, and
    with one row per gauge (2 x 3). *)
Definition eta_time_major : list (list float) := [[1; 2]; [3; 4]; [5; 6]]%float.
Definition eta_gauge_major : list (list float) := [[1; 3; 5]; [2; 4; 6]]%float.

Definition container (eta : list (list float)) (x y : list float) : mat_arrays :=
  mk_mat_arrays codes eta x y [7; 8; 9]%float [0.5; 0.25; 0.125]%float.

Definition container_time_major : mat_arrays :=
  container eta_time_major [10; 20]%float [0; 0]%float.

Definition container_gauge_major : mat_arrays :=
  container eta_gauge_major [10; 20]%float [0; 0]%float.

(** One time code, two x positions, three y positions, and [eta] of shape
    T x G = 1 x 2. *)
Definition container_unequal : mat_arrays :=
  mk_mat_arrays [736330]%float [[1; 2]]%float [10; 20]%float [0; 0; 0]%float
    [7]%float [0.5]%float.

(** A file system that holds one container, whatever the path. *)
Definition file_of (m : mat_arrays) : string -> outcome mat_arrays :=
  fun _ => Return m.

(** The example run once loaded from the gauge-major container, and once its
    gauge surface matrix and location table are built. *)
Definition loaded : world :=
  snd (load_wave_data (file_of container_gauge_major) fresh).

Definition built : world :=
  snd ((construct_wave_gauge_wse ;; get_wave_gauge_locations) loaded).


(** The world after [construct_flume_wse] has stored its two matrices. *)
Definition flume_stored (wse locs : Numpy.ndarray2) (w : world) : world :=
  mk_world
    (with_flume_wse_locs (Some locs) (with_flume_wse (Some wse) (self w)))
    (stdout w).

(** ** Notions for the further properties *)

(** The instants of a list of shifted codes, or the exception of the first
    code that has none. *)
Fixpoint all_stamps (ts : list float) : outcome (list PyDatetime.datetime) :=
  match ts with
  | [] => Return []
  | t :: rest =>
      d <-- epoch_plus_days t ;;
      ds <-- all_stamps rest ;;
      Return (d :: ds)
  end.

(** The world in which the conversion has stored the time axis and nothing
    else yet. *)
Definition axis_stored (stamps : list PyDatetime.datetime) (w : world) : world :=
  mk_world (with_datetime (Some stamps) (self w)) (stdout w).

(** A one-axis series fits a column of [T] rows when it has [T] values, or
    one value, which numpy repeats. *)
Definition fits (T : nat) (series : list float) : bool :=
  (length series =? T) || (length series =? 1).

(** What a column of [T] rows holds once a fitting series is assigned to
    it. *)
Definition broadcast_series (T : nat) (series : list float) : list float :=
  if length series =? T then series else repeat (hd 0%float series) T.

(** The world after [construct_wave_gauge_wse], and after
    [get_wave_gauge_locations]. *)
Definition surface_stored (surface : Numpy.ndarray2) (w : world) : world :=
  mk_world (with_wave_gauge_wse (Some surface) (self w)) (stdout w).

Definition table_stored (table : DataFrame) (w : world) : world :=
  mk_world (with_wg_locations (Some table) (self w)) (stdout w).

(* ================================================================== *)
(** ** Python indices, and the time of day of a [datetime] *)

(** A Python index [i] into a sequence of [n] items: a negative index counts
    from the end; [None] when it is out of range. *)
Definition py_index (i : Z) (n : nat) : option nat :=
  if ((0 <=? i) && (i <? Z.of_nat n))%Z then Some (Z.to_nat i)
  else if ((- Z.of_nat n <=? i) && (i <? 0))%Z then Some (Z.to_nat (i + Z.of_nat n))
  else None.

(** [xs[i]] on a Python list, for any [int]. *)
Definition list_getitem {A} (xs : list A) (i : Z) : outcome A :=
  match py_index i (length xs) with
  | Some k => getitem xs k
  | None => Raise (mk_exn IndexError "list index out of range")
  end.

(** [seq[i]] where [seq] is a list or [None]. *)
Definition subscript_int {A} (seq : option (list A)) (i : Z) : outcome A :=
  match seq with
  | Some xs => list_getitem xs i
  | None => Raise none_not_subscriptable
  end.

(** [a[i, :]] on a two-axis array, for any [int]. *)
Definition np_row (a : Numpy.ndarray2) (i : Z) : outcome (list float) :=
  match py_index i (Numpy.nrows a) with
  | Some k => Return (nth k (Numpy.rows a) [])
  | None =>
      Raise (mk_exn IndexError
               ("index " ++ str_of_Z i ++ " is out of bounds for axis 0 with size "
                  ++ str_of_nat (Numpy.nrows a))%string)
  end.

(** A decimal number padded with zeros on the left to [width] digits. *)
Definition zero_pad (width : nat) (z : Z) : string :=
  let digits := str_of_Z z in
  (String.concat "" (repeat "0" (width - String.length digits)) ++ digits)%string.

(** [str(dt.time())]: [HH:MM:SS], followed by the microseconds when there are
    some. *)
Definition time_str (dt : PyDatetime.datetime) : string :=
  let us := (PyDatetime.since_epoch_us dt mod PyDatetime.us_per_day)%Z in
  let hour := (us / 3600000000)%Z in
  let minute := ((us / 60000000) mod 60)%Z in
  let second := ((us / 1000000) mod 60)%Z in
  let microsecond := (us mod 1000000)%Z in
  (zero_pad 2 hour ++ ":" ++ zero_pad 2 minute ++ ":" ++ zero_pad 2 second
     ++ (if (microsecond =? 0)%Z then "" else "." ++ zero_pad 6 microsecond))%string.

(* ================================================================== *)
(** ** matplotlib's pyplot, as the record of what is asked of it *)

Module Pyplot.

(** The x data of a curve: numbers, or instants. *)
Inductive xdata : Type :=
| Floats (xs : list float)
| Times (ts : list PyDatetime.datetime).

Definition xlen (x : xdata) : nat :=
  match x with
  | Floats xs => length xs
  | Times ts => length ts
  end.

(** The calls that [Run.py] makes on an [Axes]. *)
Inductive call : Type :=
| Plot (x : xdata) (y : list float) (label : string)
| SetXLabel (text : string)
| SetYLabel (text : string)
| SetXTickLabels (labels : list string)
| Legend.

(** A figure: its size, and for each of its [Axes], top to bottom, the calls
    made on it, in order. *)
Record figure : Type := mk_figure {
  figsize : float * float;
  axes : list (list call)
}.

(** The figures that pyplot holds, oldest first. *)
Definition state : Type := list figure.

End Pyplot.

(** A plotting method: it reads the [Run], acts on pyplot's figures, and
    returns or raises; what it has drawn when it raises stays. *)
Definition D (A : Type) : Type := Pyplot.state -> outcome A * Pyplot.state.

Definition dret {A} (a : A) : D A := fun st => (Return a, st).

Definition dbind {A B} (c : D A) (k : A -> D B) : D B :=
  fun st =>
    match c st with
    | (Return a, st') => k a st'
    | (Raise e, st') => (Raise e, st')
    end.

Definition dlift {A} (c : outcome A) : D A := fun st => (c, st).

Notation "x <~ c ;; k" := (dbind c (fun x => k))
  (at level 61, c at next level, right associativity).
Notation "c ~;; k" := (dbind c (fun _ => k))
  (at level 61, right associativity).

(** A [for] loop of a plotting method. *)
Fixpoint draw_each {A} (xs : list A) (body : A -> D unit) : D unit :=
  match xs with
  | [] => dret tt
  | x :: rest => body x ~;; draw_each rest body
  end.

Fixpoint update_nth {A} (n : nat) (f : A -> A) (xs : list A) : list A :=
  match xs, n with
  | [], _ => []
  | x :: rest, O => f x :: rest
  | x :: rest, S n' => x :: update_nth n' f rest
  end.

(** [plt.subplots(nrows = nrows, ncols = 1, figsize = figsize)]: pyplot
    creates the figure first and then its grid of [Axes], which has to have a
    row at least. The result stands for [(fig, axs)]: the position of the
    figure, and its number of [Axes]. *)
Definition subplots (nrows : nat) (figsize : float * float) : D (nat * nat) :=
  fun st =>
    match nrows with
    | O =>
        (Raise (mk_exn ValueError
                  "Number of rows must be a positive integer, not 0"),
         st ++ [Pyplot.mk_figure figsize []])
    | S _ =>
        (Return (length st, nrows),
         st ++ [Pyplot.mk_figure figsize (repeat [] nrows)])
    end.

(** A call on [axs[i]], for [axs] the [Axes] of the figure at position
    [fig]. *)
Definition on_axes (fig_axs : nat * nat) (i : nat) (c : Pyplot.call) : D unit :=
  fun st =>
    if i <? snd fig_axs then
      (Return tt,
       update_nth (fst fig_axs)
         (fun f => Pyplot.mk_figure (Pyplot.figsize f)
                     (update_nth i (fun calls => calls ++ [c]) (Pyplot.axes f)))
         st)
    else (Raise (Numpy.index_error i 0 (snd fig_axs)), st).

(** [axs[i].plot(x, y, label = label)]: matplotlib refuses an x that is
    [None] and data of different lengths. *)
Definition ax_plot (fig_axs : nat * nat) (i : nat) (x : option Pyplot.xdata)
    (y : list float) (label : string) : D unit :=
  match x with
  | None =>
      dlift (Raise (mk_exn ValueError "x, y, and format string must not be None"))
  | Some xd =>
      if Pyplot.xlen xd =? length y then on_axes fig_axs i (Pyplot.Plot xd y label)
      else
        dlift (Raise (mk_exn ValueError
                        ("x and y must have same first dimension, but have shapes "
                           ++ Numpy.shape1 (Pyplot.xlen xd) ++ " and "
                           ++ Numpy.shape1 (length y))%string))
  end.

(** The argument of the plotting methods: one [int], or a list of them. *)
Inductive index_arg : Type :=
| One (i : Z)
| Many (indices : list Z).

(* ================================================================== *)
(** ** The plotting methods of [Run] *)

(** One curve of [quick_flume_wse_plot]: the flume surface at the time of
    index [index]. *)
Definition flume_curve (self : Run) (axs : nat * nat) (index : Z) : D unit :=
  flume_wse <~ dlift (getattr "flume_wse" (flume_wse self)) ;;
  wse <~ dlift (np_row flume_wse index) ;;
  flume_wse_locs <~ dlift (getattr "flume_wse_locs" (flume_wse_locs self)) ;;
  location <~ dlift (np_row flume_wse_locs index) ;;
  stamp <~ dlift (subscript_int (datetime self) index) ;;
  let time_label := ("time: " ++ time_str stamp)%string in
  ax_plot axs 0 (Some (Pyplot.Floats location)) wse time_label.

(** [quick_flume_wse_plot(self, time_index, figsize, legend)], called
    without further keyword arguments. *)
Definition quick_flume_wse_plot (self : Run) (time_index : index_arg)
    (figsize : float * float) (legend : bool) : D unit :=
  axs <~ subplots 1 figsize ;;
  match time_index with
  | Many indices =>
      (* isinstance(time_index, list) *)
      draw_each indices (fun index => flume_curve self axs index)
  | One index => flume_curve self axs index
  end ~;;
  on_axes axs 0 (Pyplot.SetXLabel "Cross-shore distance (m)") ~;;
  on_axes axs 0 (Pyplot.SetYLabel "Water Surf. Elev. (m)") ~;;
  if legend then on_axes axs 0 Pyplot.Legend else dret tt.

(** [self.wave_gauges[id - 1]] and the two attributes that the plot reads. *)
Definition gauge_to_plot (self : Run) (id : Z)
  : outcome (list float * Z) :=
  wave_gauge <-- list_getitem (wave_gauges self) (id - 1) ;;
  eta <-- wave_gauge_attr "eta" WaveGauge.eta wave_gauge ;;
  gauge_id <-- wave_gauge_attr "id" WaveGauge.id wave_gauge ;;
  Return (eta, gauge_id).

(** The body of the loop of [quick_plot_wave_gauges]: the gauge of
    identifier [id] drawn on [axs[i]]. *)
Definition plot_gauge (self : Run) (axs : nat * nat)
    (legend ylabel xlabel : bool) (time_units : string) (i : nat) (id : Z)
  : D unit :=
  let time := datetime self in
  eta_id <~ dlift (gauge_to_plot self id) ;;
  ax_plot axs i (option_map Pyplot.Times time) (fst eta_id)
    (str_of_Z (snd eta_id)) ~;;
  (if ylabel then on_axes axs i (Pyplot.SetYLabel "Water Surf. Elev. (m)")
   else dret tt) ~;;
  (if xlabel
   then on_axes axs i (Pyplot.SetXLabel ("Time " ++ time_units)%string)
   else on_axes axs i (Pyplot.SetXTickLabels [])) ~;;
  if legend then on_axes axs i Pyplot.Legend else dret tt.

(** [quick_plot_wave_gauges(self, gauge_ids, figsize, legend, ylabel, xlabel,
    time_units)]. *)
Definition quick_plot_wave_gauges (self : Run) (gauge_ids : index_arg)
    (figsize : float * float) (legend ylabel xlabel : bool)
    (time_units : string) : D unit :=
  let num_gauges :=
    match gauge_ids with
    | Many ids => length ids
    | One _ => 1
    end in
  let gauge_ids :=
    match gauge_ids with
    | Many ids => ids
    | One id => [id]
    end in
  axs <~ subplots num_gauges figsize ;;
  draw_each (enumerate gauge_ids)
    (fun i_id =>
       plot_gauge self axs legend ylabel xlabel time_units (fst i_id) (snd i_id)).

(** ** Notions for the plotting properties *)

(** The gauge that [self.wave_gauges[id - 1]] selects in the gauge list
    [gauges]. *)
Definition selects (gauges : list WaveGauge.t) (id : Z) (g : WaveGauge.t) : Prop :=
  exists k, py_index (id - 1) (length gauges) = Some k /\
            nth_error gauges k = Some g.

(** The calls that [quick_plot_wave_gauges] makes on the [Axes] of a
    gauge. *)
Definition gauge_panel (time : list PyDatetime.datetime)
    (legend ylabel xlabel : bool) (time_units : string) (g : WaveGauge.t)
  : list Pyplot.call :=
  [Pyplot.Plot (Pyplot.Times time) (WaveGauge.eta g) (str_of_Z (WaveGauge.id g))]
    ++ (if ylabel then [Pyplot.SetYLabel "Water Surf. Elev. (m)"] else [])
    ++ (if xlabel then [Pyplot.SetXLabel ("Time " ++ time_units)%string]
        else [Pyplot.SetXTickLabels []])
    ++ (if legend then [Pyplot.Legend] else []).

(** The curve that [quick_flume_wse_plot] draws for row [k] of the flume
    matrices. *)
Definition flume_curve_of (wse locs : Numpy.ndarray2)
    (time : list PyDatetime.datetime) (k : nat) : Pyplot.call :=
  Pyplot.Plot (Pyplot.Floats (nth k (Numpy.rows locs) []))
    (nth k (Numpy.rows wse) [])
    ("time: " ++ time_str (nth k time (PyDatetime.mk_datetime 0)))%string.

(** The calls that end [quick_flume_wse_plot]. *)
Definition flume_labels (legend : bool) : list Pyplot.call :=
  [Pyplot.SetXLabel "Cross-shore distance (m)";
   Pyplot.SetYLabel "Water Surf. Elev. (m)"]
    ++ (if legend then [Pyplot.Legend] else []).

(** The example run with its flume surface built. *)
Definition flumed : world := snd (construct_flume_wse built).

(** The integers that the argument of a plotting method stands for. *)
Definition listed (arg : index_arg) : list Z :=
  match arg with
  | Many indices => indices
  | One index => [index]
  end.

(** The two gauges of the example run. *)
Definition gauge_1 : WaveGauge.t :=
  WaveGauge.new 1 (10, 0)%float [1; 3; 5]%float (Some stamps).

Definition gauge_2 : WaveGauge.t :=
  WaveGauge.new 2 (20, 0)%float [2; 4; 6]%float (Some stamps).

(* ================================================================== *)
(** * Properties *)

Unset Implicit Arguments.

(** ** Loops *)

Lemma for_each_enumerate_snd {S A} (body : S -> A -> outcome S) :
  forall (xs : list A) (k : nat) (acc : S),
    for_each (enumerate_from k xs) (fun acc it => body acc (snd it)) acc
    = for_each xs body acc.
Proof.
  induction xs as [|x xs IH]; intros k acc; simpl.
  - reflexivity.
  - destruct (body acc x); [apply IH | reflexivity].
Qed.

Lemma Forall2_map_l {A B C} (f : A -> B) (P : B -> C -> Prop) :
  forall (xs : list A) (ys : list C),
    Forall2 (fun a c => P (f a) c) xs ys -> Forall2 P (map f xs) ys.
Proof.
  induction 1; simpl; constructor; assumption.
Qed.

Lemma Forall2_same_length {A B} (P : A -> B -> Prop) :
  forall xs ys, Forall2 P xs ys -> length xs = length ys.
Proof.
  induction 1; simpl; congruence.
Qed.

(** The conversion loop appends one instant per code, in order. *)
Lemma stamps_loop :
  forall (ts : list float) (stamps acc : list PyDatetime.datetime),
    Forall2 (fun t d => epoch_plus_days t = Return d) ts stamps ->
    for_each ts
      (fun experiment_datetime time =>
         delta_datetime <-- PyDatetime.timedelta_days time ;;
         stamp <-- PyDatetime.datetime_add (PyDatetime.datetime_ymd 1 1 1) delta_datetime ;;
         Return (experiment_datetime ++ [stamp]))
      acc
    = Return (acc ++ stamps).
Proof.
  intros ts stamps acc H. revert acc.
  induction H as [|t d ts stamps Hd _ IH]; intros acc; simpl.
  - now rewrite app_nil_r.
  - unfold epoch_plus_days in Hd.
    destruct (PyDatetime.timedelta_days t) as [delta|e]; simpl in *; [|discriminate].
    rewrite Hd. simpl. rewrite IH, <- app_assoc. reflexivity.
Qed.

(** The conversion on codes that all denote representable instants. *)
Lemma convert_stores :
  forall (offset : float) (mat_time : list float)
         (stamps : list PyDatetime.datetime) (first : PyDatetime.datetime)
         (w : world),
    Forall2 (fun v d => epoch_plus_days (v + offset) = Return d) mat_time stamps ->
    nth_error stamps 0 = Some first ->
    _convert_mat_time_and_store offset mat_time w
    = (Return tt, time_stored stamps first w).
Proof.
  intros offset mat_time stamps first w H Hfirst.
  unfold _convert_mat_time_and_store, bind, lift, enumerate.
  rewrite (for_each_enumerate_snd
             (fun experiment_datetime time =>
                delta_datetime <-- PyDatetime.timedelta_days time ;;
                stamp <-- PyDatetime.datetime_add (PyDatetime.datetime_ymd 1 1 1) delta_datetime ;;
                Return (experiment_datetime ++ [stamp]))).
  rewrite (stamps_loop _ stamps) by (apply Forall2_map_l; exact H).
  simpl. unfold getitem. rewrite Hfirst. reflexivity.
Qed.

(** ** [add_wave_gauge], case by case *)

Lemma add_wave_gauge_list (items : list pyobj) (w : world) :
  add_wave_gauge (PyList items) w = (Return tt, gauges_added items w).
Proof. reflexivity. Qed.

Lemma add_wave_gauge_single (g : WaveGauge.t) (w : world) :
  add_wave_gauge (PyWaveGauge g) w = (Return tt, gauges_added [PyWaveGauge g] w).
Proof. reflexivity. Qed.

Lemma add_wave_gauge_other (obj : pyobj) (w : world) :
  is_list obj = false ->
  is_WaveGauge obj = false ->
  add_wave_gauge obj w
  = (Raise (mk_exn TypeError
              ("The type must be a list or a WaveGauge object" ++ newline
                 ++ "Input type is: " ++ type_repr obj)%string),
     w).
Proof.
  intros Hl Hg. destruct obj; simpl in Hl, Hg; try discriminate; reflexivity.
Qed.

Lemma gauges_added_count (items : list pyobj) (w : world) :
  num_wave_gauges (self (gauges_added items w))
  = Some (length (wave_gauges (self (gauges_added items w)))).
Proof. reflexivity. Qed.

(** ** The gauge construction loop *)

Lemma skipn_nth_error {A} :
  forall (k : nat) (xs : list A),
    skipn k xs = match nth_error xs k with
                 | Some a => a :: skipn (S k) xs
                 | None => []
                 end.
Proof.
  induction k as [|k IH]; intros [|x xs]; simpl; try reflexivity.
  apply IH.
Qed.

Lemma gauges_loop (eta : list (list float))
    (time : option (list PyDatetime.datetime)) :
  forall (locs : list (float * float)) (k : nat) (acc : list pyobj),
    length locs <= length (skipn k eta) ->
    for_each (enumerate_from k locs)
      (fun wave_gauge_list id_location =>
         let id := fst id_location in
         let location := snd id_location in
         eta_id <-- Numpy.item eta id ;;
         let wave_gauge :=
           WaveGauge.new (Z.of_nat id + 1) location eta_id time in
         Return (wave_gauge_list ++ [PyWaveGauge wave_gauge]))
      acc
    = Return (acc ++ gauges_from k locs (skipn k eta) time).
Proof.
  induction locs as [|loc locs IH]; intros k acc Hlen.
  - simpl. now rewrite app_nil_r.
  - rewrite (skipn_nth_error k eta) in Hlen |- *.
    cbn [enumerate_from for_each fst snd]. unfold Numpy.item at 1.
    destruct (nth_error eta k) as [row|];
      cbn [obind length gauges_from] in *; [|lia].
    rewrite IH by lia. rewrite <- app_assoc. reflexivity.
Qed.

Lemma gauges_loop_short (eta : list (list float))
    (time : option (list PyDatetime.datetime)) :
  forall (locs : list (float * float)) (k : nat) (acc : list pyobj),
    k <= length eta ->
    length (skipn k eta) < length locs ->
    for_each (enumerate_from k locs)
      (fun wave_gauge_list id_location =>
         let id := fst id_location in
         let location := snd id_location in
         eta_id <-- Numpy.item eta id ;;
         let wave_gauge :=
           WaveGauge.new (Z.of_nat id + 1) location eta_id time in
         Return (wave_gauge_list ++ [PyWaveGauge wave_gauge]))
      acc
    = Raise (Numpy.index_error (length eta) 0 (length eta)).
Proof.
  induction locs as [|loc locs IH]; intros k acc Hk Hlen.
  - simpl in Hlen. lia.
  - rewrite (skipn_nth_error k eta) in Hlen.
    cbn [enumerate_from for_each fst snd]. unfold Numpy.item at 1.
    destruct (nth_error eta k) as [row|] eqn:Hrow; cbn [obind length] in *.
    + apply IH; [|lia].
      assert (k < length eta) by (apply nth_error_Some; congruence). lia.
    + apply nth_error_None in Hrow.
      replace k with (length eta) by lia. reflexivity.
Qed.

Lemma gauges_from_length (time : option (list PyDatetime.datetime)) :
  forall locs k rows,
    length (gauges_from k locs rows time) = Nat.min (length locs) (length rows).
Proof.
  induction locs as [|loc locs IH]; intros k [|row rows]; simpl; try reflexivity.
  now rewrite IH.
Qed.

Lemma gauges_from_nth (time : option (list PyDatetime.datetime)) :
  forall i locs k rows loc row,
    nth_error locs i = Some loc ->
    nth_error rows i = Some row ->
    nth_error (gauges_from k locs rows time) i
    = Some (PyWaveGauge (WaveGauge.new (Z.of_nat (k + i) + 1) loc row time)).
Proof.
  induction i as [|i IH]; intros [|l locs] k [|r rows] loc row Hl Hr;
    simpl in *; try discriminate.
  - inversion Hl; inversion Hr; subst. now rewrite Nat.add_0_r.
  - rewrite (IH locs (S k) rows loc row Hl Hr).
    now replace (S k + i) with (k + S i) by lia.
Qed.

Lemma combine_nth_error {A B} :
  forall i (xs : list A) (ys : list B) a b,
    nth_error xs i = Some a ->
    nth_error ys i = Some b ->
    nth_error (combine xs ys) i = Some (a, b).
Proof.
  induction i as [|i IH]; intros [|x xs] [|y ys] a b Ha Hb;
    simpl in *; try discriminate.
  - congruence.
  - now apply IH.
Qed.

(** Gauge construction when [eta] has an entry for every location pair. *)
Lemma construct_wave_gauges_ok (x_loc y_loc : list float)
    (eta : list (list float)) (w : world) :
  Nat.min (length x_loc) (length y_loc) <= length eta ->
  _construct_wave_gauges x_loc y_loc eta w
  = (Return tt,
     gauges_added
       (gauges_from 0 (combine x_loc y_loc) eta (datetime (self w))) w).
Proof.
  intros Hlen.
  unfold _construct_wave_gauges, bind, get, lift, enumerate, zip.
  rewrite (gauges_loop eta (datetime (self w)))
    by (simpl; rewrite length_combine; exact Hlen).
  reflexivity.
Qed.

(** Gauge construction when [eta] is too short along its first axis. *)
Lemma construct_wave_gauges_short (x_loc y_loc : list float)
    (eta : list (list float)) (w : world) :
  length eta < Nat.min (length x_loc) (length y_loc) ->
  _construct_wave_gauges x_loc y_loc eta w
  = (Raise (Numpy.index_error (length eta) 0 (length eta)), w).
Proof.
  intros Hlen.
  unfold _construct_wave_gauges, bind, get, lift, enumerate, zip.
  rewrite (gauges_loop_short eta (datetime (self w)))
    by (simpl; try rewrite length_combine; lia).
  reflexivity.
Qed.

(** ** [load_wave_data], step by step *)

Lemma load_wave_data_steps (loadmat : string -> outcome mat_arrays)
    (m : mat_arrays) (w : world) :
  loadmat (wave_file_path (self w)) = Return m ->
  load_wave_data loadmat w
  = (_convert_mat_time_and_store load_time_offset (mat_date m) ;;
     _construct_wave_maker (mat_eta_wm m) (mat_x_wm m) ;;
     _construct_wave_gauges (mat_x m) (mat_y m) (mat_eta m)) w.
Proof.
  intros Hm. unfold load_wave_data at 1, bind at 1 2, get, lift.
  rewrite Hm. reflexivity.
Qed.

Lemma load_wave_data_ok (loadmat : string -> outcome mat_arrays)
    (m : mat_arrays) (stamps : list PyDatetime.datetime)
    (first : PyDatetime.datetime) (w : world) :
  loadmat (wave_file_path (self w)) = Return m ->
  Forall2 (fun v d => epoch_plus_days (v + load_time_offset) = Return d)
    (mat_date m) stamps ->
  nth_error stamps 0 = Some first ->
  Nat.min (length (mat_x m)) (length (mat_y m)) <= length (mat_eta m) ->
  load_wave_data loadmat w
  = (Return tt,
     gauges_added
       (gauges_from 0 (combine (mat_x m) (mat_y m)) (mat_eta m) (Some stamps))
       (wave_maker_stored (mat_eta_wm m) (mat_x_wm m)
          (time_stored stamps first w))).
Proof.
  intros Hm Hstamps Hfirst Hlen.
  rewrite (load_wave_data_steps loadmat m w Hm).
  unfold bind at 1. rewrite (convert_stores _ _ stamps first w Hstamps Hfirst).
  unfold bind at 1. unfold _construct_wave_maker at 1, bind at 1, get, assign.
  change (mk_world _ _) with
    (wave_maker_stored (mat_eta_wm m) (mat_x_wm m) (time_stored stamps first w)).
  rewrite construct_wave_gauges_ok by exact Hlen.
  reflexivity.
Qed.

Lemma load_wave_data_short (loadmat : string -> outcome mat_arrays)
    (m : mat_arrays) (stamps : list PyDatetime.datetime)
    (first : PyDatetime.datetime) (w : world) :
  loadmat (wave_file_path (self w)) = Return m ->
  Forall2 (fun v d => epoch_plus_days (v + load_time_offset) = Return d)
    (mat_date m) stamps ->
  nth_error stamps 0 = Some first ->
  length (mat_eta m) < Nat.min (length (mat_x m)) (length (mat_y m)) ->
  load_wave_data loadmat w
  = (Raise (Numpy.index_error (length (mat_eta m)) 0 (length (mat_eta m))),
     wave_maker_stored (mat_eta_wm m) (mat_x_wm m)
       (time_stored stamps first w)).
Proof.
  intros Hm Hstamps Hfirst Hlen.
  rewrite (load_wave_data_steps loadmat m w Hm).
  unfold bind at 1. rewrite (convert_stores _ _ stamps first w Hstamps Hfirst).
  unfold bind at 1. unfold _construct_wave_maker at 1, bind at 1, get, assign.
  change (mk_world _ _) with
    (wave_maker_stored (mat_eta_wm m) (mat_x_wm m) (time_stored stamps first w)).
  rewrite construct_wave_gauges_short by exact Hlen.
  reflexivity.
Qed.

Lemma representable_stamps (offset : float) :
  forall mat_time : list float,
    forallb (fun v => representable (v + offset)%float) mat_time = true ->
    exists stamps,
      Forall2 (fun v d => epoch_plus_days (v + offset) = Return d) mat_time stamps.
Proof.
  induction mat_time as [|v rest IH]; simpl; intros H.
  - exists []. constructor.
  - apply andb_prop in H. destruct H as [Hv Hrest].
    destruct (IH Hrest) as [ds Hds].
    unfold representable in Hv.
    destruct (epoch_plus_days (v + offset)) as [d|e] eqn:Hd; [|discriminate].
    exists (d :: ds). constructor; assumption.
Qed.

Lemma Forall2_first {A B} (P : A -> B -> Prop) :
  forall xs ys,
    Forall2 P xs ys -> xs <> [] -> exists b, nth_error ys 0 = Some b.
Proof.
  intros xs ys [|a b xs' ys' _ _] Hne; [congruence|].
  exists b. reflexivity.
Qed.

Lemma Forall2_nth_error {A B} (P : A -> B -> Prop) :
  forall xs ys,
    Forall2 P xs ys ->
    forall i a, nth_error xs i = Some a ->
                exists b, nth_error ys i = Some b /\ P a b.
Proof.
  induction 1 as [|a0 b0 xs ys H0 _ IH]; intros [|i] a Ha;
    simpl in *; try discriminate.
  - inversion Ha; subst. now exists b0.
  - now apply IH.
Qed.

(** What "representable" amounts to: the code is a finite number of days
    that lands between the first day of year 1 and the last of year 9999. *)
Lemma representable_in_range (t : float) :
  representable t = true <->
  exists us,
    PyDatetime.days_to_us t = Return us /\
    (0 <= us < PyDatetime.max_ordinal * PyDatetime.us_per_day)%Z.
Proof.
  change (PyDatetime.max_ordinal * PyDatetime.us_per_day)%Z
    with 315537897600000000%Z.
  unfold representable, epoch_plus_days, PyDatetime.timedelta_days,
    PyDatetime.datetime_add.
  destruct (PyDatetime.days_to_us t) as [us|e]; simpl.
  - assert (Hdays : (0 <= us < 315537897600000000)%Z ->
                    (Z.abs (us / PyDatetime.us_per_day)
                     <=? PyDatetime.max_delta_days)%Z = true).
    { intros Hr. apply Z.leb_le.
      unfold PyDatetime.max_delta_days, PyDatetime.us_per_day.
      assert (0 <= us / 86400000000 < 3652059)%Z
        by (split; [apply Z.div_pos; lia | apply Z.div_lt_upper_bound; lia]).
      lia. }
    split.
    + intros H. exists us. split; [reflexivity|].
      match type of H with
      | context [Z.leb (Z.abs ?a) ?b] => destruct (Z.leb (Z.abs a) b)
      end; simpl in H;
        [|match type of H with
          | context [Z.ltb (Z.abs ?a) ?b] => destruct (Z.ltb (Z.abs a) b)
          end; discriminate].
      destruct (0 <=? us)%Z eqn:H0; simpl in H; [|discriminate].
      destruct (us <? 315537897600000000)%Z eqn:H1; [|discriminate].
      apply Z.leb_le in H0. apply Z.ltb_lt in H1. lia.
    + intros [us' [Heq Hr]]. inversion Heq; subst us'.
      rewrite (Hdays Hr). simpl.
      destruct Hr as [Hlo Hhi].
      apply Z.leb_le in Hlo. apply Z.ltb_lt in Hhi.
      rewrite Hlo, Hhi. reflexivity.
  - split; [discriminate|]. intros [us [H _]]. discriminate.
Qed.

(* ================================================================== *)
(** * The time conversion *)

(** C2 (as amended). For every non-empty array of time codes whose shifted
    values [v + offset] are all representable instants (finite, and between
    year 1 and year 9999 once counted in days from [datetime(1, 1, 1)]),
    [_convert_mat_time_and_store] returns and stores a time axis of the same
    length and in the same order, whose element for the code [v] is
    [datetime(1, 1, 1) + timedelta(days = v + offset)]; a one-element array
    gives exactly one timestamp. [load_wave_data] calls it with the offset
    [-(365 + 2)]. *)
Theorem convert_mat_time_elementwise :
  forall (offset : float) (mat_time : list float) (w : world),
    mat_time <> [] ->
    forallb (fun v => representable (v + offset)%float) mat_time = true ->
    exists time_axis first,
      _convert_mat_time_and_store offset mat_time w
      = (Return tt, time_stored time_axis first w) /\
      nth_error time_axis 0 = Some first /\
      length time_axis = length mat_time /\
      (forall i v, nth_error mat_time i = Some v ->
         exists d, nth_error time_axis i = Some d /\
                   epoch_plus_days (v + offset) = Return d) /\
      (forall v, mat_time = [v] ->
         exists d, time_axis = [d] /\ epoch_plus_days (v + offset) = Return d) /\
      (forall loadmat m w0,
         loadmat (wave_file_path (self w0)) = Return m ->
         load_wave_data loadmat w0
         = (_convert_mat_time_and_store (- (365 + 2))%float (mat_date m) ;;
            _construct_wave_maker (mat_eta_wm m) (mat_x_wm m) ;;
            _construct_wave_gauges (mat_x m) (mat_y m) (mat_eta m)) w0).
Proof.
  intros offset mat_time w Hne Hrep.
  destruct (representable_stamps offset mat_time Hrep) as [time_axis Hall].
  destruct (Forall2_first _ _ _ Hall Hne) as [first Hfirst].
  exists time_axis, first.
  split; [apply convert_stores; assumption|].
  split; [exact Hfirst|].
  split; [symmetry; exact (Forall2_same_length _ _ _ Hall)|].
  split; [intros i v Hv; exact (Forall2_nth_error _ _ _ Hall i v Hv)|].
  split.
  - intros v Hv. subst mat_time.
    inversion Hall as [|v' d l l' Hd Hrest]; subst.
    inversion Hrest; subst. exists d. split; [reflexivity | exact Hd].
  - intros loadmat m w0 Hm. exact (load_wave_data_steps loadmat m w0 Hm).
Qed.

(** The codes of 2016-01-01 at 00:00, 12:00 and 24:00 become the instants
    735963, 735963.5 and 735964 days after [datetime(1, 1, 1)]. *)
Lemma convert_mat_time_elementwise_witness :
  exists time_axis first,
    _convert_mat_time_and_store load_time_offset codes fresh
    = (Return tt, time_stored time_axis first fresh) /\
    nth_error time_axis 0 = Some first /\
    length time_axis = length codes /\
    (forall i v, nth_error codes i = Some v ->
       exists d, nth_error time_axis i = Some d /\
                 epoch_plus_days (v + load_time_offset) = Return d) /\
    (forall v, codes = [v] ->
       exists d, time_axis = [d] /\
                 epoch_plus_days (v + load_time_offset) = Return d) /\
    (forall loadmat m w0,
       loadmat (wave_file_path (self w0)) = Return m ->
       load_wave_data loadmat w0
       = (_convert_mat_time_and_store (- (365 + 2))%float (mat_date m) ;;
          _construct_wave_maker (mat_eta_wm m) (mat_x_wm m) ;;
          _construct_wave_gauges (mat_x m) (mat_y m) (mat_eta m)) w0).
Proof.
  apply (convert_mat_time_elementwise load_time_offset codes fresh).
  - discriminate.
  - reflexivity.
Defined.

(** The time axis of the example, computed: half a day is kept as twelve
    hours, not dropped. *)
Example convert_codes :
  _convert_mat_time_and_store load_time_offset codes fresh
  = (Return tt, time_stored stamps (PyDatetime.datetime_ymd 2016 1 1) fresh)
  /\ start_date (self (time_stored stamps (PyDatetime.datetime_ymd 2016 1 1) fresh))
     = Some (PyDatetime.date_ymd 2016 1 1)
  /\ PyDatetime.days_to_us (735963.5)%float
     = Return (735963 * PyDatetime.us_per_day + 12 * 3600 * 1000000)%Z.
Proof. repeat split; vm_compute; reflexivity. Qed.

(** C2, the counterexample: the one-element array [[0.0]] is a non-empty array
    of time codes, and the conversion yields no timestamp for it: with the
    offset of [load_wave_data] the day count is -367, before
    [datetime(1, 1, 1)], and the addition raises [OverflowError]; nothing is
    stored. *)
Lemma convert_mat_time_out_of_range :
  _convert_mat_time_and_store load_time_offset [0%float] fresh
  = (Raise (mk_exn OverflowError "date value out of range"), fresh).
Proof. vm_compute. reflexivity. Qed.

(** C3, the counterexample: on an empty array the conversion raises
    [IndexError], the index-out-of-range error of [self.datetime[0]], which
    is no empty-sequence error of the spec's taxonomy. *)
Lemma convert_empty_raises_index_error :
  fst (_convert_mat_time_and_store load_time_offset [] fresh)
  = Raise (mk_exn IndexError "list index out of range")
  /\ spec_error_of IndexError <> Some EmptySequenceError.
Proof. split; [reflexivity | discriminate]. Qed.

(** C3 (as amended). Given an empty array of time codes, the conversion
    raises Python's [IndexError] ("list index out of range") at the
    start-date derivation [self.datetime[0]]; by then it has stored the empty
    list as [self.datetime], and it leaves the start date and the number of
    times as they were. *)
Theorem convert_empty_index_error :
  forall (offset : float) (w : world),
    _convert_mat_time_and_store offset [] w
    = (Raise (mk_exn IndexError "list index out of range"),
       mk_world (with_datetime (Some []) (self w)) (stdout w))
    /\ start_date (with_datetime (Some []) (self w)) = start_date (self w)
    /\ num_times (with_datetime (Some []) (self w)) = num_times (self w).
Proof. intros offset w. repeat split. Qed.

(* ================================================================== *)
(** * Loading: the gauges *)

(** C1 (as amended). For every container that loads (time codes non-empty and
    representable, [eta] with a first-axis entry for every (x, y) pair), the
    gauge that [load_wave_data] builds for the [i]-th pair has identifier
    [i + 1], that pair as its location, the time axis stored in the [Run],
    and the elevation series [eta[i]]: entry [i] along the FIRST axis of
    [eta] (row [i]), not its column [i]. The gauges are appended, in order, to
    the gauges the [Run] already held. *)
Theorem load_gauge_is_eta_row :
  forall (loadmat : string -> outcome mat_arrays) (m : mat_arrays) (w : world)
         (i : nat) (xi yi : float),
    loadmat (wave_file_path (self w)) = Return m ->
    mat_date m <> [] ->
    forallb (fun v => representable (v + load_time_offset)%float) (mat_date m) = true ->
    Nat.min (length (mat_x m)) (length (mat_y m)) <= length (mat_eta m) ->
    nth_error (mat_x m) i = Some xi ->
    nth_error (mat_y m) i = Some yi ->
    exists time_axis eta_i,
      fst (load_wave_data loadmat w) = Return tt /\
      datetime (self (snd (load_wave_data loadmat w))) = Some time_axis /\
      nth_error (mat_eta m) i = Some eta_i /\
      nth_error (wave_gauges (self (snd (load_wave_data loadmat w))))
        (length (wave_gauges (self w)) + i)
      = Some (PyWaveGauge
                (WaveGauge.new (Z.of_nat i + 1) (xi, yi) eta_i (Some time_axis))).
Proof.
  intros loadmat m w i xi yi Hm Hne Hrep Hlen Hx Hy.
  destruct (representable_stamps _ _ Hrep) as [time_axis Hall].
  destruct (Forall2_first _ _ _ Hall Hne) as [first Hfirst].
  assert (Hi : i < length (mat_eta m)).
  { assert (i < length (mat_x m)) by (apply nth_error_Some; congruence).
    assert (i < length (mat_y m)) by (apply nth_error_Some; congruence).
    lia. }
  destruct (nth_error (mat_eta m) i) as [eta_i|] eqn:Heta;
    [|apply nth_error_None in Heta; lia].
  exists time_axis, eta_i.
  rewrite (load_wave_data_ok loadmat m time_axis first w Hm Hall Hfirst Hlen).
  cbn [fst snd]. repeat split.
  unfold gauges_added, wave_maker_stored, time_stored. cbn.
  rewrite nth_error_app2 by lia.
  replace (length (wave_gauges (self w)) + i - length (wave_gauges (self w)))
    with i by lia.
  apply (gauges_from_nth (Some time_axis) i _ 0 _ (xi, yi) eta_i);
    [apply combine_nth_error; assumption | exact Heta].
Qed.

Lemma load_gauge_is_eta_row_witness :
  exists time_axis eta_i,
    fst (load_wave_data (file_of container_time_major) fresh) = Return tt /\
    datetime (self (snd (load_wave_data (file_of container_time_major) fresh)))
    = Some time_axis /\
    nth_error eta_time_major 1 = Some eta_i /\
    nth_error
      (wave_gauges (self (snd (load_wave_data (file_of container_time_major) fresh))))
      (0 + 1)
    = Some (PyWaveGauge
              (WaveGauge.new (Z.of_nat 1 + 1) (20%float, 0%float) eta_i
                 (Some time_axis))).
Proof.
  apply (load_gauge_is_eta_row (file_of container_time_major)
           container_time_major fresh 1 20%float 0%float);
    first [reflexivity | discriminate | (simpl; lia)].
Defined.

(** C1, the counterexample: [eta] of shape T x G = 3 x 2, as the spec lays it
    out, with two gauge positions. The first gauge built during load has the
    series [eta[0] = [1, 2]], of length G; column 0 of [eta] is [[1, 3, 5]],
    of length T. *)
Lemma load_gauge_is_not_eta_column :
  eta_is_time_by_gauge container_time_major /\
  nth_error
    (wave_gauges (self (snd (load_wave_data (file_of container_time_major) fresh))))
    0
  = Some (PyWaveGauge
            (WaveGauge.new 1 (10%float, 0%float) [1; 2]%float (Some stamps))) /\
  eta_column 0 (mat_eta container_time_major) = [1; 3; 5]%float /\
  length [1; 2]%float <> length (eta_column 0 (mat_eta container_time_major)).
Proof.
  split; [|split; [|split]].
  - split; [reflexivity | repeat constructor].
  - vm_compute. reflexivity.
  - reflexivity.
  - simpl. lia.
Qed.

(** C10 (as amended). Whatever the lengths of [x_loc] and [y_loc], equal or
    not: when [eta] has at least [min(len(x_loc), len(y_loc))] entries along
    its first axis, gauge construction does not fail and appends exactly that
    many gauges, the pairing stopping at the shorter array, so that the gauge
    count grows by the minimum. When [eta] has fewer entries, it raises
    [IndexError] and adds no gauge. *)
Theorem construct_wave_gauges_truncates :
  forall (x_loc y_loc : list float) (eta : list (list float)) (w : world),
    (Nat.min (length x_loc) (length y_loc) <= length eta ->
     exists gauges,
       _construct_wave_gauges x_loc y_loc eta w = (Return tt, gauges_added gauges w) /\
       length gauges = Nat.min (length x_loc) (length y_loc) /\
       num_wave_gauges (self (gauges_added gauges w))
       = Some (length (wave_gauges (self w))
               + Nat.min (length x_loc) (length y_loc)))
    /\
    (length eta < Nat.min (length x_loc) (length y_loc) ->
     _construct_wave_gauges x_loc y_loc eta w
     = (Raise (Numpy.index_error (length eta) 0 (length eta)), w)).
Proof.
  intros x_loc y_loc eta w. split; intros Hlen.
  - exists (gauges_from 0 (combine x_loc y_loc) eta (datetime (self w))).
    assert (Hn : length (gauges_from 0 (combine x_loc y_loc) eta (datetime (self w)))
                 = Nat.min (length x_loc) (length y_loc)).
    { rewrite gauges_from_length, length_combine. lia. }
    split; [apply construct_wave_gauges_ok; exact Hlen|].
    split; [exact Hn|].
    unfold gauges_added. cbn. rewrite length_app, Hn. reflexivity.
  - apply construct_wave_gauges_short. exact Hlen.
Qed.

(** Three x positions and two y positions give two gauges. *)
Lemma construct_wave_gauges_truncates_witness :
  exists gauges,
    _construct_wave_gauges [10; 20; 30]%float [0; 0]%float eta_gauge_major fresh
    = (Return tt, gauges_added gauges fresh) /\
    length gauges = 2 /\
    num_wave_gauges (self (gauges_added gauges fresh)) = Some (0 + 2).
Proof.
  apply (proj1 (construct_wave_gauges_truncates
                  [10; 20; 30]%float [0; 0]%float eta_gauge_major fresh)).
  simpl. lia.
Defined.

(** C10, the counterexample: x and y of unequal lengths (2 and 3) with an
    [eta] of shape T x G = 1 x 2. The pairing has two elements, [eta] has one
    first-axis entry, and gauge construction fails at the second pair with
    [IndexError], called directly or during load; no gauge is created. *)
Lemma construct_wave_gauges_can_fail :
  length (mat_x container_unequal) <> length (mat_y container_unequal) /\
  _construct_wave_gauges (mat_x container_unequal) (mat_y container_unequal)
    (mat_eta container_unequal) fresh
  = (Raise (mk_exn IndexError "index 1 is out of bounds for axis 0 with size 1"),
     fresh) /\
  fst (load_wave_data (file_of container_unequal) fresh)
  = Raise (mk_exn IndexError "index 1 is out of bounds for axis 0 with size 1") /\
  wave_gauges (self (snd (load_wave_data (file_of container_unequal) fresh))) = [].
Proof.
  split; [simpl; lia|]. split; [reflexivity|].
  split; vm_compute; reflexivity.
Qed.

(** C4 (as amended). [load_wave_data] checks no shape. For a container whose
    time codes convert, it succeeds whenever [eta] has a first-axis entry for
    every (x, y) pair, whatever the lengths of the axes of [eta] are compared
    with those of [date] and [x]; when [eta] has fewer, it fails with
    [IndexError] from the gauge loop, after the time axis, the start date,
    the number of times and the wave maker have been stored, and without
    adding any gauge. *)
Theorem load_checks_no_shape :
  forall (loadmat : string -> outcome mat_arrays) (m : mat_arrays) (w : world),
    loadmat (wave_file_path (self w)) = Return m ->
    mat_date m <> [] ->
    forallb (fun v => representable (v + load_time_offset)%float) (mat_date m) = true ->
    exists time_axis first,
      nth_error time_axis 0 = Some first /\
      (Nat.min (length (mat_x m)) (length (mat_y m)) <= length (mat_eta m) ->
       fst (load_wave_data loadmat w) = Return tt) /\
      (length (mat_eta m) < Nat.min (length (mat_x m)) (length (mat_y m)) ->
       load_wave_data loadmat w
       = (Raise (Numpy.index_error (length (mat_eta m)) 0 (length (mat_eta m))),
          wave_maker_stored (mat_eta_wm m) (mat_x_wm m)
            (time_stored time_axis first w))).
Proof.
  intros loadmat m w Hm Hne Hrep.
  destruct (representable_stamps _ _ Hrep) as [time_axis Hall].
  destruct (Forall2_first _ _ _ Hall Hne) as [first Hfirst].
  exists time_axis, first. split; [exact Hfirst|]. split; intros Hlen.
  - now rewrite (load_wave_data_ok loadmat m time_axis first w Hm Hall Hfirst Hlen).
  - exact (load_wave_data_short loadmat m time_axis first w Hm Hall Hfirst Hlen).
Qed.

Lemma load_checks_no_shape_witness :
  fst (load_wave_data (file_of container_gauge_major) fresh) = Return tt.
Proof.
  destruct (load_checks_no_shape (file_of container_gauge_major)
              container_gauge_major fresh)
    as [time_axis [first [_ [Hok _]]]];
    [reflexivity | discriminate | reflexivity |].
  apply Hok. simpl. lia.
Defined.

(** C4, the counterexample: [eta] of shape 2 x 3 with three time codes and
    two gauge positions is not T x G = 3 x 2, and the container loads: no
    error is raised and the [Run] is populated. *)
Lemma load_accepts_mismatched_eta :
  ~ eta_is_time_by_gauge container_gauge_major /\
  fst (load_wave_data (file_of container_gauge_major) fresh) = Return tt /\
  num_times (self (snd (load_wave_data (file_of container_gauge_major) fresh)))
  = Some 3 /\
  num_wave_gauges (self (snd (load_wave_data (file_of container_gauge_major) fresh)))
  = Some 2.
Proof.
  split; [|split; [|split]]; try (vm_compute; reflexivity).
  intros [Hrows _]. simpl in Hrows. discriminate.
Qed.

(* ================================================================== *)
(** * The add operations *)

(** C6. For every [Run] and every argument that is not a [WaveMaker],
    [add_wave_maker] raises [TypeError], the code's type-mismatch error, with
    a message that ends in the type of the argument received, and the world
    after the call is the world before it: the stored wave maker, if any, is
    unchanged. *)
Theorem add_wave_maker_rejects :
  forall (obj : pyobj) (w : world),
    is_WaveMaker obj = false ->
    add_wave_maker obj w
    = (Raise (mk_exn TypeError
                ("Type must be WaveMaker. Input type is " ++ type_repr obj)%string),
       w)
    /\ spec_error_of TypeError = Some TypeMismatchError
    /\ wave_maker (self (snd (add_wave_maker obj w))) = wave_maker (self w).
Proof.
  intros obj w H.
  destruct obj; simpl in H; try discriminate; repeat split.
Qed.

(** A gauge passed where a wave maker is expected, on a [Run] that holds
    one. *)
Lemma add_wave_maker_rejects_witness :
  add_wave_maker
    (PyWaveGauge (WaveGauge.new 1 (10%float, 0%float) [1; 2]%float None))
    (wave_maker_stored [7; 8]%float [0.5; 0.25]%float fresh)
  = (Raise (mk_exn TypeError
              "Type must be WaveMaker. Input type is <class 'lib.data_classes.WaveGauge.WaveGauge'>"),
     wave_maker_stored [7; 8]%float [0.5; 0.25]%float fresh)
  /\ spec_error_of TypeError = Some TypeMismatchError
  /\ wave_maker
       (self (snd (add_wave_maker
                     (PyWaveGauge (WaveGauge.new 1 (10%float, 0%float) [1; 2]%float None))
                     (wave_maker_stored [7; 8]%float [0.5; 0.25]%float fresh))))
     = Some (WaveMaker.new [7; 8]%float [0.5; 0.25]%float None).
Proof.
  apply (add_wave_maker_rejects
           (PyWaveGauge (WaveGauge.new 1 (10%float, 0%float) [1; 2]%float None))
           (wave_maker_stored [7; 8]%float [0.5; 0.25]%float fresh)).
  reflexivity.
Defined.

(** C7 (as amended). For every argument that is neither a list nor a single
    [WaveGauge], [add_wave_gauge] raises [TypeError] with a message that ends
    in the type received, and changes neither the gauge list nor the gauge
    count (nor anything else). A list is accepted whatever its elements are:
    they are not checked, the list is concatenated and the count updated. *)
Theorem add_wave_gauge_rejects :
  (forall (obj : pyobj) (w : world),
     is_list obj = false ->
     is_WaveGauge obj = false ->
     add_wave_gauge obj w
     = (Raise (mk_exn TypeError
                 ("The type must be a list or a WaveGauge object" ++ newline
                    ++ "Input type is: " ++ type_repr obj)%string),
        w))
  /\
  (forall (items : list pyobj) (w : world),
     add_wave_gauge (PyList items) w = (Return tt, gauges_added items w) /\
     wave_gauges (self (gauges_added items w)) = wave_gauges (self w) ++ items).
Proof.
  split.
  - exact add_wave_gauge_other.
  - intros items w. split; reflexivity.
Qed.

Lemma add_wave_gauge_rejects_witness :
  add_wave_gauge (PyTuple [PyInt 1; PyInt 2]) fresh
  = (Raise (mk_exn TypeError
              ("The type must be a list or a WaveGauge object" ++ newline
                 ++ "Input type is: <class 'tuple'>")%string),
     fresh).
Proof.
  apply (proj1 add_wave_gauge_rejects (PyTuple [PyInt 1; PyInt 2]) fresh);
    reflexivity.
Defined.

(** C7, the counterexample: a list that holds an [int] and a [str] is no list
    of gauges, yet [add_wave_gauge] returns normally; both the gauge list and
    the gauge count have changed. *)
Lemma add_wave_gauge_accepts_any_list :
  forallb is_WaveGauge [PyInt 1; PyStr "gauge"] = false /\
  add_wave_gauge (PyList [PyInt 1; PyStr "gauge"]) fresh
  = (Return tt,
     mk_world
       (with_num_wave_gauges (Some 2)
          (with_wave_gauges [PyInt 1; PyStr "gauge"] (self fresh)))
       ["New Number of 2 wave gauges"%string]).
Proof. split; reflexivity. Qed.

(** C8. For every [Run] whose stored count is consistent with its gauge list
    (unset with no gauge, or the length of the list) and every list of [k]
    gauges, [add_wave_gauge] returns, the gauge list is the previous one
    followed by the [k] gauges in their order, and the stored count has grown
    by exactly [k]; for a single gauge the list is the previous one followed
    by it, and the count has grown by exactly 1. After either call the stored
    count is the length of the gauge list. *)
Theorem add_wave_gauge_appends :
  forall (gauges : list WaveGauge.t) (gauge : WaveGauge.t) (w : world),
    count_consistent (self w) ->
    (fst (add_wave_gauge (PyList (map PyWaveGauge gauges)) w) = Return tt /\
     wave_gauges (self (snd (add_wave_gauge (PyList (map PyWaveGauge gauges)) w)))
     = wave_gauges (self w) ++ map PyWaveGauge gauges /\
     stored_count (self (snd (add_wave_gauge (PyList (map PyWaveGauge gauges)) w)))
     = stored_count (self w) + length gauges /\
     count_consistent
       (self (snd (add_wave_gauge (PyList (map PyWaveGauge gauges)) w))) /\
     num_wave_gauges (self (snd (add_wave_gauge (PyList (map PyWaveGauge gauges)) w)))
     = Some (length
               (wave_gauges
                  (self (snd (add_wave_gauge (PyList (map PyWaveGauge gauges)) w))))))
    /\
    (fst (add_wave_gauge (PyWaveGauge gauge) w) = Return tt /\
     wave_gauges (self (snd (add_wave_gauge (PyWaveGauge gauge) w)))
     = wave_gauges (self w) ++ [PyWaveGauge gauge] /\
     stored_count (self (snd (add_wave_gauge (PyWaveGauge gauge) w)))
     = stored_count (self w) + 1 /\
     count_consistent (self (snd (add_wave_gauge (PyWaveGauge gauge) w))) /\
     num_wave_gauges (self (snd (add_wave_gauge (PyWaveGauge gauge) w)))
     = Some (length (wave_gauges (self (snd (add_wave_gauge (PyWaveGauge gauge) w)))))).
Proof.
  intros gauges gauge w Hc.
  assert (Hn : stored_count (self w) = length (wave_gauges (self w))).
  { unfold stored_count. destruct Hc as [[Hnone Hnil]|Hsome].
    - now rewrite Hnone, Hnil.
    - now rewrite Hsome. }
  rewrite add_wave_gauge_list, add_wave_gauge_single, Hn.
  unfold gauges_added, stored_count, count_consistent.
  cbn [fst snd self num_wave_gauges wave_gauges with_num_wave_gauges
         with_wave_gauges].
  rewrite !length_app, length_map. cbn [length].
  repeat split; right; reflexivity.
Qed.

(** Two gauges added to a fresh [Run], whose count is unset. *)
Lemma add_wave_gauge_appends_witness :
  stored_count
    (self (snd (add_wave_gauge
                  (PyList (map PyWaveGauge
                             [WaveGauge.new 1 (10%float, 0%float) [1; 2]%float None;
                              WaveGauge.new 2 (20%float, 0%float) [3; 4]%float None]))
                  fresh)))
  = 0 + 2.
Proof.
  apply (add_wave_gauge_appends
           [WaveGauge.new 1 (10%float, 0%float) [1; 2]%float None;
            WaveGauge.new 2 (20%float, 0%float) [3; 4]%float None]
           (WaveGauge.new 3 (30%float, 0%float) [5; 6]%float None)
           fresh).
  left. split; reflexivity.
Defined.

(* ================================================================== *)
(** * The flume surface *)

Lemma bind_lift {A B} (c : outcome A) (k : A -> M B) (w : world) :
  bind (lift c) k w
  = match c with
    | Return a => k a w
    | Raise e => (Raise e, w)
    end.
Proof. unfold bind, lift. destruct c; reflexivity. Qed.

Ltac lift_step :=
  rewrite bind_lift;
  cbv iota beta;
  try match goal with
      | E : ?c = Return _ |- match ?c with Return _ => _ | Raise _ => _ end = _ =>
          rewrite E; cbv iota beta
      | |- match ?c with Return _ => _ | Raise _ => _ end = _ =>
          destruct c eqn:?; cbn [obind]; [|reflexivity]
      end.

(** [construct_flume_wse] computes the two matrices from the attributes and
    stores them only when all of it went through. *)
Lemma construct_flume_wse_pure (w : world) :
  construct_flume_wse w
  = match flume_matrices (self w) with
    | Return (wse, locs) => (Return tt, flume_stored wse locs w)
    | Raise e => (Raise e, w)
    end.
Proof.
  unfold construct_flume_wse, flume_matrices.
  unfold bind at 1, get.
  repeat lift_step.
  reflexivity.
Qed.

(** ** The errors of the numpy and pandas steps *)









(** ** The numpy steps on well-shaped arguments *)

Lemma broadcast_to_same {A} (err : exn) (src : list A) (n : nat) :
  length src = n -> Numpy.broadcast_to err src n = Return src.
Proof.
  intros H. unfold Numpy.broadcast_to. now rewrite H, Nat.eqb_refl.
Qed.

Lemma map_combine_repeat {A B C} (f : A * B -> C) (a : A) :
  forall l : list B,
    map f (combine (repeat a (length l)) l) = map (fun v => f (a, v)) l.
Proof.
  induction l as [|v l IH]; simpl; [reflexivity | now rewrite IH].
Qed.

Lemma combine_map_l {A B C} (f : A -> C) :
  forall (l : list A) (l' : list B),
    combine (map f l) l' = map (fun p => (f (fst p), snd p)) (combine l l').
Proof.
  induction l as [|a l IH]; intros [|b l']; simpl; try reflexivity.
  now rewrite IH.
Qed.

Lemma map_fst_combine_same {A B} :
  forall (l : list A) (l' : list B),
    length l = length l' -> map fst (combine l l') = l.
Proof.
  induction l as [|a l IH]; intros [|b l'] H; simpl in *; try discriminate.
  - reflexivity.
  - rewrite IH by congruence. reflexivity.
Qed.

Lemma map_snd_combine_same {A B} :
  forall (l : list A) (l' : list B),
    length l = length l' -> map snd (combine l l') = l'.
Proof.
  induction l as [|a l IH]; intros [|b l'] H; simpl in *; try discriminate.
  - reflexivity.
  - rewrite IH by congruence. reflexivity.
Qed.

Lemma map_const_repeat {A B} (b : B) :
  forall l : list A, map (fun _ => b) l = repeat b (length l).
Proof.
  induction l as [|a l IH]; simpl; [reflexivity | now rewrite IH].
Qed.

(** [zeros[:, 0] = src] for a series with one value per row. *)
Lemma set_column_zeros (T G : nat) (src : list float) :
  length src = T ->
  Numpy.set_column (Numpy.zeros T (S G)) 0 src
  = Return (Numpy.mk_ndarray2 (S G) (map (fun v => v :: repeat 0%float G) src)).
Proof.
  intros H. unfold Numpy.set_column, Numpy.zeros, Numpy.nrows.
  cbn [Numpy.ncols Numpy.rows Nat.ltb Nat.leb].
  rewrite repeat_length, (broadcast_to_same _ src T H). cbn [obind].
  subst T. rewrite map_combine_repeat. reflexivity.
Qed.

(** [a[:, 1:] = x_loc] for one location per remaining column. *)
Lemma set_columns_from_1_rows (G : nat) (heads : list float)
    (fill x_loc : list float) :
  length x_loc = G ->
  Numpy.set_columns_from_1
    (Numpy.mk_ndarray2 (S G) (map (fun v => v :: fill) heads)) x_loc
  = Return (Numpy.mk_ndarray2 (S G) (map (fun v => v :: x_loc) heads)).
Proof.
  intros H. unfold Numpy.set_columns_from_1. cbn [Numpy.ncols Numpy.rows].
  replace (S G - 1) with G by lia.
  rewrite (broadcast_to_same _ x_loc G H). cbn [obind].
  rewrite map_map. reflexivity.
Qed.

(** [a[:, 1:] = m] for a matrix of the shape of the slice. *)
Lemma set_columns_from_2_rows (G : nat) (heads : list float)
    (fill : list float) (m : Numpy.ndarray2) :
  Numpy.has_shape m (length heads) G ->
  Numpy.set_columns_from_2
    (Numpy.mk_ndarray2 (S G) (map (fun v => v :: fill) heads)) m
  = Return (Numpy.mk_ndarray2 (S G)
              (map (fun vr => fst vr :: snd vr) (combine heads (Numpy.rows m)))).
Proof.
  intros [Hrows [Hcols _]].
  unfold Numpy.set_columns_from_2, Numpy.nrows in *. cbn [Numpy.ncols Numpy.rows].
  replace (S G - 1) with G by lia.
  rewrite Hcols, Nat.eqb_refl. cbn [orb].
  rewrite broadcast_to_same by (rewrite length_map; exact Hrows).
  cbn [obind]. rewrite combine_map_l, map_map. reflexivity.
Qed.

(** Columns of a matrix whose rows are a head value followed by a tail. *)
Lemma column_0_heads (n : nat) (heads : list float) (tails : list (list float)) :
  length heads = length tails ->
  Numpy.column 0
    (Numpy.mk_ndarray2 n (map (fun vr => fst vr :: snd vr) (combine heads tails)))
  = heads.
Proof.
  intros Hlen. unfold Numpy.column. cbn [Numpy.rows].
  rewrite map_map. cbn [nth fst].
  rewrite <- (map_map fst (fun v => v)), map_fst_combine_same by exact Hlen.
  apply map_id.
Qed.

Lemma column_S_tails (n j : nat) (heads : list float) (tails : list (list float)) :
  length heads = length tails ->
  Numpy.column (S j)
    (Numpy.mk_ndarray2 n (map (fun vr => fst vr :: snd vr) (combine heads tails)))
  = map (fun r => nth j r 0%float) tails.
Proof.
  intros Hlen. unfold Numpy.column. cbn [Numpy.rows].
  rewrite map_map. cbn [nth snd].
  rewrite <- (map_map snd (fun r => nth j r 0%float)).
  rewrite map_snd_combine_same by exact Hlen. reflexivity.
Qed.

Lemma column_0_fixed_tail (n : nat) (heads tail : list float) :
  Numpy.column 0 (Numpy.mk_ndarray2 n (map (fun v => v :: tail) heads)) = heads.
Proof.
  unfold Numpy.column. cbn [Numpy.rows]. rewrite map_map. cbn [nth].
  apply map_id.
Qed.

Lemma column_S_fixed_tail (n j : nat) (heads tail : list float) :
  Numpy.column (S j) (Numpy.mk_ndarray2 n (map (fun v => v :: tail) heads))
  = repeat (nth j tail 0%float) (length heads).
Proof.
  unfold Numpy.column. cbn [Numpy.rows]. rewrite map_map. cbn [nth].
  apply map_const_repeat.
Qed.

(** The matrices of the flume surface on a [Run] that satisfies the data
    model: [T] times, [G] gauges, a wave maker with [T] values per series, a
    gauge surface matrix of shape [T x G] and a location table of [G] rows
    under the labels [x_loc], [y_loc]. *)
Lemma flume_matrices_built (r : Run) (T G : nat) (wm : WaveMaker.t)
    (surface : Numpy.ndarray2) (table : DataFrame) :
  num_times r = Some T ->
  num_wave_gauges r = Some G ->
  wave_maker r = Some wm ->
  length (WaveMaker.eta_wm wm) = T ->
  length (WaveMaker.position wm) = T ->
  wave_gauge_wse r = Some surface ->
  Numpy.has_shape surface T G ->
  wg_locations r = Some table ->
  df_columns table = ["x_loc"; "y_loc"]%string ->
  Numpy.has_shape (df_values table) G 2 ->
  flume_matrices r
  = Return
      (Numpy.mk_ndarray2 (G + 1)
         (map (fun vr => fst vr :: snd vr)
            (combine (WaveMaker.eta_wm wm) (Numpy.rows surface))),
       Numpy.mk_ndarray2 (G + 1)
         (map (fun v => v :: Numpy.column 0 (df_values table))
            (WaveMaker.position wm))).
Proof.
  intros HT HG Hwm Heta Hpos Hsurf Hshape Htab Hcols Hloc.
  unfold flume_matrices.
  rewrite HT, HG, Hwm, Hsurf, Htab.
  cbn [plus_one np_zeros wave_maker_attr getattr obind].
  rewrite Nat.add_1_r.
  rewrite (set_column_zeros T G _ Hpos), (set_column_zeros T G _ Heta).
  cbn [obind].
  unfold df_getitem. rewrite Hcols. cbn [index_of String.eqb Ascii.eqb Bool.eqb].
  cbn [obind].
  rewrite set_columns_from_1_rows
    by (unfold Numpy.column; rewrite length_map; apply Hloc).
  cbn [obind].
  rewrite set_columns_from_2_rows by (rewrite Heta; exact Hshape).
  reflexivity.
Qed.



(** The flume surface of the example, computed. *)
Example flume_of_example :
  flume_wse (self (snd (construct_flume_wse built)))
  = Some (Numpy.mk_ndarray2 3 [[7; 1; 2]; [8; 3; 4]; [9; 5; 6]]%float)
  /\ flume_wse_locs (self (snd (construct_flume_wse built)))
     = Some (Numpy.mk_ndarray2 3
               [[0.5; 10; 20]; [0.25; 10; 20]; [0.125; 10; 20]]%float).
Proof. split; vm_compute; reflexivity. Qed.

(* ================================================================== *)
(** * The gauge surface matrix and the location table *)

Lemma set_nth_length {A} :
  forall (j : nat) (v : A) (xs : list A),
    length (Numpy.set_nth j v xs) = length xs.
Proof.
  induction j as [|j IH]; intros v [|x xs]; simpl; try reflexivity.
  now rewrite IH.
Qed.

Lemma nth_set_nth_same {A} :
  forall (j : nat) (v d : A) (xs : list A),
    j < length xs -> nth j (Numpy.set_nth j v xs) d = v.
Proof.
  induction j as [|j IH]; intros v d [|x xs] H; simpl in *; try lia.
  - reflexivity.
  - apply IH. lia.
Qed.

Lemma nth_set_nth_other {A} :
  forall (j j' : nat) (v d : A) (xs : list A),
    j' <> j -> nth j' (Numpy.set_nth j v xs) d = nth j' xs d.
Proof.
  induction j as [|j IH]; intros [|j'] v d [|x xs] H; simpl; try reflexivity;
    try lia.
  apply IH. lia.
Qed.

Lemma zeros_shape (T G : nat) : Numpy.has_shape (Numpy.zeros T G) T G.
Proof.
  unfold Numpy.has_shape, Numpy.zeros, Numpy.nrows. cbn [Numpy.rows Numpy.ncols].
  rewrite repeat_length. repeat split.
  apply Forall_forall. intros r Hr. apply repeat_spec in Hr. subst r.
  apply repeat_length.
Qed.

Lemma column_zeros (T G j : nat) :
  Numpy.column j (Numpy.zeros T G) = repeat 0%float T.
Proof.
  unfold Numpy.column, Numpy.zeros. cbn [Numpy.rows].
  induction T as [|T IH]; simpl; [reflexivity|].
  rewrite IH. f_equal.
  destruct (Nat.lt_ge_cases j G) as [Hlt|Hge].
  - apply nth_repeat_lt. exact Hlt.
  - apply nth_overflow. now rewrite repeat_length.
Qed.

(** [a[:, j] = src] on a matrix of shape [T x G], for a column [j] of the
    matrix and a series of length [T]: column [j] becomes the series and the
    other columns stay. *)
Lemma set_column_ok (a : Numpy.ndarray2) (T G j : nat) (src : list float) :
  Numpy.has_shape a T G ->
  j < G ->
  length src = T ->
  exists a',
    Numpy.set_column a j src = Return a' /\
    Numpy.has_shape a' T G /\
    Numpy.column j a' = src /\
    (forall j', j' <> j -> Numpy.column j' a' = Numpy.column j' a).
Proof.
  intros [Hrows [Hcols Hall]] Hj Hsrc.
  unfold Numpy.set_column. rewrite Hcols.
  apply Nat.ltb_lt in Hj as Hjb. rewrite Hjb.
  rewrite broadcast_to_same by congruence. cbn [obind].
  eexists. split; [reflexivity|].
  unfold Numpy.nrows in Hrows.
  assert (Hlen : length (Numpy.rows a) = length src) by congruence.
  rewrite Forall_forall in Hall.
  unfold Numpy.has_shape, Numpy.nrows, Numpy.column.
  cbn [Numpy.rows Numpy.ncols]. repeat split.
  - rewrite length_map, length_combine. lia.
  - apply Forall_forall. intros r Hr.
    apply in_map_iff in Hr. destruct Hr as [[r0 v] [Hr Hin]]. subst r.
    cbn [fst snd]. rewrite set_nth_length.
    apply Hall. exact (in_combine_l _ _ _ _ Hin).
  - rewrite map_map.
    rewrite <- (map_snd_combine_same (Numpy.rows a) src Hlen) at 2.
    apply map_ext_in. intros [r0 v] Hin. cbn [fst snd].
    apply nth_set_nth_same.
    rewrite (Hall r0 (in_combine_l _ _ _ _ Hin)). exact Hj.
  - intros j' Hj'. rewrite map_map.
    rewrite <- (map_fst_combine_same (Numpy.rows a) src Hlen) at 2.
    rewrite map_map.
    apply map_ext_in. intros [r0 v] Hin. cbn [fst snd].
    apply nth_set_nth_other. exact Hj'.
Qed.

(** The loop of [construct_wave_gauge_wse] over gauges whose series have
    [T] values: gauge number [k + i] fills column [k + i]. *)
Lemma surface_loop (T G : nat) :
  forall (gauges : list WaveGauge.t) (k : nat) (a : Numpy.ndarray2),
    Numpy.has_shape a T G ->
    k + length gauges <= G ->
    Forall (fun g => length (WaveGauge.eta g) = T) gauges ->
    exists a',
      for_each (enumerate_from k (map PyWaveGauge gauges))
        (fun surface_elevations i_wave_gauge =>
           let i := fst i_wave_gauge in
           let wave_gauge := snd i_wave_gauge in
           eta <-- wave_gauge_attr "eta" WaveGauge.eta wave_gauge ;;
           Numpy.set_column surface_elevations i eta)
        a
      = Return a' /\
      Numpy.has_shape a' T G /\
      (forall j, j < k -> Numpy.column j a' = Numpy.column j a) /\
      (forall i g, nth_error gauges i = Some g ->
                   Numpy.column (k + i) a' = WaveGauge.eta g).
Proof.
  induction gauges as [|g gauges IH]; intros k a Hshape Hk Hall.
  - exists a. split; [reflexivity|]. split; [exact Hshape|].
    split; [reflexivity|]. intros [|i] g' H; discriminate.
  - inversion Hall as [|g0 l Hg Hrest]; subst g0 l.
    cbn [length] in Hk.
    destruct (set_column_ok a T G k (WaveGauge.eta g) Hshape) as
      [a1 [Hset [Hshape1 [Hcol Hother]]]]; [lia | exact Hg |].
    destruct (IH (S k) a1 Hshape1) as [a' [Hloop [Hshape' [Hbefore Hnth]]]];
      [lia | exact Hrest |].
    exists a'.
    cbn [map enumerate_from for_each fst snd wave_gauge_attr obind].
    rewrite Hset. split; [exact Hloop|]. split; [exact Hshape'|]. split.
    + intros j Hj. rewrite Hbefore by lia. apply Hother. lia.
    + intros [|i] g' Hg'; cbn [nth_error] in Hg'.
      * inversion Hg'; subst g'. rewrite Nat.add_0_r.
        rewrite Hbefore by lia. exact Hcol.
      * replace (k + S i) with (S k + i) by lia. apply Hnth. exact Hg'.
Qed.

Lemma map_enumerate_beyond {A} (f : A -> A) :
  forall (xs : list A) (s i : nat),
    i < s ->
    map (fun ir => if fst ir =? i then f (snd ir) else snd ir)
        (enumerate_from s xs)
    = xs.
Proof.
  induction xs as [|x xs IH]; intros s i Hi; simpl; [reflexivity|].
  destruct (Nat.eqb_spec s i); [lia|].
  rewrite IH by lia. reflexivity.
Qed.

Lemma map_enumerate_update {A} (f : A -> A) :
  forall (before : list A) (s : nat) (r : A) (after : list A),
    map (fun ir => if fst ir =? s + length before then f (snd ir) else snd ir)
        (enumerate_from s (before ++ r :: after))
    = before ++ f r :: after.
Proof.
  induction before as [|b before IH]; intros s r after; simpl.
  - rewrite Nat.add_0_r, Nat.eqb_refl.
    rewrite map_enumerate_beyond by lia. reflexivity.
  - destruct (Nat.eqb_spec s (s + S (length before))); [lia|].
    replace (s + S (length before)) with (S s + length before) by lia.
    rewrite IH. reflexivity.
Qed.

(** [a[i, j] = v] rewrites row [i] and no other. *)
Lemma set_item_at (n : nat) (before : list (list float)) (r : list float)
    (after : list (list float)) (j : nat) (v : float) :
  j < n ->
  Numpy.set_item (Numpy.mk_ndarray2 n (before ++ r :: after)) (length before) j v
  = Return (Numpy.mk_ndarray2 n (before ++ Numpy.set_nth j v r :: after)).
Proof.
  intros Hj. unfold Numpy.set_item, Numpy.nrows, enumerate.
  cbn [Numpy.rows Numpy.ncols].
  assert (Hi : (length before <? length (before ++ r :: after)) = true).
  { apply Nat.ltb_lt. rewrite length_app. simpl. lia. }
  apply Nat.ltb_lt in Hj. rewrite Hi, Hj.
  pose proof (map_enumerate_update (Numpy.set_nth j v) before 0 r after) as Hmap.
  cbn [Nat.add] in Hmap. rewrite Hmap.
  reflexivity.
Qed.

(** The row of the location table for a gauge. *)
Lemma location_loop :
  forall (gauges : list WaveGauge.t) (done : list (list float)) (extra : nat),
    for_each (enumerate_from (length done) (map PyWaveGauge gauges))
      (fun location i_wave_gauge =>
         let i := fst i_wave_gauge in
         let wave_gauge := snd i_wave_gauge in
         xy <-- wave_gauge_attr "location" WaveGauge.location wave_gauge ;;
         location <-- Numpy.set_item location i 0 (fst xy) ;;
         xy <-- wave_gauge_attr "location" WaveGauge.location wave_gauge ;;
         Numpy.set_item location i 1 (snd xy))
      (Numpy.mk_ndarray2 2
         (done ++ repeat [0; 0]%float (length gauges + extra)))
    = Return
        (Numpy.mk_ndarray2 2
           (done
            ++ map (fun g => [fst (WaveGauge.location g);
                              snd (WaveGauge.location g)]) gauges
            ++ repeat [0; 0]%float extra)).
Proof.
  induction gauges as [|g gauges IH]; intros done extra.
  - reflexivity.
  - cbn [map enumerate_from for_each fst snd wave_gauge_attr obind length
           Nat.add repeat].
    rewrite set_item_at by lia. cbn [obind Numpy.set_nth].
    rewrite set_item_at by lia. cbn [Numpy.set_nth].
    specialize (IH (done ++ [[fst (WaveGauge.location g);
                              snd (WaveGauge.location g)]]) extra).
    rewrite length_app, Nat.add_1_r, <- !app_assoc in IH. exact IH.
Qed.

(** [construct_wave_gauge_wse] on a [Run] of [T] times whose gauges all have
    [T] elevations: column [i] of the matrix is the series of gauge [i]. *)
Lemma surface_built (w : world) (T : nat) (gauges : list WaveGauge.t) :
  num_times (self w) = Some T ->
  wave_gauges (self w) = map PyWaveGauge gauges ->
  num_wave_gauges (self w) = Some (length gauges) ->
  Forall (fun g => length (WaveGauge.eta g) = T) gauges ->
  exists surface,
    construct_wave_gauge_wse w
    = (Return tt,
       mk_world (with_wave_gauge_wse (Some surface) (self w)) (stdout w)) /\
    Numpy.has_shape surface T (length gauges) /\
    (forall i g, nth_error gauges i = Some g ->
                 Numpy.column i surface = WaveGauge.eta g).
Proof.
  intros HT Hgauges HG Hall.
  destruct (surface_loop T (length gauges) gauges 0 (Numpy.zeros T (length gauges))
              (zeros_shape T (length gauges)) (Nat.le_refl _) Hall)
    as [surface [Hloop [Hshape [_ Hcols]]]].
  exists surface. split; [|split; [exact Hshape | exact Hcols]].
  unfold construct_wave_gauge_wse. unfold bind at 1, get.
  rewrite bind_lift, HT, HG. cbn [np_zeros].
  try rewrite bind_lift. rewrite Hgauges. unfold enumerate.
  cbv zeta in Hloop. rewrite Hloop.
  reflexivity.
Qed.

(** [get_wave_gauge_locations]: row [i] of the table is the location of
    gauge [i], x first. *)
Lemma locations_built (w : world) (gauges : list WaveGauge.t) :
  wave_gauges (self w) = map PyWaveGauge gauges ->
  num_wave_gauges (self w) = Some (length gauges) ->
  get_wave_gauge_locations w
  = (Return tt,
     mk_world
       (with_wg_locations
          (Some (mk_DataFrame
                   (Numpy.mk_ndarray2 2
                      (map (fun g => [fst (WaveGauge.location g);
                                      snd (WaveGauge.location g)]) gauges))
                   ["x_loc"; "y_loc"]%string))
          (self w))
       (stdout w)).
Proof.
  intros Hgauges HG.
  unfold get_wave_gauge_locations. unfold bind at 1, get.
  rewrite bind_lift, HG. cbn [np_zeros].
  try rewrite bind_lift. rewrite Hgauges. unfold enumerate, Numpy.zeros.
  pose proof (location_loop gauges [] 0) as Hloop.
  cbn [length app repeat] in Hloop. cbv zeta in Hloop.
  rewrite Nat.add_0_r, app_nil_r in Hloop.
  cbn [repeat]. rewrite Hloop. reflexivity.
Qed.


(* ================================================================== *)
(** * From the gauges to the flume surface *)

(** The three builds in a row, on a [Run] of [T] times whose gauges and wave
    maker all have series of [T] values: the flume surface has the wave
    maker's series in column 0 and, for gauge [i], its elevation series in
    column [i + 1] and its x location in every row of column [i + 1] of the
    positions. *)
Theorem flume_from_gauges :
  forall (w : world) (T : nat) (gauges : list WaveGauge.t) (wm : WaveMaker.t),
    num_times (self w) = Some T ->
    wave_gauges (self w) = map PyWaveGauge gauges ->
    num_wave_gauges (self w) = Some (length gauges) ->
    Forall (fun g => length (WaveGauge.eta g) = T) gauges ->
    wave_maker (self w) = Some wm ->
    length (WaveMaker.eta_wm wm) = T ->
    length (WaveMaker.position wm) = T ->
    exists wse locs,
      fst ((construct_wave_gauge_wse ;; get_wave_gauge_locations ;;
            construct_flume_wse) w) = Return tt /\
      flume_wse
        (self (snd ((construct_wave_gauge_wse ;; get_wave_gauge_locations ;;
                     construct_flume_wse) w))) = Some wse /\
      flume_wse_locs
        (self (snd ((construct_wave_gauge_wse ;; get_wave_gauge_locations ;;
                     construct_flume_wse) w))) = Some locs /\
      Numpy.column 0 wse = WaveMaker.eta_wm wm /\
      Numpy.column 0 locs = WaveMaker.position wm /\
      (forall i g, nth_error gauges i = Some g ->
         Numpy.column (S i) wse = WaveGauge.eta g /\
         Numpy.column (S i) locs = repeat (fst (WaveGauge.location g)) T).
Proof.
  intros w T gauges wm HT Hgauges HG Hall Hwm Heta Hpos.
  destruct (surface_built w T gauges HT Hgauges HG Hall)
    as [surface [Hsurface [Hshape Hcols]]].
  set (w1 := mk_world (with_wave_gauge_wse (Some surface) (self w)) (stdout w))
    in Hsurface.
  pose proof (locations_built w1 gauges Hgauges HG) as Hlocations.
  set (table := mk_DataFrame _ _) in Hlocations.
  set (w2 := mk_world (with_wg_locations (Some table) (self w1)) (stdout w1))
    in Hlocations.
  assert (Htable : Numpy.has_shape (df_values table) (length gauges) 2).
  { unfold table, Numpy.has_shape, Numpy.nrows. cbn [df_values Numpy.rows Numpy.ncols].
    rewrite length_map. repeat split.
    apply Forall_forall. intros r Hr. apply in_map_iff in Hr.
    destruct Hr as [g [Hr _]]. subst r. reflexivity. }
  pose proof (flume_matrices_built (self w2) T (length gauges) wm surface table
                HT HG Hwm Heta Hpos eq_refl Hshape eq_refl eq_refl Htable)
    as Hflume.
  assert (Hrun :
            (construct_wave_gauge_wse ;; get_wave_gauge_locations ;;
             construct_flume_wse) w
            = construct_flume_wse w2).
  { unfold bind at 1. rewrite Hsurface. unfold bind at 1. rewrite Hlocations.
    reflexivity. }
  rewrite Hrun, construct_flume_wse_pure, Hflume.
  eexists. eexists. split; [reflexivity|]. split; [reflexivity|].
  split; [reflexivity|].
  destruct Hshape as [Hrows _]. unfold Numpy.nrows in Hrows.
  assert (Hlen : length (WaveMaker.eta_wm wm) = length (Numpy.rows surface))
    by congruence.
  split; [exact (column_0_heads _ _ _ Hlen)|].
  split; [apply column_0_fixed_tail|].
  intros i g Hg. split.
  - rewrite (column_S_tails _ i _ _ Hlen). exact (Hcols i g Hg).
  - rewrite column_S_fixed_tail, Hpos. f_equal.
    unfold table, Numpy.column. cbn [df_values Numpy.rows].
    rewrite map_map. cbn [nth].
    apply nth_error_nth.
    exact (map_nth_error (fun g0 => fst (WaveGauge.location g0)) i gauges Hg).
Qed.

(** On the loaded example the three builds go through. *)
Lemma flume_from_gauges_witness :
  fst ((construct_wave_gauge_wse ;; get_wave_gauge_locations ;;
        construct_flume_wse) loaded) = Return tt.
Proof.
  destruct (flume_from_gauges loaded 3
              [WaveGauge.new 1 (10%float, 0%float) [1; 3; 5]%float (Some stamps);
               WaveGauge.new 2 (20%float, 0%float) [2; 4; 6]%float (Some stamps)]
              (WaveMaker.new [7; 8; 9]%float [0.5; 0.25; 0.125]%float (Some stamps)))
    as [wse [locs [Hfst _]]];
    try exact Hfst; try reflexivity; repeat constructor.
Defined.

(* ================================================================== *)
(** * What the methods keep *)

Section Preservation.

Variable P : Run -> Prop.

Lemma preserves_ret {A} (a : A) : preserves P (ret a).
Proof. intros w H. exact H. Qed.

Lemma preserves_lift {A} (c : outcome A) : preserves P (lift c).
Proof. intros w H. exact H. Qed.

Lemma preserves_raise {A} (cls : exn_class) (msg : string) :
  preserves P (@raise A cls msg).
Proof. intros w H. exact H. Qed.

Lemma preserves_get : preserves P get.
Proof. intros w H. exact H. Qed.

Lemma preserves_print (line : string) : preserves P (print line).
Proof. intros w H. exact H. Qed.

Lemma preserves_assign (upd : Run -> Run) :
  (forall r, P r -> P (upd r)) -> preserves P (assign upd).
Proof. intros Hupd w H. apply Hupd. exact H. Qed.

Lemma preserves_bind {A B} (m : M A) (k : A -> M B) :
  preserves P m -> (forall a, preserves P (k a)) -> preserves P (bind m k).
Proof.
  intros Hm Hk w H. unfold bind.
  specialize (Hm w H).
  destruct (m w) as [[a|e] w']; cbn [snd] in *.
  - apply Hk. exact Hm.
  - exact Hm.
Qed.

End Preservation.

(** Methods that assign neither the gauge list nor the gauge count. *)
Ltac keeps_count :=
  repeat first
    [ apply preserves_bind; [|intros ?]
    | apply preserves_lift | apply preserves_get | apply preserves_print
    | apply preserves_assign; intros r Hr; exact Hr ].

Lemma add_wave_gauge_consistent (obj : pyobj) :
  preserves count_consistent (add_wave_gauge obj).
Proof.
  intros w H.
  destruct obj;
    try (rewrite add_wave_gauge_other by reflexivity; exact H).
  - rewrite add_wave_gauge_list. right. reflexivity.
  - rewrite add_wave_gauge_single. right. reflexivity.
Qed.

Lemma construct_wave_gauges_consistent (x_loc y_loc : list float)
    (eta : list (list float)) :
  preserves count_consistent (_construct_wave_gauges x_loc y_loc eta).
Proof.
  unfold _construct_wave_gauges.
  apply preserves_bind; [apply preserves_get | intros r].
  apply preserves_bind; [apply preserves_lift | intros gs].
  apply add_wave_gauge_consistent.
Qed.

(** The stored gauge count stays consistent with the gauge list through
    every method: it is [None] on a [Run] without gauges, as [__init__]
    leaves it, or it is the length of the gauge list. *)
Theorem count_consistent_kept :
  count_consistent (__init__ "RUN001" "RUN001.mat") /\
  (forall obj, preserves count_consistent (add_wave_maker obj)) /\
  (forall obj, preserves count_consistent (add_wave_gauge obj)) /\
  (forall loadmat, preserves count_consistent (load_wave_data loadmat)) /\
  preserves count_consistent construct_wave_gauge_wse /\
  preserves count_consistent get_wave_gauge_locations /\
  preserves count_consistent construct_flume_wse.
Proof.
  split; [left; split; reflexivity|].
  split.
  { intros obj w H. destruct obj; exact H. }
  split; [exact add_wave_gauge_consistent|].
  split.
  { intros loadmat. unfold load_wave_data.
    apply preserves_bind; [apply preserves_get | intros r].
    apply preserves_bind; [apply preserves_lift | intros m].
    apply preserves_bind; [|intros _].
    - unfold _convert_mat_time_and_store. keeps_count.
    - apply preserves_bind; [|intros _].
      + unfold _construct_wave_maker. keeps_count.
      + apply construct_wave_gauges_consistent. }
  split; [unfold construct_wave_gauge_wse; keeps_count|].
  split; [unfold get_wave_gauge_locations; keeps_count|].
  unfold construct_flume_wse. keeps_count.
Qed.

(** The loaded example run keeps the count consistent. *)
Lemma count_consistent_kept_witness : count_consistent (self loaded).
Proof.
  apply (proj1 (proj2 (proj2 (proj2 count_consistent_kept)))
           (file_of container_gauge_major) fresh).
  left. split; reflexivity.
Defined.

(** Building the flume surface again changes nothing more: the second call
    computes the same matrices from the same attributes and overwrites the
    stored ones with them (and a failed call fails again, the same way). *)
Theorem construct_flume_wse_idempotent :
  forall w : world,
    construct_flume_wse (snd (construct_flume_wse w)) = construct_flume_wse w.
Proof.
  intros w. rewrite (construct_flume_wse_pure w).
  destruct (flume_matrices (self w)) as [[wse locs]|e] eqn:Hm; cbn [snd].
  - rewrite construct_flume_wse_pure.
    change (flume_matrices (self (flume_stored wse locs w)))
      with (flume_matrices (self w)).
    rewrite Hm. reflexivity.
  - rewrite construct_flume_wse_pure, Hm. reflexivity.
Qed.

(** [add_wave_maker] with a [WaveMaker] replaces the stored one and touches
    nothing else. *)
Theorem add_wave_maker_replaces :
  forall (m : WaveMaker.t) (w : world),
    add_wave_maker (PyWaveMaker m) w
    = (Return tt, mk_world (with_wave_maker (Some m) (self w)) (stdout w)).
Proof. intros m w. reflexivity. Qed.

(* ================================================================== *)
(** * The time conversion, case by case *)

Lemma stamps_loop_all :
  forall (ts : list float) (acc : list PyDatetime.datetime),
    for_each ts
      (fun experiment_datetime time =>
         delta_datetime <-- PyDatetime.timedelta_days time ;;
         stamp <-- PyDatetime.datetime_add (PyDatetime.datetime_ymd 1 1 1) delta_datetime ;;
         Return (experiment_datetime ++ [stamp]))
      acc
    = (ds <-- all_stamps ts ;; Return (acc ++ ds)).
Proof.
  induction ts as [|t ts IH]; intros acc; cbn [for_each all_stamps obind].
  - now rewrite app_nil_r.
  - unfold epoch_plus_days.
    destruct (PyDatetime.timedelta_days t) as [delta|e]; cbn [obind]; [|reflexivity].
    destruct (PyDatetime.datetime_add (PyDatetime.datetime_ymd 1 1 1) delta)
      as [d|e]; cbn [obind]; [|reflexivity].
    rewrite IH. destruct (all_stamps ts) as [ds|e]; cbn [obind]; [|reflexivity].
    now rewrite <- app_assoc.
Qed.

(** The conversion in full: what it returns and what it leaves behind, for
    every array of codes. *)
Lemma convert_cases (offset : float) (mat_time : list float) (w : world) :
  _convert_mat_time_and_store offset mat_time w
  = match all_stamps (map (fun t => (t + offset)%float) mat_time) with
    | Raise e => (Raise e, w)
    | Return [] =>
        (Raise (mk_exn IndexError "list index out of range"), axis_stored [] w)
    | Return (first :: rest) =>
        (Return tt, time_stored (first :: rest) first w)
    end.
Proof.
  unfold _convert_mat_time_and_store, enumerate.
  rewrite bind_lift.
  rewrite (for_each_enumerate_snd
             (fun experiment_datetime time =>
                delta_datetime <-- PyDatetime.timedelta_days time ;;
                stamp <-- PyDatetime.datetime_add (PyDatetime.datetime_ymd 1 1 1)
                            delta_datetime ;;
                Return (experiment_datetime ++ [stamp]))).
  rewrite stamps_loop_all.
  destruct (all_stamps (map (fun t => (t + offset)%float) mat_time))
    as [[|first rest]|e]; reflexivity.
Qed.

Lemma all_stamps_app_fail :
  forall (good : list float) (bad : float) (rest : list float) (e : exn),
    forallb representable good = true ->
    epoch_plus_days bad = Raise e ->
    all_stamps (good ++ bad :: rest) = Raise e.
Proof.
  induction good as [|t good IH]; intros bad rest e Hgood Hbad;
    cbn [app all_stamps].
  - rewrite Hbad. reflexivity.
  - cbn [forallb] in Hgood. apply andb_prop in Hgood. destruct Hgood as [Ht Hgood].
    unfold representable in Ht.
    destruct (epoch_plus_days t) as [d|e']; [|discriminate]. cbn [obind].
    rewrite (IH bad rest e Hgood Hbad). reflexivity.
Qed.

Lemma forallb_map {A B} (f : A -> B) (p : B -> bool) :
  forall xs, forallb p (map f xs) = forallb (fun x => p (f x)) xs.
Proof.
  induction xs as [|x xs IH]; simpl; [reflexivity | now rewrite IH].
Qed.

(** Loading stores nothing when it fails before the gauges. If the file
    cannot be read, [load_wave_data] raises the reader's exception; if it is
    read and some time code has no representable instant, it raises the
    exception of the first such code ([OverflowError] or [ValueError], from
    [timedelta] or from the addition). In both cases the [Run] is as it was
    before the call: no time axis, no start date, no wave maker, no gauge. *)
Theorem load_fails_without_storing :
  forall (loadmat : string -> outcome mat_arrays) (w : world) (e : exn),
    (loadmat (wave_file_path (self w)) = Raise e ->
     load_wave_data loadmat w = (Raise e, w))
    /\
    (forall (m : mat_arrays) (good : list float) (bad : float) (rest : list float),
       loadmat (wave_file_path (self w)) = Return m ->
       mat_date m = good ++ bad :: rest ->
       forallb (fun v => representable (v + load_time_offset)%float) good = true ->
       epoch_plus_days (bad + load_time_offset) = Raise e ->
       load_wave_data loadmat w = (Raise e, w)
       /\ _convert_mat_time_and_store load_time_offset (mat_date m) w = (Raise e, w)).
Proof.
  intros loadmat w e. split.
  - intros Hfail. unfold load_wave_data. unfold bind at 1, get.
    rewrite bind_lift, Hfail. reflexivity.
  - intros m good bad rest Hm Hdate Hgood Hbad.
    assert (Hconv : _convert_mat_time_and_store load_time_offset (mat_date m) w
                    = (Raise e, w)).
    { rewrite convert_cases, Hdate, map_app. cbn [map].
      rewrite (all_stamps_app_fail _ _ _ e); [reflexivity | | exact Hbad].
      rewrite forallb_map. exact Hgood. }
    split; [|exact Hconv].
    rewrite (load_wave_data_steps loadmat m w Hm).
    unfold bind at 1. rewrite Hconv. reflexivity.
Qed.

(** A container whose second time code is not a number. *)
Lemma load_fails_without_storing_witness :
  load_wave_data
    (file_of (mk_mat_arrays [736330; nan]%float eta_gauge_major
                [10; 20]%float [0; 0]%float [7; 8]%float [0.5; 0.25]%float))
    fresh
  = (Raise (mk_exn ValueError "cannot convert float NaN to integer"), fresh).
Proof.
  apply (proj2 (load_fails_without_storing
                  (file_of (mk_mat_arrays [736330; nan]%float eta_gauge_major
                              [10; 20]%float [0; 0]%float [7; 8]%float
                              [0.5; 0.25]%float))
                  fresh
                  (mk_exn ValueError "cannot convert float NaN to integer"))
           (mk_mat_arrays [736330; nan]%float eta_gauge_major
              [10; 20]%float [0; 0]%float [7; 8]%float [0.5; 0.25]%float)
           [736330%float] nan []);
    reflexivity.
Defined.

(* ================================================================== *)
(** * What a successful load leaves *)

Lemma gauges_from_share_time (time : option (list PyDatetime.datetime)) :
  forall locs k rows,
    Forall (fun obj => exists g, obj = PyWaveGauge g /\ WaveGauge.datetime g = time)
      (gauges_from k locs rows time).
Proof.
  induction locs as [|loc locs IH]; intros k [|row rows]; cbn [gauges_from];
    try constructor.
  - eexists. split; reflexivity.
  - apply IH.
Qed.

(** After a successful [load_wave_data] the [Run], its wave maker and every
    gauge built by the call hold one and the same time axis, with one instant
    per time code; [num_times] is the number of codes, the start date is the
    day of the first instant, the wave maker holds the two wave-maker arrays
    of the file, and one line has been printed. *)
Theorem load_shares_time_axis :
  forall (loadmat : string -> outcome mat_arrays) (m : mat_arrays) (w : world),
    loadmat (wave_file_path (self w)) = Return m ->
    mat_date m <> [] ->
    forallb (fun v => representable (v + load_time_offset)%float) (mat_date m) = true ->
    Nat.min (length (mat_x m)) (length (mat_y m)) <= length (mat_eta m) ->
    exists time_axis first built_gauges,
      fst (load_wave_data loadmat w) = Return tt /\
      datetime (self (snd (load_wave_data loadmat w))) = Some time_axis /\
      length time_axis = length (mat_date m) /\
      num_times (self (snd (load_wave_data loadmat w))) = Some (length (mat_date m)) /\
      nth_error time_axis 0 = Some first /\
      start_date (self (snd (load_wave_data loadmat w)))
      = Some (PyDatetime.date_of first) /\
      wave_maker (self (snd (load_wave_data loadmat w)))
      = Some (WaveMaker.new (mat_eta_wm m) (mat_x_wm m) (Some time_axis)) /\
      wave_gauges (self (snd (load_wave_data loadmat w)))
      = wave_gauges (self w) ++ built_gauges /\
      Forall (fun obj => exists g, obj = PyWaveGauge g /\
                                   WaveGauge.datetime g = Some time_axis)
        built_gauges /\
      exists line, stdout (snd (load_wave_data loadmat w)) = stdout w ++ [line].
Proof.
  intros loadmat m w Hm Hne Hrep Hlen.
  destruct (representable_stamps _ _ Hrep) as [time_axis Hall].
  destruct (Forall2_first _ _ _ Hall Hne) as [first Hfirst].
  exists time_axis, first,
    (gauges_from 0 (combine (mat_x m) (mat_y m)) (mat_eta m) (Some time_axis)).
  rewrite (load_wave_data_ok loadmat m time_axis first w Hm Hall Hfirst Hlen).
  pose proof (Forall2_same_length _ _ _ Hall) as Hsame.
  cbn [fst snd].
  split; [reflexivity|]. split; [reflexivity|]. split; [now symmetry|].
  split; [cbn; now rewrite Hsame|].
  split; [exact Hfirst|]. split; [reflexivity|]. split; [reflexivity|].
  split; [reflexivity|]. split; [apply gauges_from_share_time|].
  eexists. reflexivity.
Qed.

Lemma load_shares_time_axis_witness :
  exists time_axis,
    datetime (self loaded) = Some time_axis /\
    wave_maker (self loaded)
    = Some (WaveMaker.new [7; 8; 9]%float [0.5; 0.25; 0.125]%float (Some time_axis)).
Proof.
  destruct (load_shares_time_axis (file_of container_gauge_major)
              container_gauge_major fresh)
    as [time_axis [first [gs [_ [Haxis [_ [_ [_ [_ [Hwm _]]]]]]]]]];
    [reflexivity | discriminate | reflexivity | simpl; lia |].
  exists time_axis. split; [exact Haxis | exact Hwm].
Defined.

(** Loading is not idempotent. A second [load_wave_data] of the same file
    succeeds and stores the same time axis, start date, number of times and
    wave maker again, but it appends the gauges of the file a second time:
    the gauge list ends with two copies of them (identifiers 1..n twice) and
    the stored count grows by n once more. *)
Theorem load_twice_doubles_gauges :
  forall (loadmat : string -> outcome mat_arrays) (m : mat_arrays) (w : world),
    loadmat (wave_file_path (self w)) = Return m ->
    mat_date m <> [] ->
    forallb (fun v => representable (v + load_time_offset)%float) (mat_date m) = true ->
    Nat.min (length (mat_x m)) (length (mat_y m)) <= length (mat_eta m) ->
    exists built_gauges,
      length built_gauges = Nat.min (length (mat_x m)) (length (mat_y m)) /\
      wave_gauges (self (snd (load_wave_data loadmat w)))
      = wave_gauges (self w) ++ built_gauges /\
      fst ((load_wave_data loadmat ;; load_wave_data loadmat) w) = Return tt /\
      wave_gauges (self (snd ((load_wave_data loadmat ;; load_wave_data loadmat) w)))
      = wave_gauges (self w) ++ built_gauges ++ built_gauges /\
      num_wave_gauges
        (self (snd ((load_wave_data loadmat ;; load_wave_data loadmat) w)))
      = Some (length (wave_gauges (self w)) + 2 * length built_gauges) /\
      datetime (self (snd ((load_wave_data loadmat ;; load_wave_data loadmat) w)))
      = datetime (self (snd (load_wave_data loadmat w))) /\
      start_date (self (snd ((load_wave_data loadmat ;; load_wave_data loadmat) w)))
      = start_date (self (snd (load_wave_data loadmat w))) /\
      num_times (self (snd ((load_wave_data loadmat ;; load_wave_data loadmat) w)))
      = num_times (self (snd (load_wave_data loadmat w))) /\
      wave_maker (self (snd ((load_wave_data loadmat ;; load_wave_data loadmat) w)))
      = wave_maker (self (snd (load_wave_data loadmat w))).
Proof.
  intros loadmat m w Hm Hne Hrep Hlen.
  destruct (representable_stamps _ _ Hrep) as [time_axis Hall].
  destruct (Forall2_first _ _ _ Hall Hne) as [first Hfirst].
  set (gs := gauges_from 0 (combine (mat_x m) (mat_y m)) (mat_eta m) (Some time_axis)).
  assert (Hn : length gs = Nat.min (length (mat_x m)) (length (mat_y m))).
  { unfold gs. rewrite gauges_from_length, length_combine. lia. }
  pose proof (load_wave_data_ok loadmat m time_axis first w Hm Hall Hfirst Hlen)
    as Hone.
  fold gs in Hone.
  set (w1 := gauges_added gs
               (wave_maker_stored (mat_eta_wm m) (mat_x_wm m)
                  (time_stored time_axis first w))) in Hone.
  pose proof (load_wave_data_ok loadmat m time_axis first w1 Hm Hall Hfirst Hlen)
    as Htwo.
  fold gs in Htwo.
  assert (Hrun : (load_wave_data loadmat ;; load_wave_data loadmat) w
                 = load_wave_data loadmat w1).
  { unfold bind at 1. rewrite Hone. reflexivity. }
  exists gs. rewrite Hrun, Htwo, Hone. cbn [fst snd].
  split; [exact Hn|]. split; [reflexivity|]. split; [reflexivity|].
  split; [cbn; now rewrite <- app_assoc|].
  split; [cbn; rewrite !length_app; f_equal; lia|].
  repeat split.
Qed.

Lemma load_twice_doubles_gauges_witness :
  num_wave_gauges
    (self (snd ((load_wave_data (file_of container_gauge_major) ;;
                 load_wave_data (file_of container_gauge_major)) fresh)))
  = Some 4.
Proof.
  destruct (load_twice_doubles_gauges (file_of container_gauge_major)
              container_gauge_major fresh)
    as [gs [Hn [_ [_ [_ [Hcount _]]]]]];
    [reflexivity | discriminate | reflexivity | simpl; lia |].
  rewrite Hcount, Hn. reflexivity.
Defined.

(* ================================================================== *)
(** * The gauge surface matrix: broadcasting and failures *)

Lemma for_each_app {S A} (body : S -> A -> outcome S) :
  forall (xs ys : list A) (acc : S),
    for_each (xs ++ ys) body acc
    = (acc' <-- for_each xs body acc ;; for_each ys body acc').
Proof.
  induction xs as [|x xs IH]; intros ys acc; cbn [app for_each obind].
  - reflexivity.
  - destruct (body acc x) as [acc1|e]; [apply IH | reflexivity].
Qed.

Lemma enumerate_from_app {A} :
  forall (xs ys : list A) (k : nat),
    enumerate_from k (xs ++ ys)
    = enumerate_from k xs ++ enumerate_from (k + length xs) ys.
Proof.
  induction xs as [|x xs IH]; intros ys k; cbn [app enumerate_from length].
  - now rewrite Nat.add_0_r.
  - rewrite IH. now replace (S k + length xs) with (k + S (length xs)) by lia.
Qed.

Lemma broadcast_to_fits {A} (err : exn) (d : A) (src : list A) (T : nat) :
  (length src =? T) || (length src =? 1) = true ->
  Numpy.broadcast_to err src T
  = Return (if length src =? T then src else repeat (hd d src) T).
Proof.
  intros H. unfold Numpy.broadcast_to.
  destruct (length src =? T); [reflexivity|].
  cbn [orb] in H. apply Nat.eqb_eq in H.
  destruct src as [|v [|v' rest]]; try discriminate. reflexivity.
Qed.

Lemma broadcast_to_misfit {A} (err : exn) (src : list A) (T : nat) :
  (length src =? T) || (length src =? 1) = false ->
  Numpy.broadcast_to err src T = Raise err.
Proof.
  intros H. unfold Numpy.broadcast_to.
  apply orb_false_elim in H. destruct H as [HT H1]. rewrite HT.
  destruct src as [|v [|v' rest]]; try reflexivity. discriminate.
Qed.

Lemma broadcast_series_length (T : nat) (series : list float) :
  fits T series = true -> length (broadcast_series T series) = T.
Proof.
  unfold fits, broadcast_series. intros H.
  destruct (length series =? T) eqn:HT.
  - now apply Nat.eqb_eq.
  - apply repeat_length.
Qed.

(** [a[:, j] = src] for a fitting series. *)
Lemma set_column_fits (a : Numpy.ndarray2) (T G j : nat) (src : list float) :
  Numpy.has_shape a T G ->
  j < G ->
  fits T src = true ->
  exists a',
    Numpy.set_column a j src = Return a' /\
    Numpy.has_shape a' T G /\
    Numpy.column j a' = broadcast_series T src /\
    (forall j', j' <> j -> Numpy.column j' a' = Numpy.column j' a).
Proof.
  intros Hshape Hj Hfits.
  destruct (set_column_ok a T G j (broadcast_series T src) Hshape Hj
              (broadcast_series_length T src Hfits))
    as [a' [Hset Hrest]].
  exists a'. split; [|exact Hrest].
  rewrite <- Hset. unfold Numpy.set_column.
  destruct Hshape as [Hrows _]. rewrite Hrows.
  destruct (j <? Numpy.ncols a); [|reflexivity].
  rewrite (broadcast_to_fits _ 0%float src T Hfits).
  rewrite broadcast_to_same by (apply broadcast_series_length; exact Hfits).
  reflexivity.
Qed.

Lemma surface_loop_fits (T G : nat) :
  forall (gauges : list WaveGauge.t) (k : nat) (a : Numpy.ndarray2),
    Numpy.has_shape a T G ->
    k + length gauges <= G ->
    forallb (fun g => fits T (WaveGauge.eta g)) gauges = true ->
    exists a',
      for_each (enumerate_from k (map PyWaveGauge gauges))
        (fun surface_elevations i_wave_gauge =>
           eta <-- wave_gauge_attr "eta" WaveGauge.eta (snd i_wave_gauge) ;;
           Numpy.set_column surface_elevations (fst i_wave_gauge) eta)
        a
      = Return a' /\
      Numpy.has_shape a' T G /\
      (forall j, j < k -> Numpy.column j a' = Numpy.column j a) /\
      (forall i g, nth_error gauges i = Some g ->
                   Numpy.column (k + i) a' = broadcast_series T (WaveGauge.eta g)).
Proof.
  induction gauges as [|g gauges IH]; intros k a Hshape Hk Hall.
  - exists a. split; [reflexivity|]. split; [exact Hshape|].
    split; [reflexivity|]. intros [|i] g' H; discriminate.
  - cbn [forallb] in Hall. apply andb_prop in Hall. destruct Hall as [Hg Hrest].
    cbn [length] in Hk.
    destruct (set_column_fits a T G k (WaveGauge.eta g) Hshape) as
      [a1 [Hset [Hshape1 [Hcol Hother]]]]; [lia | exact Hg |].
    destruct (IH (S k) a1 Hshape1) as [a' [Hloop [Hshape' [Hbefore Hnth]]]];
      [lia | exact Hrest |].
    exists a'.
    cbn [map enumerate_from for_each fst snd wave_gauge_attr obind].
    rewrite Hset. split; [exact Hloop|]. split; [exact Hshape'|]. split.
    + intros j Hj. rewrite Hbefore by lia. apply Hother. lia.
    + intros [|i] g' Hg'; cbn [nth_error] in Hg'.
      * inversion Hg'; subst g'. rewrite Nat.add_0_r.
        rewrite Hbefore by lia. exact Hcol.
      * replace (k + S i) with (S k + i) by lia. apply Hnth. exact Hg'.
Qed.

(** [construct_wave_gauge_wse] up to the loop. *)
Lemma construct_wave_gauge_wse_steps (w : world) (T G : nat) :
  num_times (self w) = Some T ->
  num_wave_gauges (self w) = Some G ->
  construct_wave_gauge_wse w
  = match for_each (enumerate_from 0 (wave_gauges (self w)))
            (fun surface_elevations i_wave_gauge =>
               eta <-- wave_gauge_attr "eta" WaveGauge.eta (snd i_wave_gauge) ;;
               Numpy.set_column surface_elevations (fst i_wave_gauge) eta)
            (Numpy.zeros T G)
    with
    | Return surface => (Return tt, surface_stored surface w)
    | Raise e => (Raise e, w)
    end.
Proof.
  intros HT HG.
  unfold construct_wave_gauge_wse. unfold bind at 1, get.
  rewrite bind_lift, HT, HG. cbn [np_zeros].
  try rewrite bind_lift. unfold enumerate.
  match goal with
  | |- match ?c with Return _ => _ | Raise _ => _ end = _ => destruct c
  end; reflexivity.
Qed.

(** The gauge surface matrix is built from gauges whose series have [T]
    values or a single value. A series of [T] values becomes its column as it
    is; a series with one value is accepted silently and its column holds that
    value in all [T] rows. *)
Theorem construct_wave_gauge_wse_broadcasts :
  forall (w : world) (T : nat) (gauges : list WaveGauge.t),
    num_times (self w) = Some T ->
    wave_gauges (self w) = map PyWaveGauge gauges ->
    num_wave_gauges (self w) = Some (length gauges) ->
    forallb (fun g => fits T (WaveGauge.eta g)) gauges = true ->
    exists surface,
      construct_wave_gauge_wse w = (Return tt, surface_stored surface w) /\
      Numpy.has_shape surface T (length gauges) /\
      (forall i g, nth_error gauges i = Some g ->
         (length (WaveGauge.eta g) = T ->
          Numpy.column i surface = WaveGauge.eta g) /\
         (forall v, WaveGauge.eta g = [v] ->
          Numpy.column i surface = repeat v T)).
Proof.
  intros w T gauges HT Hgauges HG Hfits.
  destruct (surface_loop_fits T (length gauges) gauges 0
              (Numpy.zeros T (length gauges))
              (zeros_shape T (length gauges)) (Nat.le_refl _) Hfits)
    as [surface [Hloop [Hshape [_ Hcols]]]].
  exists surface.
  rewrite (construct_wave_gauge_wse_steps w T (length gauges) HT HG).
  rewrite Hgauges, Hloop.
  split; [reflexivity|]. split; [exact Hshape|].
  intros i g Hg. specialize (Hcols i g Hg). cbn [Nat.add] in Hcols.
  rewrite Hcols. unfold broadcast_series. split.
  - intros Hlen. now rewrite Hlen, Nat.eqb_refl.
  - intros v Hv. rewrite Hv. cbn [length hd].
    destruct (1 =? T) eqn:H1; [|reflexivity].
    apply Nat.eqb_eq in H1. subst T. reflexivity.
Qed.

(** Three times, a gauge with three values and a gauge with one. *)
Lemma construct_wave_gauge_wse_broadcasts_witness :
  exists surface,
    construct_wave_gauge_wse
      (gauges_added
         [PyWaveGauge (WaveGauge.new 1 (10%float, 0%float) [1; 3; 5]%float None);
          PyWaveGauge (WaveGauge.new 2 (20%float, 0%float) [4]%float None)]
         (time_stored stamps (PyDatetime.datetime_ymd 2016 1 1) fresh))
    = (Return tt,
       surface_stored surface
         (gauges_added
            [PyWaveGauge (WaveGauge.new 1 (10%float, 0%float) [1; 3; 5]%float None);
             PyWaveGauge (WaveGauge.new 2 (20%float, 0%float) [4]%float None)]
            (time_stored stamps (PyDatetime.datetime_ymd 2016 1 1) fresh))) /\
    Numpy.column 1 surface = repeat 4%float 3.
Proof.
  destruct (construct_wave_gauge_wse_broadcasts
              (gauges_added
                 [PyWaveGauge (WaveGauge.new 1 (10%float, 0%float) [1; 3; 5]%float None);
                  PyWaveGauge (WaveGauge.new 2 (20%float, 0%float) [4]%float None)]
                 (time_stored stamps (PyDatetime.datetime_ymd 2016 1 1) fresh))
              3
              [WaveGauge.new 1 (10%float, 0%float) [1; 3; 5]%float None;
               WaveGauge.new 2 (20%float, 0%float) [4]%float None])
    as [surface [Hrun [_ Hcols]]]; try reflexivity.
  exists surface. split; [exact Hrun|].
  apply (proj2 (Hcols 1 (WaveGauge.new 2 (20%float, 0%float) [4]%float None)
                  eq_refl)).
  reflexivity.
Defined.

(** [get_wave_gauge_locations] up to the loop. *)
Lemma get_wave_gauge_locations_steps (w : world) (G : nat) :
  num_wave_gauges (self w) = Some G ->
  get_wave_gauge_locations w
  = match for_each (enumerate_from 0 (wave_gauges (self w)))
            (fun location i_wave_gauge =>
               xy <-- wave_gauge_attr "location" WaveGauge.location
                        (snd i_wave_gauge) ;;
               location <-- Numpy.set_item location (fst i_wave_gauge) 0 (fst xy) ;;
               xy <-- wave_gauge_attr "location" WaveGauge.location
                        (snd i_wave_gauge) ;;
               Numpy.set_item location (fst i_wave_gauge) 1 (snd xy))
            (Numpy.zeros G 2)
    with
    | Return location =>
        (Return tt,
         table_stored (mk_DataFrame location ["x_loc"; "y_loc"]%string) w)
    | Raise e => (Raise e, w)
    end.
Proof.
  intros HG.
  unfold get_wave_gauge_locations. unfold bind at 1, get.
  rewrite bind_lift, HG. cbn [np_zeros].
  try rewrite bind_lift. unfold enumerate.
  match goal with
  | |- match ?c with Return _ => _ | Raise _ => _ end = _ => destruct c
  end; reflexivity.
Qed.

(** A gauge list with an element that cannot be used. [add_wave_gauge]
    accepts any list, so the gauge list can hold an object that is no
    [WaveGauge], or a gauge whose series does not fit the time axis. Both
    builds then fail at the first such element, once the elements before it
    have been processed, and store nothing: an object that is no [WaveGauge]
    stops [construct_wave_gauge_wse] and [get_wave_gauge_locations] with
    [AttributeError] (no attribute [eta], no attribute [location]); a gauge
    whose series has neither [T] values nor one stops
    [construct_wave_gauge_wse] with numpy's [ValueError], which names the two
    shapes. *)
Theorem builds_fail_at_bad_gauge :
  forall (w : world) (T G : nat) (good : list WaveGauge.t) (bad : pyobj)
         (rest : list pyobj),
    num_times (self w) = Some T ->
    num_wave_gauges (self w) = Some G ->
    wave_gauges (self w) = map PyWaveGauge good ++ bad :: rest ->
    length good < G ->
    forallb (fun g => fits T (WaveGauge.eta g)) good = true ->
    (is_WaveGauge bad = false ->
     construct_wave_gauge_wse w
     = (Raise (mk_exn AttributeError
                 ("'" ++ class_name bad ++ "' object has no attribute 'eta'")%string),
        w)
     /\
     get_wave_gauge_locations w
     = (Raise (mk_exn AttributeError
                 ("'" ++ class_name bad
                      ++ "' object has no attribute 'location'")%string),
        w))
    /\
    (forall g : WaveGauge.t,
       bad = PyWaveGauge g ->
       fits T (WaveGauge.eta g) = false ->
       construct_wave_gauge_wse w
       = (Raise (Numpy.broadcast_error
                   (Numpy.shape1 (length (WaveGauge.eta g))) (Numpy.shape1 T)),
          w)).
Proof.
  intros w T G good bad rest HT HG Hgauges Hlen Hfits.
  destruct (surface_loop_fits T G good 0 (Numpy.zeros T G) (zeros_shape T G))
    as [a [Hloop [[Hrows [Hcols _]] _]]]; [cbn; lia | exact Hfits |].
  assert (Hsurface :
            construct_wave_gauge_wse w
            = match
                (eta <-- wave_gauge_attr "eta" WaveGauge.eta bad ;;
                 Numpy.set_column a (length good) eta)
              with
              | Return a1 =>
                  match
                    for_each (enumerate_from (S (length good)) rest)
                      (fun surface_elevations i_wave_gauge =>
                         eta <-- wave_gauge_attr "eta" WaveGauge.eta
                                   (snd i_wave_gauge) ;;
                         Numpy.set_column surface_elevations (fst i_wave_gauge) eta)
                      a1
                  with
                  | Return surface => (Return tt, surface_stored surface w)
                  | Raise e => (Raise e, w)
                  end
              | Raise e => (Raise e, w)
              end).
  { rewrite (construct_wave_gauge_wse_steps w T G HT HG), Hgauges.
    rewrite enumerate_from_app, for_each_app, Hloop. cbn [obind].
    rewrite length_map. cbn [Nat.add enumerate_from for_each fst snd].
    destruct (eta <-- wave_gauge_attr "eta" WaveGauge.eta bad ;;
              Numpy.set_column a (length good) eta); reflexivity. }
  split.
  - intros Hbad. split.
    + rewrite Hsurface. destruct bad; try discriminate; reflexivity.
    + rewrite (get_wave_gauge_locations_steps w G HG), Hgauges.
      rewrite enumerate_from_app, for_each_app.
      pose proof (location_loop good [] (S (G - S (length good)))) as Hloc.
      cbv zeta in Hloc. cbn [length app] in Hloc.
      replace (length good + S (G - S (length good))) with G in Hloc by lia.
      unfold Numpy.zeros. cbn [repeat]. rewrite Hloc. cbn [obind].
      rewrite length_map. cbn [Nat.add enumerate_from for_each fst snd].
      destruct bad; try discriminate; reflexivity.
  - intros g Hg Hmisfit. subst bad. rewrite Hsurface.
    cbn [wave_gauge_attr obind]. unfold Numpy.set_column.
    rewrite Hcols. apply Nat.ltb_lt in Hlen. rewrite Hlen.
    rewrite Hrows, broadcast_to_misfit by exact Hmisfit.
    reflexivity.
Qed.

(** An [int] slipped into the gauge list of the loaded example. *)
Lemma builds_fail_at_bad_gauge_witness :
  construct_wave_gauge_wse
    (snd (add_wave_gauge (PyList [PyInt 7]) loaded))
  = (Raise (mk_exn AttributeError "'int' object has no attribute 'eta'"),
     snd (add_wave_gauge (PyList [PyInt 7]) loaded)).
Proof.
  apply (proj1 (builds_fail_at_bad_gauge
                  (snd (add_wave_gauge (PyList [PyInt 7]) loaded)) 3 3
                  [WaveGauge.new 1 (10%float, 0%float) [1; 3; 5]%float (Some stamps);
                   WaveGauge.new 2 (20%float, 0%float) [2; 4; 6]%float (Some stamps)]
                  (PyInt 7) []
                  eq_refl eq_refl eq_refl (Nat.lt_succ_diag_r 2) eq_refl)
           eq_refl).
Defined.

(** The location table gives back the locations of the gauges: built on a
    [Run] whose list holds gauges and whose stored count is the length of the
    list (no time axis is needed), it has one row per gauge and two columns;
    its column [x_loc] is the list of the gauges' x positions and its column
    [y_loc] the list of their y positions, in the order of the gauge list. *)
Theorem get_wave_gauge_locations_columns :
  forall (w : world) (gauges : list WaveGauge.t),
    wave_gauges (self w) = map PyWaveGauge gauges ->
    num_wave_gauges (self w) = Some (length gauges) ->
    exists table,
      get_wave_gauge_locations w = (Return tt, table_stored table w) /\
      Numpy.has_shape (df_values table) (length gauges) 2 /\
      df_getitem table "x_loc"
      = Return (map (fun g => fst (WaveGauge.location g)) gauges) /\
      df_getitem table "y_loc"
      = Return (map (fun g => snd (WaveGauge.location g)) gauges).
Proof.
  intros w gauges Hgauges HG.
  eexists. split; [exact (locations_built w gauges Hgauges HG)|].
  unfold Numpy.has_shape, Numpy.nrows, df_getitem, Numpy.column.
  cbn [df_values df_columns Numpy.rows Numpy.ncols index_of String.eqb Ascii.eqb
         Bool.eqb option_map].
  rewrite length_map. repeat split.
  - apply Forall_forall. intros r Hr. apply in_map_iff in Hr.
    destruct Hr as [g [Hr _]]. subst r. reflexivity.
  - now rewrite map_map.
  - now rewrite map_map.
Qed.

Lemma get_wave_gauge_locations_columns_witness :
  exists table,
    get_wave_gauge_locations loaded = (Return tt, table_stored table loaded) /\
    df_getitem table "x_loc" = Return [10; 20]%float.
Proof.
  destruct (get_wave_gauge_locations_columns loaded
              [WaveGauge.new 1 (10%float, 0%float) [1; 3; 5]%float (Some stamps);
               WaveGauge.new 2 (20%float, 0%float) [2; 4; 6]%float (Some stamps)]
              eq_refl eq_refl)
    as [table [Hrun [_ [Hx _]]]].
  exists table. split; [exact Hrun | exact Hx].
Defined.

(* ================================================================== *)
(** * Tables that are out of date *)

(** The derived tables are not kept up to date. When the location table was
    built for [G] gauges and the stored gauge count has since become [G']
    (gauges were added), [construct_flume_wse] does not rebuild it: unless
    [G] is 1, in which case numpy repeats the single location, it raises
    numpy's [ValueError] for the shapes [(G,)] and [(T, G')] and stores
    nothing. *)
Theorem construct_flume_wse_stale_table :
  forall (w : world) (T G G' : nat) (wm : WaveMaker.t) (table : DataFrame),
    num_times (self w) = Some T ->
    num_wave_gauges (self w) = Some G' ->
    wave_maker (self w) = Some wm ->
    fits T (WaveMaker.position wm) = true ->
    wg_locations (self w) = Some table ->
    df_columns table = ["x_loc"; "y_loc"]%string ->
    Numpy.has_shape (df_values table) G 2 ->
    G <> G' ->
    G <> 1 ->
    construct_flume_wse w
    = (Raise (Numpy.broadcast_error (Numpy.shape1 G) (Numpy.shape2 T G')), w).
Proof.
  intros w T G G' wm table HT HG Hwm Hfits Htab Hcols [Hrows _] Hne H1.
  rewrite construct_flume_wse_pure. unfold flume_matrices.
  rewrite HT, HG, Hwm, Htab.
  cbn [plus_one np_zeros wave_maker_attr getattr obind].
  destruct (set_column_fits (Numpy.zeros T (G' + 1)) T (G' + 1) 0
              (WaveMaker.position wm) (zeros_shape T (G' + 1)))
    as [a [Hset [[Harows [Hacols _]] _]]]; [lia | exact Hfits |].
  rewrite Hset. cbn [obind].
  unfold df_getitem. rewrite Hcols.
  cbn [index_of String.eqb Ascii.eqb Bool.eqb obind].
  unfold Numpy.set_columns_from_1.
  assert (Hlen : length (Numpy.column 0 (df_values table)) = G).
  { unfold Numpy.column. rewrite length_map. exact Hrows. }
  rewrite Hlen, Harows, Hacols.
  replace (G' + 1 - 1) with G' by lia.
  rewrite broadcast_to_misfit; [reflexivity|].
  rewrite Hlen. apply orb_false_intro; apply Nat.eqb_neq; assumption.
Qed.

(** The example run with its tables built for two gauges, and a third gauge
    added afterwards. *)
Lemma construct_flume_wse_stale_table_witness :
  construct_flume_wse
    (snd (add_wave_gauge
            (PyWaveGauge (WaveGauge.new 3 (30%float, 0%float) [0; 0; 0]%float None))
            built))
  = (Raise (mk_exn ValueError
              "could not broadcast input array from shape (2,) into shape (3,3)"),
     snd (add_wave_gauge
            (PyWaveGauge (WaveGauge.new 3 (30%float, 0%float) [0; 0; 0]%float None))
            built)).
Proof.
  apply (construct_flume_wse_stale_table
           (snd (add_wave_gauge
                   (PyWaveGauge
                      (WaveGauge.new 3 (30%float, 0%float) [0; 0; 0]%float None))
                   built))
           3 2 3
           (WaveMaker.new [7; 8; 9]%float [0.5; 0.25; 0.125]%float (Some stamps))
           (mk_DataFrame (Numpy.mk_ndarray2 2 [[10; 0]; [20; 0]]%float)
              ["x_loc"; "y_loc"]%string));
    try reflexivity; try lia.
  split; [reflexivity | split; [reflexivity | repeat constructor]].
Defined.

(* ================================================================== *)
(** * Plotting *)

Lemma dbind_dlift {A B} (c : outcome A) (k : A -> D B) (st : Pyplot.state) :
  dbind (dlift c) k st
  = match c with
    | Return a => k a st
    | Raise e => (Raise e, st)
    end.
Proof. unfold dbind, dlift. destruct c; reflexivity. Qed.

Lemma dbind_return {A B} (c : D A) (k : A -> D B) (st st' : Pyplot.state) (a : A) :
  c st = (Return a, st') -> dbind c k st = k a st'.
Proof. intros H. unfold dbind. now rewrite H. Qed.

Lemma dbind_raise {A B} (c : D A) (k : A -> D B) (st st' : Pyplot.state) (e : exn) :
  c st = (Raise e, st') -> dbind c k st = (Raise e, st').
Proof. intros H. unfold dbind. now rewrite H. Qed.

Lemma update_nth_app {A} (f : A -> A) :
  forall (before : list A) (x : A) (after : list A),
    update_nth (length before) f (before ++ x :: after) = before ++ f x :: after.
Proof.
  induction before as [|b before IH]; intros x after; cbn [length app update_nth].
  - reflexivity.
  - now rewrite IH.
Qed.

(** A call on an [Axes] of the newest figure. *)
Lemma on_axes_newest (st : Pyplot.state) (n : nat) (size : float * float)
    (done : list (list Pyplot.call)) (calls : list Pyplot.call)
    (after : list (list Pyplot.call)) (c : Pyplot.call) :
  length done < n ->
  on_axes (length st, n) (length done) c
    (st ++ [Pyplot.mk_figure size (done ++ calls :: after)])
  = (Return tt, st ++ [Pyplot.mk_figure size (done ++ (calls ++ [c]) :: after)]).
Proof.
  intros Hlt. unfold on_axes. cbn [fst snd].
  apply Nat.ltb_lt in Hlt. rewrite Hlt.
  rewrite (update_nth_app _ st). cbn [Pyplot.figsize Pyplot.axes].
  rewrite (update_nth_app _ done). reflexivity.
Qed.

Lemma ax_plot_newest (st : Pyplot.state) (n : nat) (size : float * float)
    (done : list (list Pyplot.call)) (calls : list Pyplot.call)
    (after : list (list Pyplot.call)) (x : Pyplot.xdata) (y : list float)
    (label : string) :
  length done < n ->
  Pyplot.xlen x = length y ->
  ax_plot (length st, n) (length done) (Some x) y label
    (st ++ [Pyplot.mk_figure size (done ++ calls :: after)])
  = (Return tt,
     st ++ [Pyplot.mk_figure size
              (done ++ (calls ++ [Pyplot.Plot x y label]) :: after)]).
Proof.
  intros Hlt Hlen. unfold ax_plot. rewrite Hlen, Nat.eqb_refl.
  apply on_axes_newest. exact Hlt.
Qed.

Lemma gauge_to_plot_selected (r : Run) (gauges : list WaveGauge.t) (id : Z)
    (g : WaveGauge.t) :
  wave_gauges r = map PyWaveGauge gauges ->
  selects gauges id g ->
  gauge_to_plot r id = Return (WaveGauge.eta g, WaveGauge.id g).
Proof.
  intros Hgauges [k [Hk Hg]].
  unfold gauge_to_plot, list_getitem, getitem.
  rewrite Hgauges, length_map, Hk.
  rewrite (map_nth_error PyWaveGauge k gauges Hg). reflexivity.
Qed.

(** The body of the loop of [quick_plot_wave_gauges] once the gauge is
    found, when it has as many elevations as there are instants. *)
Lemma plot_gauge_drawn (r : Run) (time : list PyDatetime.datetime)
    (legend ylabel xlabel : bool) (time_units : string) (st : Pyplot.state)
    (n : nat) (size : float * float) (done after : list (list Pyplot.call))
    (id : Z) (g : WaveGauge.t) :
  gauge_to_plot r id = Return (WaveGauge.eta g, WaveGauge.id g) ->
  datetime r = Some time ->
  length (WaveGauge.eta g) = length time ->
  length done < n ->
  plot_gauge r (length st, n) legend ylabel xlabel time_units (length done) id
    (st ++ [Pyplot.mk_figure size (done ++ [] :: after)])
  = (Return tt,
     st ++ [Pyplot.mk_figure size
              (done ++ gauge_panel time legend ylabel xlabel time_units g
                 :: after)]).
Proof.
  intros Hfound Htime Hlen Hn. unfold plot_gauge, gauge_panel.
  rewrite dbind_dlift, Hfound.
  rewrite Htime. cbn [fst snd option_map].
  erewrite dbind_return
    by (apply ax_plot_newest; [exact Hn | cbn [Pyplot.xlen]; congruence]).
  cbn [app].
  destruct ylabel, xlabel, legend;
    repeat (erewrite dbind_return
              by first [apply on_axes_newest; exact Hn | reflexivity]);
    first [rewrite on_axes_newest by exact Hn; reflexivity | reflexivity].
Qed.

(** The same, for an identifier that selects a gauge of the list. *)
Lemma plot_gauge_panel (r : Run) (gauges : list WaveGauge.t)
    (time : list PyDatetime.datetime) (legend ylabel xlabel : bool)
    (time_units : string) (st : Pyplot.state) (n : nat) (size : float * float)
    (done after : list (list Pyplot.call)) (id : Z) (g : WaveGauge.t) :
  wave_gauges r = map PyWaveGauge gauges ->
  datetime r = Some time ->
  selects gauges id g ->
  length (WaveGauge.eta g) = length time ->
  length done < n ->
  plot_gauge r (length st, n) legend ylabel xlabel time_units (length done) id
    (st ++ [Pyplot.mk_figure size (done ++ [] :: after)])
  = (Return tt,
     st ++ [Pyplot.mk_figure size
              (done ++ gauge_panel time legend ylabel xlabel time_units g
                 :: after)]).
Proof.
  intros Hgauges Htime Hsel Hlen Hn.
  apply plot_gauge_drawn; try assumption.
  exact (gauge_to_plot_selected r gauges id g Hgauges Hsel).
Qed.

Lemma draw_each_app {A} (body : A -> D unit) :
  forall (xs ys : list A) (st : Pyplot.state),
    draw_each (xs ++ ys) body st
    = (draw_each xs body ~;; draw_each ys body) st.
Proof.
  induction xs as [|x xs IH]; intros ys st; cbn [app draw_each].
  - reflexivity.
  - unfold dbind. destruct (body x st) as [[[]|e] st1].
    + rewrite IH. reflexivity.
    + reflexivity.
Qed.

(** The loop of [quick_plot_wave_gauges] on identifiers that select gauges
    with as many elevations as there are instants: the [Axes] below those
    already drawn are filled, top to bottom. *)
Lemma panels_loop (r : Run) (gauges : list WaveGauge.t)
    (time : list PyDatetime.datetime) (legend ylabel xlabel : bool)
    (time_units : string) (st : Pyplot.state) (n : nat) (size : float * float) :
  wave_gauges r = map PyWaveGauge gauges ->
  datetime r = Some time ->
  forall (ids : list Z) (chosen : list WaveGauge.t),
    Forall2 (fun id g => selects gauges id g /\
                         length (WaveGauge.eta g) = length time) ids chosen ->
    forall (done after : list (list Pyplot.call)),
      length done + length ids <= n ->
      draw_each (enumerate_from (length done) ids)
        (fun i_id =>
           plot_gauge r (length st, n) legend ylabel xlabel time_units
             (fst i_id) (snd i_id))
        (st ++ [Pyplot.mk_figure size (done ++ repeat [] (length ids) ++ after)])
      = (Return tt,
         st ++ [Pyplot.mk_figure size
                  (done
                   ++ map (gauge_panel time legend ylabel xlabel time_units) chosen
                   ++ after)]).
Proof.
  intros Hgauges Htime ids chosen Hall.
  induction Hall as [|id g ids chosen [Hsel Hlen] _ IH]; intros done after Hn.
  - reflexivity.
  - cbn [length] in Hn.
    cbn [enumerate_from draw_each length repeat app map fst snd].
    erewrite dbind_return
      by (cbn [fst snd];
          apply (plot_gauge_panel r gauges time legend ylabel xlabel time_units
                   st n size done (repeat [] (length ids) ++ after) id g);
          first [assumption | lia]).
    specialize (IH (done ++ [gauge_panel time legend ylabel xlabel time_units g])
                  after).
    rewrite length_app, Nat.add_1_r, <- !app_assoc in IH.
    cbn [length app] in IH. apply IH. lia.
Qed.

(** [quick_plot_wave_gauges] on identifiers that all select gauges with as
    many elevations as there are instants. *)
Lemma quick_plot_wave_gauges_selected (r : Run) (gauges : list WaveGauge.t)
    (time : list PyDatetime.datetime) (arg : index_arg)
    (chosen : list WaveGauge.t) (size : float * float)
    (legend ylabel xlabel : bool) (time_units : string) (st : Pyplot.state) :
  wave_gauges r = map PyWaveGauge gauges ->
  datetime r = Some time ->
  listed arg <> [] ->
  Forall2 (fun id g => selects gauges id g /\
                       length (WaveGauge.eta g) = length time)
    (listed arg) chosen ->
  quick_plot_wave_gauges r arg size legend ylabel xlabel time_units st
  = (Return tt,
     st ++ [Pyplot.mk_figure size
              (map (gauge_panel time legend ylabel xlabel time_units) chosen)]).
Proof.
  intros Hgauges Htime Hne Hall.
  assert (Hrun :
            quick_plot_wave_gauges r arg size legend ylabel xlabel time_units st
            = (axs <~ subplots (length (listed arg)) size ;;
               draw_each (enumerate (listed arg))
                 (fun i_id =>
                    plot_gauge r axs legend ylabel xlabel time_units
                      (fst i_id) (snd i_id))) st)
    by (destruct arg; reflexivity).
  rewrite Hrun. clear Hrun.
  destruct (listed arg) as [|id ids] eqn:Hids; [congruence|].
  unfold dbind, subplots. cbn [length]. unfold enumerate.
  pose proof (panels_loop r gauges time legend ylabel xlabel time_units st
                (S (length ids)) size Hgauges Htime (id :: ids) chosen Hall
                [] [] (le_n _)) as Hloop.
  cbn [length app] in Hloop. rewrite !app_nil_r in Hloop.
  cbn [repeat]. exact Hloop.
Qed.

Lemma py_index_forward (i : Z) (n : nat) :
  (0 <= i < Z.of_nat n)%Z -> py_index i n = Some (Z.to_nat i).
Proof.
  intros H. unfold py_index.
  destruct (Z.leb_spec 0 i); [|lia]. destruct (Z.ltb_spec i (Z.of_nat n)); [|lia].
  reflexivity.
Qed.

Lemma py_index_backward (i : Z) (n : nat) :
  (- Z.of_nat n <= i < 0)%Z -> py_index i n = Some (Z.to_nat (i + Z.of_nat n)).
Proof.
  intros H. unfold py_index.
  destruct (Z.leb_spec 0 i); [lia|]. cbn [andb].
  destruct (Z.leb_spec (- Z.of_nat n) i); [|lia].
  destruct (Z.ltb_spec i 0); [|lia]. reflexivity.
Qed.

Lemma py_index_outside (i : Z) (n : nat) :
  (i < - Z.of_nat n \/ Z.of_nat n <= i)%Z -> py_index i n = None.
Proof.
  intros H. unfold py_index.
  destruct (Z.leb_spec 0 i); destruct (Z.ltb_spec i (Z.of_nat n));
    destruct (Z.leb_spec (- Z.of_nat n) i); destruct (Z.ltb_spec i 0);
    cbn [andb]; try reflexivity; lia.
Qed.

Lemma py_index_in_range (i : Z) (n k : nat) :
  py_index i n = Some k -> k < n.
Proof.
  unfold py_index.
  destruct (Z.leb_spec 0 i); destruct (Z.ltb_spec i (Z.of_nat n));
    destruct (Z.leb_spec (- Z.of_nat n) i); destruct (Z.ltb_spec i 0);
    cbn [andb]; intros Hk; inversion Hk; subst; lia.
Qed.

(** [quick_plot_wave_gauges] with identifiers between 1 and the number of
    gauges, on a run whose gauges have one elevation per instant: it returns,
    and it leaves one new figure behind the existing ones, with one [Axes]
    per identifier, in the order of the identifiers. The [Axes] of
    identifier [id] holds the curve of the gauge at position [id - 1] of the
    list against the time axis, labelled with the identifier that the gauge
    carries, then the y label if asked, the x label or else empty tick
    labels, and the legend if asked. *)
Theorem quick_plot_wave_gauges_panels :
  forall (r : Run) (gauges : list WaveGauge.t) (time : list PyDatetime.datetime)
         (arg : index_arg) (chosen : list WaveGauge.t) (size : float * float)
         (legend ylabel xlabel : bool) (time_units : string)
         (st : Pyplot.state),
    wave_gauges r = map PyWaveGauge gauges ->
    datetime r = Some time ->
    listed arg <> [] ->
    Forall2 (fun id g =>
               (1 <= id <= Z.of_nat (length gauges))%Z /\
               nth_error gauges (Z.to_nat (id - 1)) = Some g /\
               length (WaveGauge.eta g) = length time)
      (listed arg) chosen ->
    quick_plot_wave_gauges r arg size legend ylabel xlabel time_units st
    = (Return tt,
       st ++ [Pyplot.mk_figure size
                (map (gauge_panel time legend ylabel xlabel time_units) chosen)]).
Proof.
  intros r gauges time arg chosen size legend ylabel xlabel time_units st
    Hgauges Htime Hne Hall.
  apply (quick_plot_wave_gauges_selected r gauges time arg chosen size legend
           ylabel xlabel time_units st Hgauges Htime Hne).
  eapply Forall2_impl; [|exact Hall].
  intros id g [Hid [Hg Hlen]]. split; [|exact Hlen].
  exists (Z.to_nat (id - 1)). split; [|exact Hg].
  apply py_index_forward. lia.
Qed.

Lemma quick_plot_wave_gauges_panels_witness :
  quick_plot_wave_gauges (self loaded) (Many [2; 1]%Z) (8, 6)%float
    true true false "min" []
  = (Return tt,
     [Pyplot.mk_figure (8, 6)%float
        [[Pyplot.Plot (Pyplot.Times stamps) [2; 4; 6]%float "2";
          Pyplot.SetYLabel "Water Surf. Elev. (m)";
          Pyplot.SetXTickLabels [];
          Pyplot.Legend];
         [Pyplot.Plot (Pyplot.Times stamps) [1; 3; 5]%float "1";
          Pyplot.SetYLabel "Water Surf. Elev. (m)";
          Pyplot.SetXTickLabels [];
          Pyplot.Legend]]]).
Proof.
  apply (quick_plot_wave_gauges_panels (self loaded) [gauge_1; gauge_2] stamps
           (Many [2; 1]%Z) [gauge_2; gauge_1] (8, 6)%float true true false "min" []).
  - reflexivity.
  - reflexivity.
  - discriminate.
  - repeat constructor; cbn; lia.
Defined.

(** An identifier that is zero or negative is not refused by
    [quick_plot_wave_gauges]: [self.wave_gauges[id - 1]] then counts from the
    end of the list, so that, with [n] gauges, an identifier between
    [1 - n] and [0] draws the gauge at position [n + id - 1]; the identifier
    0 draws the last gauge. *)
Theorem quick_plot_wave_gauges_wraps :
  forall (r : Run) (gauges : list WaveGauge.t) (time : list PyDatetime.datetime)
         (id : Z) (g : WaveGauge.t) (size : float * float)
         (legend ylabel xlabel : bool) (time_units : string)
         (st : Pyplot.state),
    wave_gauges r = map PyWaveGauge gauges ->
    datetime r = Some time ->
    (1 - Z.of_nat (length gauges) <= id <= 0)%Z ->
    nth_error gauges (Z.to_nat (Z.of_nat (length gauges) + id - 1)) = Some g ->
    length (WaveGauge.eta g) = length time ->
    quick_plot_wave_gauges r (One id) size legend ylabel xlabel time_units st
    = (Return tt,
       st ++ [Pyplot.mk_figure size
                [gauge_panel time legend ylabel xlabel time_units g]]).
Proof.
  intros r gauges time id g size legend ylabel xlabel time_units st
    Hgauges Htime Hid Hg Hlen.
  apply (quick_plot_wave_gauges_selected r gauges time (One id) [g] size legend
           ylabel xlabel time_units st Hgauges Htime); [discriminate|].
  constructor; [|constructor]. split; [|exact Hlen].
  exists (Z.to_nat (Z.of_nat (length gauges) + id - 1)). split; [|exact Hg].
  rewrite py_index_backward by lia. f_equal. f_equal. lia.
Qed.

Lemma quick_plot_wave_gauges_wraps_witness :
  quick_plot_wave_gauges (self loaded) (One 0%Z) (8, 6)%float
    false true true "min" []
  = (Return tt,
     [Pyplot.mk_figure (8, 6)%float
        [[Pyplot.Plot (Pyplot.Times stamps) [2; 4; 6]%float "2";
          Pyplot.SetYLabel "Water Surf. Elev. (m)";
          Pyplot.SetXLabel "Time min"]]]).
Proof.
  apply (quick_plot_wave_gauges_wraps (self loaded) [gauge_1; gauge_2] stamps
           0%Z gauge_2 (8, 6)%float false true true "min" []).
  - reflexivity.
  - reflexivity.
  - cbn. lia.
  - reflexivity.
  - reflexivity.
Defined.

(** [quick_plot_wave_gauges] checks no identifier before it draws. When
    the identifiers start with some that select gauges and go on with one
    beyond the gauges, at either end, the method raises [IndexError] at that
    one, and the figure that it has created stays in pyplot: its first
    [Axes] hold the curves of the gauges before the failure and the others
    are empty. *)
Theorem quick_plot_wave_gauges_bad_id :
  forall (r : Run) (gauges : list WaveGauge.t) (time : list PyDatetime.datetime)
         (arg : index_arg) (good : list Z) (chosen : list WaveGauge.t)
         (bad : Z) (rest : list Z) (size : float * float)
         (legend ylabel xlabel : bool) (time_units : string)
         (st : Pyplot.state),
    wave_gauges r = map PyWaveGauge gauges ->
    datetime r = Some time ->
    listed arg = good ++ bad :: rest ->
    Forall2 (fun id g => selects gauges id g /\
                         length (WaveGauge.eta g) = length time) good chosen ->
    (bad <= - Z.of_nat (length gauges) \/ Z.of_nat (length gauges) < bad)%Z ->
    quick_plot_wave_gauges r arg size legend ylabel xlabel time_units st
    = (Raise (mk_exn IndexError "list index out of range"),
       st ++ [Pyplot.mk_figure size
                (map (gauge_panel time legend ylabel xlabel time_units) chosen
                 ++ repeat [] (S (length rest)))]).
Proof.
  intros r gauges time arg good chosen bad rest size legend ylabel xlabel
    time_units st Hgauges Htime Hids Hall Hbad.
  assert (Hrun :
            quick_plot_wave_gauges r arg size legend ylabel xlabel time_units st
            = (axs <~ subplots (length (listed arg)) size ;;
               draw_each (enumerate (listed arg))
                 (fun i_id =>
                    plot_gauge r axs legend ylabel xlabel time_units
                      (fst i_id) (snd i_id))) st)
    by (destruct arg; reflexivity).
  rewrite Hrun, Hids. clear Hrun.
  rewrite length_app. cbn [length]. rewrite Nat.add_succ_r.
  unfold dbind at 1, subplots.
  unfold enumerate. rewrite enumerate_from_app, draw_each_app.
  rewrite <- Nat.add_succ_r, repeat_app.
  pose proof (panels_loop r gauges time legend ylabel xlabel time_units st
                (length good + S (length rest)) size Hgauges Htime good chosen
                Hall [] (repeat [] (S (length rest)))) as Hloop.
  cbn [length app Nat.add] in Hloop.
  rewrite (dbind_return _ _ _ _ _ (Hloop (Nat.le_add_r _ _))).
  cbn [Nat.add enumerate_from draw_each].
  apply dbind_raise. cbn [fst snd]. unfold plot_gauge.
  rewrite dbind_dlift. unfold gauge_to_plot, list_getitem.
  rewrite Hgauges, length_map, py_index_outside by lia.
  reflexivity.
Qed.

Lemma quick_plot_wave_gauges_bad_id_witness :
  quick_plot_wave_gauges (self loaded) (Many [1; 3; 2]%Z) (8, 6)%float
    false true true "min" []
  = (Raise (mk_exn IndexError "list index out of range"),
     [Pyplot.mk_figure (8, 6)%float
        [[Pyplot.Plot (Pyplot.Times stamps) [1; 3; 5]%float "1";
          Pyplot.SetYLabel "Water Surf. Elev. (m)";
          Pyplot.SetXLabel "Time min"];
         []; []]]).
Proof.
  apply (quick_plot_wave_gauges_bad_id (self loaded) [gauge_1; gauge_2] stamps
           (Many [1; 3; 2]%Z) [1%Z] [gauge_1] 3%Z [2%Z] (8, 6)%float
           false true true "min" []).
  - reflexivity.
  - reflexivity.
  - reflexivity.
  - repeat constructor. exists 0. split; reflexivity.
  - cbn. lia.
Defined.

(** ** The flume surface plot *)

Lemma dbind_dret_unit (c : D unit) (st : Pyplot.state) :
  (c ~;; dret tt) st = c st.
Proof. unfold dbind, dret. destruct (c st) as [[[]|e] st']; reflexivity. Qed.

Lemma has_shape_row (a : Numpy.ndarray2) (n m k : nat) :
  Numpy.has_shape a n m -> k < n -> length (nth k (Numpy.rows a) []) = m.
Proof.
  intros [Hn [_ Hrows]] Hk. unfold Numpy.nrows in Hn.
  apply (proj1 (Forall_nth _ (Numpy.rows a)) Hrows). lia.
Qed.

(** One curve of [quick_flume_wse_plot], for an index within the [T] times
    of flume matrices of a same shape. *)
Lemma flume_curve_drawn (r : Run) (wse locs : Numpy.ndarray2)
    (time : list PyDatetime.datetime) (T W : nat) (index : Z) (k : nat)
    (st : Pyplot.state) (size : float * float) (calls : list Pyplot.call) :
  flume_wse r = Some wse ->
  flume_wse_locs r = Some locs ->
  datetime r = Some time ->
  length time = T ->
  Numpy.has_shape wse T W ->
  Numpy.has_shape locs T W ->
  py_index index T = Some k ->
  flume_curve r (length st, 1) index (st ++ [Pyplot.mk_figure size [calls]])
  = (Return tt,
     st ++ [Pyplot.mk_figure size [calls ++ [flume_curve_of wse locs time k]]]).
Proof.
  intros Hwse Hlocs Htime HT Hs1 Hs2 Hk.
  pose proof (py_index_in_range index T k Hk) as Hlt.
  unfold flume_curve, flume_curve_of.
  rewrite Hwse, Hlocs, Htime. cbn [getattr subscript_int].
  rewrite dbind_dlift. unfold np_row.
  rewrite (proj1 Hs1), Hk. rewrite dbind_dlift, dbind_dlift.
  rewrite (proj1 Hs2), Hk. rewrite dbind_dlift.
  unfold list_getitem, getitem. rewrite HT, Hk.
  rewrite (nth_error_nth' time (PyDatetime.mk_datetime 0)) by lia.
  cbv zeta.
  apply (ax_plot_newest st 1 size [] calls []); [cbn; lia|].
  cbn [Pyplot.xlen].
  rewrite (has_shape_row locs T W k Hs2 Hlt), (has_shape_row wse T W k Hs1 Hlt).
  reflexivity.
Qed.

Lemma curves_loop (r : Run) (wse locs : Numpy.ndarray2)
    (time : list PyDatetime.datetime) (T W : nat) (st : Pyplot.state)
    (size : float * float) :
  flume_wse r = Some wse ->
  flume_wse_locs r = Some locs ->
  datetime r = Some time ->
  length time = T ->
  Numpy.has_shape wse T W ->
  Numpy.has_shape locs T W ->
  forall (indices : list Z) (rows : list nat),
    Forall2 (fun index k => py_index index T = Some k) indices rows ->
    forall calls : list Pyplot.call,
      draw_each indices (fun index => flume_curve r (length st, 1) index)
        (st ++ [Pyplot.mk_figure size [calls]])
      = (Return tt,
         st ++ [Pyplot.mk_figure size
                  [calls ++ map (flume_curve_of wse locs time) rows]]).
Proof.
  intros Hwse Hlocs Htime HT Hs1 Hs2 indices rows Hall.
  induction Hall as [|index k indices rows Hk _ IH]; intros calls.
  - cbn [draw_each map]. now rewrite app_nil_r.
  - cbn [draw_each map].
    rewrite (dbind_return _ _ _ _ _
               (flume_curve_drawn r wse locs time T W index k st size calls
                  Hwse Hlocs Htime HT Hs1 Hs2 Hk)).
    rewrite IH, <- app_assoc. reflexivity.
Qed.

(** The three calls that end [quick_flume_wse_plot]. *)
Lemma flume_labels_set (st : Pyplot.state) (size : float * float)
    (calls : list Pyplot.call) (legend : bool) :
  (on_axes (length st, 1) 0 (Pyplot.SetXLabel "Cross-shore distance (m)") ~;;
   on_axes (length st, 1) 0 (Pyplot.SetYLabel "Water Surf. Elev. (m)") ~;;
   if legend then on_axes (length st, 1) 0 Pyplot.Legend else dret tt)
    (st ++ [Pyplot.mk_figure size [calls]])
  = (Return tt, st ++ [Pyplot.mk_figure size [calls ++ flume_labels legend]]).
Proof.
  rewrite (dbind_return _ _ _ _ _
             (on_axes_newest st 1 size [] calls [] _ (Nat.lt_0_succ 0))).
  rewrite (dbind_return _ _ _ _ _
             (on_axes_newest st 1 size [] _ [] _ (Nat.lt_0_succ 0))).
  unfold flume_labels. destruct legend.
  - rewrite (on_axes_newest st 1 size [] _ [] _ (Nat.lt_0_succ 0)).
    cbn [app]. rewrite <- !app_assoc. reflexivity.
  - unfold dret. cbn [app]. rewrite <- !app_assoc. reflexivity.
Qed.

(** [quick_flume_wse_plot] as one loop over the indices that its argument
    stands for. *)
Lemma quick_flume_wse_plot_listed (r : Run) (arg : index_arg)
    (size : float * float) (legend : bool) (st : Pyplot.state) :
  quick_flume_wse_plot r arg size legend st
  = (draw_each (listed arg) (fun index => flume_curve r (length st, 1) index) ~;;
     on_axes (length st, 1) 0 (Pyplot.SetXLabel "Cross-shore distance (m)") ~;;
     on_axes (length st, 1) 0 (Pyplot.SetYLabel "Water Surf. Elev. (m)") ~;;
     if legend then on_axes (length st, 1) 0 Pyplot.Legend else dret tt)
      (st ++ [Pyplot.mk_figure size [[]]]).
Proof.
  unfold quick_flume_wse_plot. unfold dbind at 1, subplots. cbn [repeat].
  destruct arg as [index|indices]; cbn [listed draw_each].
  - unfold dbind at 1 4. rewrite dbind_dret_unit. reflexivity.
  - reflexivity.
Qed.

Lemma quick_flume_wse_plot_rows (r : Run) (wse locs : Numpy.ndarray2)
    (time : list PyDatetime.datetime) (T W : nat) (arg : index_arg)
    (rows : list nat) (size : float * float) (legend : bool)
    (st : Pyplot.state) :
  flume_wse r = Some wse ->
  flume_wse_locs r = Some locs ->
  datetime r = Some time ->
  length time = T ->
  Numpy.has_shape wse T W ->
  Numpy.has_shape locs T W ->
  Forall2 (fun index k => py_index index T = Some k) (listed arg) rows ->
  quick_flume_wse_plot r arg size legend st
  = (Return tt,
     st ++ [Pyplot.mk_figure size
              [map (flume_curve_of wse locs time) rows ++ flume_labels legend]]).
Proof.
  intros Hwse Hlocs Htime HT Hs1 Hs2 Hall.
  rewrite quick_flume_wse_plot_listed.
  rewrite (dbind_return _ _ _ _ _
             (curves_loop r wse locs time T W st size Hwse Hlocs Htime HT Hs1 Hs2
                (listed arg) rows Hall [])).
  cbn [app]. apply flume_labels_set.
Qed.

(** [quick_flume_wse_plot] on a run that holds flume matrices of a same
    shape with one row per instant, for indices that are all within the
    rows, negative ones counting from the end: it returns and leaves one new
    figure with a single [Axes], which holds one curve per index, in the
    order of the indices, and then the x label, the y label and, if asked,
    the legend. The curve of row [k] is row [k] of [flume_wse] against row
    [k] of [flume_wse_locs], labelled with the time of day of instant [k]. *)
Theorem quick_flume_wse_plot_curves :
  forall (r : Run) (wse locs : Numpy.ndarray2) (time : list PyDatetime.datetime)
         (T W : nat) (arg : index_arg) (rows : list nat)
         (size : float * float) (legend : bool) (st : Pyplot.state),
    flume_wse r = Some wse ->
    flume_wse_locs r = Some locs ->
    datetime r = Some time ->
    length time = T ->
    Numpy.has_shape wse T W ->
    Numpy.has_shape locs T W ->
    Forall2 (fun index k => py_index index T = Some k) (listed arg) rows ->
    quick_flume_wse_plot r arg size legend st
    = (Return tt,
       st ++ [Pyplot.mk_figure size
                [map (flume_curve_of wse locs time) rows ++ flume_labels legend]]).
Proof.
  intros r wse locs time T W arg rows size legend st.
  apply quick_flume_wse_plot_rows.
Qed.

Lemma quick_flume_wse_plot_curves_witness :
  quick_flume_wse_plot (self flumed) (Many [0; -1]%Z) (8, 4)%float true []
  = (Return tt,
     [Pyplot.mk_figure (8, 4)%float
        [[Pyplot.Plot (Pyplot.Floats [0.5; 10; 20]%float) [7; 1; 2]%float
            "time: 00:00:00";
          Pyplot.Plot (Pyplot.Floats [0.125; 10; 20]%float) [9; 5; 6]%float
            "time: 00:00:00";
          Pyplot.SetXLabel "Cross-shore distance (m)";
          Pyplot.SetYLabel "Water Surf. Elev. (m)";
          Pyplot.Legend]]]).
Proof.
  apply (quick_flume_wse_plot_curves (self flumed)
           (Numpy.mk_ndarray2 3 [[7; 1; 2]; [8; 3; 4]; [9; 5; 6]]%float)
           (Numpy.mk_ndarray2 3
              [[0.5; 10; 20]; [0.25; 10; 20]; [0.125; 10; 20]]%float)
           stamps 3 3 (Many [0; -1]%Z) [0; 2] (8, 4)%float true []).
  - reflexivity.
  - reflexivity.
  - reflexivity.
  - reflexivity.
  - repeat split; repeat constructor.
  - repeat split; repeat constructor.
  - repeat constructor.
Defined.

(** [quick_flume_wse_plot] checks no index before it draws. When the
    indices start with some that are within the rows and go on with one that
    is not, the method raises numpy's [IndexError] for that one; the figure
    stays in pyplot with the curves drawn before the failure, and without
    axis labels or legend. *)
Theorem quick_flume_wse_plot_bad_index :
  forall (r : Run) (wse locs : Numpy.ndarray2) (time : list PyDatetime.datetime)
         (T W : nat) (arg : index_arg) (good : list Z) (rows : list nat)
         (bad : Z) (rest : list Z) (size : float * float) (legend : bool)
         (st : Pyplot.state),
    flume_wse r = Some wse ->
    flume_wse_locs r = Some locs ->
    datetime r = Some time ->
    length time = T ->
    Numpy.has_shape wse T W ->
    Numpy.has_shape locs T W ->
    listed arg = good ++ bad :: rest ->
    Forall2 (fun index k => py_index index T = Some k) good rows ->
    (bad < - Z.of_nat T \/ Z.of_nat T <= bad)%Z ->
    quick_flume_wse_plot r arg size legend st
    = (Raise (mk_exn IndexError
                ("index " ++ str_of_Z bad
                   ++ " is out of bounds for axis 0 with size "
                   ++ str_of_nat T)%string),
       st ++ [Pyplot.mk_figure size [map (flume_curve_of wse locs time) rows]]).
Proof.
  intros r wse locs time T W arg good rows bad rest size legend st
    Hwse Hlocs Htime HT Hs1 Hs2 Hids Hall Hbad.
  rewrite quick_flume_wse_plot_listed, Hids.
  apply dbind_raise. rewrite draw_each_app.
  rewrite (dbind_return _ _ _ _ _
             (curves_loop r wse locs time T W st size Hwse Hlocs Htime HT Hs1 Hs2
                good rows Hall [])).
  cbn [app draw_each]. apply dbind_raise.
  unfold flume_curve. rewrite Hwse. cbn [getattr].
  rewrite dbind_dlift. unfold np_row.
  rewrite (proj1 Hs1), py_index_outside by exact Hbad.
  reflexivity.
Qed.

Lemma quick_flume_wse_plot_bad_index_witness :
  quick_flume_wse_plot (self flumed) (Many [1; 3; 0]%Z) (8, 4)%float true []
  = (Raise (mk_exn IndexError "index 3 is out of bounds for axis 0 with size 3"),
     [Pyplot.mk_figure (8, 4)%float
        [[Pyplot.Plot (Pyplot.Floats [0.25; 10; 20]%float) [8; 3; 4]%float
            "time: 12:00:00"]]]).
Proof.
  apply (quick_flume_wse_plot_bad_index (self flumed)
           (Numpy.mk_ndarray2 3 [[7; 1; 2]; [8; 3; 4]; [9; 5; 6]]%float)
           (Numpy.mk_ndarray2 3
              [[0.5; 10; 20]; [0.25; 10; 20]; [0.125; 10; 20]]%float)
           stamps 3 3 (Many [1; 3; 0]%Z) [1%Z] [1] 3%Z [0%Z] (8, 4)%float true []).
  - reflexivity.
  - reflexivity.
  - reflexivity.
  - reflexivity.
  - repeat split; repeat constructor.
  - repeat split; repeat constructor.
  - reflexivity.
  - repeat constructor.
  - cbn. lia.
Defined.

(** On a [Run] on which [construct_flume_wse] has not stored
    [flume_wse], [quick_flume_wse_plot] with an index or a list that is not
    empty raises [AttributeError], after it has created its figure: the
    figure stays in pyplot, its [Axes] empty. *)
Theorem quick_flume_wse_plot_unbuilt :
  forall (r : Run) (arg : index_arg) (size : float * float) (legend : bool)
         (st : Pyplot.state),
    flume_wse r = None ->
    listed arg <> [] ->
    quick_flume_wse_plot r arg size legend st
    = (Raise (mk_exn AttributeError "'Run' object has no attribute 'flume_wse'"),
       st ++ [Pyplot.mk_figure size [[]]]).
Proof.
  intros r arg size legend st Hwse Hne.
  rewrite quick_flume_wse_plot_listed.
  destruct (listed arg) as [|index rest]; [congruence|].
  apply dbind_raise. cbn [draw_each]. apply dbind_raise.
  unfold flume_curve. rewrite Hwse. reflexivity.
Qed.

Lemma quick_flume_wse_plot_unbuilt_witness :
  quick_flume_wse_plot (self built) (One 0%Z) (8, 4)%float false []
  = (Raise (mk_exn AttributeError "'Run' object has no attribute 'flume_wse'"),
     [Pyplot.mk_figure (8, 4)%float [[]]]).
Proof.
  apply (quick_flume_wse_plot_unbuilt (self built) (One 0%Z) (8, 4)%float
           false []).
  - reflexivity.
  - discriminate.
Defined.

(** The two plotting methods differ on an empty list. With no
    identifier, [quick_plot_wave_gauges] asks pyplot for a grid of no rows:
    [ValueError], and a figure without [Axes] stays in pyplot. With no
    index, [quick_flume_wse_plot] reads nothing of the [Run]: on any
    [Run], built or not, it returns and leaves a figure whose [Axes] holds
    the labels and no curve. *)
Theorem plots_of_empty_list :
  forall (r : Run) (size : float * float) (legend ylabel xlabel : bool)
         (time_units : string) (st : Pyplot.state),
    quick_plot_wave_gauges r (Many []) size legend ylabel xlabel time_units st
    = (Raise (mk_exn ValueError
                "Number of rows must be a positive integer, not 0"),
       st ++ [Pyplot.mk_figure size []])
    /\ quick_flume_wse_plot r (Many []) size legend st
       = (Return tt, st ++ [Pyplot.mk_figure size [flume_labels legend]]).
Proof.
  intros r size legend ylabel xlabel time_units st. split.
  - reflexivity.
  - rewrite quick_flume_wse_plot_listed. cbn [listed draw_each].
    unfold dbind at 1, dret. apply (flume_labels_set st size [] legend).
Qed.

(** The matrices that [construct_flume_wse] stores have one row per time. *)
Lemma flume_matrices_shapes (T G : nat) (wm : WaveMaker.t)
    (surface : Numpy.ndarray2) (table : DataFrame) :
  length (WaveMaker.eta_wm wm) = T ->
  length (WaveMaker.position wm) = T ->
  Numpy.has_shape surface T G ->
  Numpy.has_shape (df_values table) G 2 ->
  Numpy.has_shape
    (Numpy.mk_ndarray2 (G + 1)
       (map (fun vr => fst vr :: snd vr)
          (combine (WaveMaker.eta_wm wm) (Numpy.rows surface))))
    T (G + 1)
  /\ Numpy.has_shape
       (Numpy.mk_ndarray2 (G + 1)
          (map (fun v => v :: Numpy.column 0 (df_values table))
             (WaveMaker.position wm)))
       T (G + 1).
Proof.
  intros Heta Hpos [Hrows [_ Hall]] [Hn _].
  unfold Numpy.nrows in Hrows, Hn.
  unfold Numpy.has_shape, Numpy.nrows. cbn [Numpy.rows Numpy.ncols].
  rewrite !length_map, length_combine, Heta, Hrows, Nat.min_id, Hpos.
  repeat split.
  - apply Forall_forall. intros row Hrow. apply in_map_iff in Hrow.
    destruct Hrow as [[v vs] [Hrow Hin]]. subst row. cbn [fst snd length].
    apply in_combine_r in Hin.
    rewrite (proj1 (Forall_forall _ _) Hall vs Hin). lia.
  - apply Forall_forall. intros row Hrow. apply in_map_iff in Hrow.
    destruct Hrow as [v [Hrow _]]. subst row. cbn [length].
    unfold Numpy.column. rewrite length_map, Hn. lia.
Qed.

(** From the build to the plot. On a [Run] of [T] instants with a wave
    maker, a gauge surface and a location table of matching sizes,
    [construct_flume_wse] followed by [quick_flume_wse_plot] at an index
    within the [T] rows draws one curve: its x data are the wave maker's
    position at that time followed by the x locations of the gauges, its y
    data the elevation at the wave maker at that time followed by that row of
    the gauge surface, and its label the time of day of that instant. *)
Theorem flume_plot_after_build :
  forall (w : world) (T G : nat) (wm : WaveMaker.t) (surface : Numpy.ndarray2)
         (table : DataFrame) (time : list PyDatetime.datetime) (index : Z)
         (k : nat) (size : float * float) (legend : bool) (st : Pyplot.state),
    num_times (self w) = Some T ->
    num_wave_gauges (self w) = Some G ->
    wave_maker (self w) = Some wm ->
    length (WaveMaker.eta_wm wm) = T ->
    length (WaveMaker.position wm) = T ->
    wave_gauge_wse (self w) = Some surface ->
    Numpy.has_shape surface T G ->
    wg_locations (self w) = Some table ->
    df_columns table = ["x_loc"; "y_loc"]%string ->
    Numpy.has_shape (df_values table) G 2 ->
    datetime (self w) = Some time ->
    length time = T ->
    py_index index T = Some k ->
    fst (construct_flume_wse w) = Return tt
    /\ quick_flume_wse_plot (self (snd (construct_flume_wse w))) (One index)
         size legend st
       = (Return tt,
          st ++ [Pyplot.mk_figure size
                   [Pyplot.Plot
                      (Pyplot.Floats
                         (nth k (WaveMaker.position wm) 0%float
                            :: Numpy.column 0 (df_values table)))
                      (nth k (WaveMaker.eta_wm wm) 0%float
                         :: nth k (Numpy.rows surface) [])
                      ("time: "
                         ++ time_str (nth k time (PyDatetime.mk_datetime 0)))%string
                      :: flume_labels legend]]).
Proof.
  intros w T G wm surface table time index k size legend st
    HT HG Hwm Heta Hpos Hsurf Hshape Htab Hcols Hloc Htime Hlen Hk.
  rewrite construct_flume_wse_pure.
  rewrite (flume_matrices_built (self w) T G wm surface table
             HT HG Hwm Heta Hpos Hsurf Hshape Htab Hcols Hloc).
  cbn [fst snd]. split; [reflexivity|].
  destruct (flume_matrices_shapes T G wm surface table Heta Hpos Hshape Hloc)
    as [Hs1 Hs2].
  pose proof (py_index_in_range index T k Hk) as Hlt.
  erewrite quick_flume_wse_plot_rows
    with (time := time) (T := T) (W := G + 1) (rows := [k]);
    [ | reflexivity | reflexivity | exact Htime | exact Hlen | exact Hs1
      | exact Hs2 | repeat constructor; exact Hk ].
  cbn [map app]. unfold flume_curve_of. cbn [Numpy.rows].
  assert (Hrows : length (Numpy.rows surface) = T) by exact (proj1 Hshape).
  rewrite (nth_indep _ [] ((fun v => v :: Numpy.column 0 (df_values table)) 0%float))
    by (rewrite length_map; lia).
  rewrite (map_nth (fun v => v :: Numpy.column 0 (df_values table))).
  rewrite (nth_indep _ []
             ((fun vr : float * list float => fst vr :: snd vr) (0%float, [])))
    by (rewrite length_map, length_combine; lia).
  rewrite (map_nth (fun vr : float * list float => fst vr :: snd vr)).
  rewrite combine_nth by lia.
  reflexivity.
Qed.

Lemma flume_plot_after_build_witness :
  fst (construct_flume_wse built) = Return tt
  /\ quick_flume_wse_plot (self (snd (construct_flume_wse built))) (One (-2)%Z)
       (8, 4)%float false []
     = (Return tt,
        [Pyplot.mk_figure (8, 4)%float
           [[Pyplot.Plot (Pyplot.Floats [0.25; 10; 20]%float) [8; 3; 4]%float
               "time: 12:00:00";
             Pyplot.SetXLabel "Cross-shore distance (m)";
             Pyplot.SetYLabel "Water Surf. Elev. (m)"]]]).
Proof.
  apply (flume_plot_after_build built 3 2
           (WaveMaker.new [7; 8; 9]%float [0.5; 0.25; 0.125]%float (Some stamps))
           (Numpy.mk_ndarray2 2 [[1; 2]; [3; 4]; [5; 6]]%float)
           (mk_DataFrame (Numpy.mk_ndarray2 2 [[10; 0]; [20; 0]]%float)
              ["x_loc"; "y_loc"]%string)
           stamps (-2)%Z 1 (8, 4)%float false []).
  - reflexivity.
  - reflexivity.
  - reflexivity.
  - reflexivity.
  - reflexivity.
  - reflexivity.
  - repeat split; repeat constructor.
  - reflexivity.
  - reflexivity.
  - repeat split; repeat constructor.
  - reflexivity.
  - reflexivity.
  - reflexivity.
Defined.

(** From the load to the plot. After the first [load_wave_data] of a
    container, [quick_plot_wave_gauges] of an identifier [id] of a gauge
    draws entry [id - 1] of the first axis of [eta] against the time axis,
    labelled [id], if that entry has as many values as there are time
    codes. If it has not, matplotlib refuses the curve: [ValueError], and
    the figure stays with its [Axes] empty. *)
Theorem plot_after_load :
  forall (loadmat : string -> outcome mat_arrays) (m : mat_arrays) (w : world)
         (time : list PyDatetime.datetime) (first : PyDatetime.datetime)
         (id : Z) (x y : float) (row : list float) (size : float * float)
         (legend ylabel xlabel : bool) (time_units : string)
         (st : Pyplot.state),
    wave_gauges (self w) = [] ->
    loadmat (wave_file_path (self w)) = Return m ->
    Forall2 (fun v d => epoch_plus_days (v + load_time_offset) = Return d)
      (mat_date m) time ->
    nth_error time 0 = Some first ->
    Nat.min (length (mat_x m)) (length (mat_y m)) <= length (mat_eta m) ->
    (1 <= id)%Z ->
    nth_error (mat_x m) (Z.to_nat (id - 1)) = Some x ->
    nth_error (mat_y m) (Z.to_nat (id - 1)) = Some y ->
    nth_error (mat_eta m) (Z.to_nat (id - 1)) = Some row ->
    quick_plot_wave_gauges (self (snd (load_wave_data loadmat w))) (One id)
      size legend ylabel xlabel time_units st
    = if length row =? length (mat_date m)
      then (Return tt,
            st ++ [Pyplot.mk_figure size
                     [gauge_panel time legend ylabel xlabel time_units
                        (WaveGauge.new id (x, y) row (Some time))]])
      else (Raise (mk_exn ValueError
                     ("x and y must have same first dimension, but have shapes "
                        ++ Numpy.shape1 (length (mat_date m)) ++ " and "
                        ++ Numpy.shape1 (length row))%string),
            st ++ [Pyplot.mk_figure size [[]]]).
Proof.
  intros loadmat m w time first id x y row size legend ylabel xlabel time_units
    st Hfresh Hm Hall Hfirst Hlen Hid Hx Hy Hrow.
  rewrite (load_wave_data_ok loadmat m time first w Hm Hall Hfirst Hlen).
  cbn [snd].
  pose proof (Forall2_same_length _ _ _ Hall) as Hsame.
  set (r := self (gauges_added _ _)).
  assert (Htime : datetime r = Some time) by reflexivity.
  assert (Hgauges :
            wave_gauges r
            = gauges_from 0 (combine (mat_x m) (mat_y m)) (mat_eta m) (Some time)).
  { subst r. unfold gauges_added. cbn [self wave_gauges with_num_wave_gauges
      with_wave_gauges wave_maker_stored with_wave_maker time_stored
      with_num_times with_start_date with_datetime].
    rewrite Hfresh. reflexivity. }
  assert (Hfound :
            gauge_to_plot r id
            = Return (WaveGauge.eta (WaveGauge.new id (x, y) row (Some time)),
                      WaveGauge.id (WaveGauge.new id (x, y) row (Some time)))).
  { pose proof (gauges_from_nth (Some time) (Z.to_nat (id - 1))
                  (combine (mat_x m) (mat_y m)) 0 (mat_eta m) (x, y) row
                  (combine_nth_error _ _ _ _ _ Hx Hy) Hrow) as Hnth.
    replace (Z.of_nat (0 + Z.to_nat (id - 1)) + 1)%Z with id in Hnth by lia.
    assert (Hin : Z.to_nat (id - 1)
                  < length (gauges_from 0 (combine (mat_x m) (mat_y m))
                              (mat_eta m) (Some time)))
      by (apply nth_error_Some; rewrite Hnth; discriminate).
    unfold gauge_to_plot, list_getitem, getitem.
    rewrite Hgauges, py_index_forward by lia.
    rewrite Hnth. reflexivity. }
  unfold quick_plot_wave_gauges, dbind at 1, subplots, enumerate.
  cbn [repeat enumerate_from draw_each fst snd].
  rewrite dbind_dret_unit.
  destruct (length row =? length (mat_date m)) eqn:Hrows.
  - apply Nat.eqb_eq in Hrows.
    apply (plot_gauge_drawn r time legend ylabel xlabel time_units st 1 size
             [] [] id (WaveGauge.new id (x, y) row (Some time)) Hfound Htime).
    + cbn [WaveGauge.eta]. lia.
    + cbn. lia.
  - unfold plot_gauge. rewrite dbind_dlift, Hfound, Htime.
    cbn [fst snd option_map WaveGauge.eta WaveGauge.id].
    apply dbind_raise. unfold ax_plot. cbn [Pyplot.xlen].
    rewrite <- Hsame, Nat.eqb_sym, Hrows. reflexivity.
Qed.

Lemma plot_after_load_witness :
  quick_plot_wave_gauges
    (self (snd (load_wave_data (file_of container_time_major) fresh)))
    (One 2%Z) (8, 6)%float false true true "min" []
  = (Raise (mk_exn ValueError
              "x and y must have same first dimension, but have shapes (3,) and (2,)"),
     [Pyplot.mk_figure (8, 6)%float [[]]]).
Proof.
  apply (plot_after_load (file_of container_time_major) container_time_major
           fresh stamps (PyDatetime.mk_datetime 63587203200000000) 2%Z
           20%float 0%float [3; 4]%float (8, 6)%float false true true "min" []).
  - reflexivity.
  - reflexivity.
  - repeat constructor.
  - reflexivity.
  - cbn. lia.
  - lia.
  - reflexivity.
  - reflexivity.
  - reflexivity.
Defined.
